(** * The LLMC container codec of [llmc_python] / [llmd_python]

    A shallow embedding of [src/llmc_python/parser.py], [writer.py] and
    [types.py], and of the parser and the writer of [src/llmd_python] where
    they differ from them, followed by the properties stated for them.

    Conventions of the embedding:
    - a Python [bytes] object is a [list byte]; a Python [str] is a Rocq
      [string] holding its UTF-8 encoding, so that [str.encode("utf-8")] is
      [list_byte_of_string] and [bytes.decode("utf-8")] is a validity check;
    - a Python [int] is a [Z]; floats do not occur in the modelled code;
    - dynamically typed values (the conversation, YAML and JSON trees) are
      [pyval]; a [dict] is an association list in insertion order;
    - a raised exception is the [Raise] branch of [result]; code that talks to
      a stream threads the stream through the [io] monad, so that the bytes
      written before an exception stay observable;
    - the YAML and JSON text codecs and the file image of the embedded store
      are services outside the repository: they are the operations of the
      class [Capabilities]. *)

From Stdlib Require Import ZArith Strings.String Strings.Ascii Strings.Byte.
From Stdlib Require Import Strings.HexString.
From Stdlib Require Import Lia Bool DecimalString Permutation List.
Import ListNotations.
Local Open Scope string_scope.
Local Open Scope list_scope.
Local Open Scope nat_scope.

Set Implicit Arguments.

(* ===================================================================== *)
(** * Part I: the embedding                                               *)
(* ===================================================================== *)

(** ** Exceptions and results *)

(** The exception classes the code raises or lets through. The three LLMC
    classes come from [types.py]; the others are raised by the standard
    library ([struct], [json], [sqlite3], the interpreter itself) or by the
    YAML package. The last three are the classes of the interpreter that
    derive from [BaseException] and not from [Exception]: no code of the
    package raises them, a service it calls may. Every exception carries
    the text of [str(e)]. *)
Inductive exn : Type :=
| LLMCFormatError (msg : string)
| LLMCParseError (msg : string)
| LLMCValidationError (msg : string)
| struct_error (msg : string)
| JSONDecodeError (msg : string)
| YAMLError (msg : string)
| UnicodeDecodeError (msg : string)
| OperationalError (msg : string)
| IntegrityError (msg : string)
| DatabaseError (msg : string)
| ProgrammingError (msg : string)
| KeyError (msg : string)
| TypeError (msg : string)
| AttributeError (msg : string)
| OverflowError (msg : string)
| KeyboardInterrupt (msg : string)
| SystemExit (msg : string)
| GeneratorExit (msg : string).

(** [str(e)]. *)
Definition exn_str (e : exn) : string :=
  match e with
  | LLMCFormatError m | LLMCParseError m | LLMCValidationError m
  | struct_error m | JSONDecodeError m | YAMLError m | UnicodeDecodeError m
  | OperationalError m | IntegrityError m | DatabaseError m
  | ProgrammingError m | KeyError m | TypeError m | AttributeError m
  | OverflowError m | KeyboardInterrupt m | SystemExit m | GeneratorExit m => m
  end.

(** [isinstance(e, Exception)]. *)
Definition is_Exception (e : exn) : bool :=
  match e with
  | KeyboardInterrupt _ | SystemExit _ | GeneratorExit _ => false
  | _ => true
  end.

(** [isinstance(e, sqlite3.Error)]. *)
Definition is_sqlite3_Error (e : exn) : bool :=
  match e with
  | OperationalError _ | IntegrityError _ | DatabaseError _
  | ProgrammingError _ => true
  | _ => false
  end.

(** [isinstance(e, sqlite3.OperationalError)]. *)
Definition is_OperationalError (e : exn) : bool :=
  match e with OperationalError _ => true | _ => false end.

Inductive result (A : Type) : Type :=
| Ok (a : A)
| Raise (e : exn).
Arguments Ok {A} a.
Arguments Raise {A} e.

Definition rbind {A B} (r : result A) (k : A -> result B) : result B :=
  match r with
  | Ok a => k a
  | Raise e => Raise e
  end.

(** [try: r except <class>: h e]: the handler runs on the exceptions that
    [catches] selects, every other outcome passes through. *)
Definition try_except {A} (r : result A) (catches : exn -> bool)
    (h : exn -> result A) : result A :=
  match r with
  | Ok a => Ok a
  | Raise e => if catches e then h e else Raise e
  end.

Declare Scope result_scope.
Delimit Scope result_scope with result.
Notation "x <- r ;; k" := (rbind r (fun x => k))
  (at level 61, r at next level, right associativity) : result_scope.
Notation "' p <- r ;; k" := (rbind r (fun x => let p := x in k))
  (at level 61, p pattern, r at next level, right associativity) : result_scope.

(** The loop [for x in xs: body], where an exception of the body ends it. *)
Fixpoint for_each {A B} (f : A -> result B) (xs : list A) : result (list B) :=
  match xs with
  | [] => Ok []
  | x :: r =>
      match f x with
      | Ok y =>
          match for_each f r with
          | Ok ys => Ok (y :: ys)
          | Raise e => Raise e
          end
      | Raise e => Raise e
      end
  end.

(** ** Text helpers *)

Definition bytes := list byte.

(** [str(n)] and [f"{n}"] of an [int]. *)
Definition str_of_int (z : Z) : string := NilZero.string_of_int (Z.to_int z).

Definition bytes_eqb (a b : bytes) : bool :=
  if list_eq_dec Byte.byte_eq_dec a b then true else false.

Definition hex_digit (n : N) : ascii :=
  if (n <? 10)%N then ascii_of_N (48 + n) else ascii_of_N (87 + n).

(** One byte inside the [repr] of a [bytes] object quoted by [q]. *)
Definition repr_byte (q : ascii) (b : byte) : string :=
  let n := Byte.to_N b in
  let c := ascii_of_byte b in
  if (n =? 92)%N then "\\"
  else if (n =? 9)%N then "\t"
  else if (n =? 10)%N then "\n"
  else if (n =? 13)%N then "\r"
  else if Ascii.eqb c q then String "\" (String q EmptyString)
  else if ((32 <=? n) && (n <? 127))%N then String c EmptyString
  else String "\" (String "x"
         (String (hex_digit (n / 16)) (String (hex_digit (n mod 16)) EmptyString))).

(** [repr(b)]: single quotes, unless the bytes hold a single quote and no
    double quote. *)
Definition bytes_repr (b : bytes) : string :=
  let has c := existsb (fun x => Ascii.eqb (ascii_of_byte x) c) b in
  let dq := ascii_of_N 34 in
  let q := if has "'"%char && negb (has dq) then dq else "'"%char in
  String "b" (String q (String.concat EmptyString (map (repr_byte q) b) ++ String q EmptyString)%string).

(** ** Binary streams *)

(** A [BinaryIO] object held in memory (an [io.BytesIO]): its content and
    the position of the next read or write. Such a stream takes every write,
    and its [seek] takes every offset below 2^63; the failures of other
    streams (a sink that runs full, an offset the stream refuses) are not
    modelled. *)
Record BinaryIO : Type := mkStream { content : bytes; position : nat }.

(** Code running against a stream. *)
Definition io (A : Type) : Type := BinaryIO -> result A * BinaryIO.

Definition ret {A} (a : A) : io A := fun s => (Ok a, s).
Definition throw {A} (e : exn) : io A := fun s => (Raise e, s).
Definition lift {A} (r : result A) : io A := fun s => (r, s).
Definition bind {A B} (m : io A) (k : A -> io B) : io B :=
  fun s => match m s with
           | (Ok a, s') => k a s'
           | (Raise e, s') => (Raise e, s')
           end.

Declare Scope io_scope.
Delimit Scope io_scope with io.
Notation "x <- m ;; k" := (bind m (fun x => k))
  (at level 61, m at next level, right associativity) : io_scope.
Notation "m ;;; k" := (bind m (fun _ => k))
  (at level 61, right associativity) : io_scope.

(** [try: m except Exception as e: h e] around stream code: an exception
    that is no [Exception] passes through. *)
Definition io_try {A} (m : io A) (h : exn -> io A) : io A :=
  fun s => match m s with
           | (Ok a, s') => (Ok a, s')
           | (Raise e, s') => if is_Exception e then h e s' else (Raise e, s')
           end.

(** [stream.read(n)]: at most [n] bytes, fewer at the end of the stream. *)
Definition stream_read (n : nat) : io bytes :=
  fun s =>
    let got := firstn n (skipn (position s) (content s)) in
    (Ok got, mkStream (content s) (position s + length got)).

(** [stream.read()]: everything up to the end. *)
Definition stream_read_all : io bytes :=
  fun s =>
    let got := skipn (position s) (content s) in
    (Ok got, mkStream (content s) (position s + length got)).

(** [stream.seek(off)]. *)
Definition stream_seek (off : nat) : io unit :=
  fun s => (Ok tt, mkStream (content s) off).

(** [stream.write(b)]: overwrites from the position on and extends the
    content; a position past the end is first reached with zero bytes. *)
Definition stream_write (b : bytes) : io unit :=
  fun s =>
    let c := content s ++ repeat x00 (position s - length (content s)) in
    (Ok tt,
     mkStream (firstn (position s) c ++ b ++ skipn (position s + length b) c)
              (position s + length b)).

(** ** [struct.pack] and [struct.unpack], little-endian unsigned formats *)

Definition byte_of_Z (z : Z) : byte :=
  match Byte.of_N (Z.to_N (z mod 256)) with
  | Some b => b
  | None => x00
  end.

Definition Z_of_byte (b : byte) : Z := Z.of_N (Byte.to_N b).

Fixpoint le_decode (bs : bytes) : Z :=
  match bs with
  | [] => 0
  | b :: r => Z_of_byte b + 256 * le_decode r
  end.

Fixpoint le_encode (n : nat) (v : Z) : bytes :=
  match n with
  | O => []
  | S k => byte_of_Z v :: le_encode k (v / 256)
  end.

(** The formats the code uses: ["<B"], ["<I"] and ["<Q"]. *)
Inductive struct_fmt : Type := fmt_B | fmt_I | fmt_Q.

Definition fmt_size (f : struct_fmt) : nat :=
  match f with fmt_B => 1 | fmt_I => 4 | fmt_Q => 8 end.

(** [struct.unpack(f, b)[0]]. *)
Definition struct_unpack (f : struct_fmt) (b : bytes) : result Z :=
  if Nat.eqb (length b) (fmt_size f) then Ok (le_decode b)
  else Raise (struct_error
                ("unpack requires a buffer of "
                 ++ str_of_int (Z.of_nat (fmt_size f)) ++ " bytes")%string).

(** [struct.pack(f, v)]. *)
Definition struct_pack (f : struct_fmt) (v : Z) : result bytes :=
  if (0 <=? v)%Z && (v <? 256 ^ Z.of_nat (fmt_size f))%Z
  then Ok (le_encode (fmt_size f) v)
  else Raise (struct_error "argument out of range").

(** ** Constants of [types.py] *)

Definition LLMC_MAGIC : bytes := [x4c; x4c; x4d; x43].
Definition LLMC_VERSION : Z := 1.
Definition LLMC_FORMAT_VERSION : Z := 1.
Definition SQLITE_APPLICATION_ID : Z := 0x4C4C4D43.

(** ** [LLMCParser._read_header] and [LLMCWriter._write_header] *)

(** The dictionary [_read_header] returns has these four keys. *)
Record header : Type := mkHeader {
  version : Z;
  format_version : Z;
  yaml_length : Z;
  sqlite_offset : Z
}.

Definition _read_header : io header :=
  (magic <- stream_read 4 ;;
   if negb (bytes_eqb magic LLMC_MAGIC)
   then throw (LLMCFormatError ("Invalid magic bytes: " ++ bytes_repr magic)%string)
   else
   b <- stream_read 1 ;;
   version <- lift (struct_unpack fmt_B b) ;;
   if negb (version =? LLMC_VERSION)%Z
   then throw (LLMCFormatError ("Unsupported version: " ++ str_of_int version)%string)
   else
   _ <- stream_read 3 ;;
   b <- stream_read 4 ;;
   format_version <- lift (struct_unpack fmt_I b) ;;
   if negb (format_version =? 1)%Z
   then throw (LLMCFormatError
                 ("Unsupported format version: " ++ str_of_int format_version)%string)
   else
   b <- stream_read 4 ;;
   yaml_length <- lift (struct_unpack fmt_I b) ;;
   b <- stream_read 8 ;;
   sqlite_offset <- lift (struct_unpack fmt_Q b) ;;
   _ <- stream_read 1 ;;
   _ <- stream_read 7 ;;
   ret (mkHeader version format_version yaml_length sqlite_offset))%io.

Definition _write_header (yaml_length sqlite_offset : Z) : io unit :=
  (stream_write LLMC_MAGIC ;;;
   b <- lift (struct_pack fmt_B LLMC_VERSION) ;;
   stream_write b ;;;
   stream_write [x00; x00; x00] ;;;
   b <- lift (struct_pack fmt_I LLMC_FORMAT_VERSION) ;;
   stream_write b ;;;
   b <- lift (struct_pack fmt_I yaml_length) ;;
   stream_write b ;;;
   b <- lift (struct_pack fmt_Q sqlite_offset) ;;
   stream_write b ;;;
   stream_write [x00] ;;;
   stream_write [x00; x00; x00; x00; x00; x00; x00])%io.


(** ** Dynamically typed values *)

(** The values the code handles without static types: the conversation that
    [write_stream] receives and [parse_stream] builds, and the trees that the
    YAML and JSON codecs produce. The keys of a [dict] are strings, as they
    are in every mapping of [types.py]. *)
#[warnings="-register-all"]
Inductive pyval : Type :=
| PNone
| PBool (b : bool)
| PInt (z : Z)
| PStr (s : string)
| PBytes (b : bytes)
| PList (l : list pyval)
| PDict (d : list (string * pyval)).

Definition dict : Type := list (string * pyval).

(** [d.get(k)] as an option. *)
Fixpoint dict_get (k : string) (d : dict) : option pyval :=
  match d with
  | [] => None
  | (k', v) :: r => if String.eqb k k' then Some v else dict_get k r
  end.

(** [k in d]. *)
Definition dict_in (k : string) (d : dict) : bool :=
  match dict_get k d with Some _ => true | None => false end.

(** [d[k] = v]: an existing key keeps its place, a new key goes last. *)
Fixpoint dict_set (k : string) (v : pyval) (d : dict) : dict :=
  match d with
  | [] => [(k, v)]
  | (k', v') :: r =>
      if String.eqb k k' then (k, v) :: r else (k', v') :: dict_set k v r
  end.

(** The mapping left by [d.pop(k)]. *)
Definition dict_pop (k : string) (d : dict) : dict :=
  filter (fun kv => negb (String.eqb k (fst kv))) d.

(** The name of the type of a value, as error messages print it. *)
Definition type_name (v : pyval) : string :=
  match v with
  | PNone => "NoneType"
  | PBool _ => "bool"
  | PInt _ => "int"
  | PStr _ => "str"
  | PBytes _ => "bytes"
  | PList _ => "list"
  | PDict _ => "dict"
  end.

(** [bool(v)]. *)
Definition py_truthy (v : pyval) : bool :=
  match v with
  | PNone => false
  | PBool b => b
  | PInt z => negb (z =? 0)%Z
  | PStr s => negb (String.eqb s "")
  | PBytes b => match b with [] => false | _ => true end
  | PList l => match l with [] => false | _ => true end
  | PDict d => match d with [] => false | _ => true end
  end.

Definition is_PStr (k : string) (v : pyval) : bool :=
  match v with PStr s => String.eqb k s | _ => false end.

(** [k in v] for a string [k]: key of a mapping, element of a list,
    substring of a string; the other types are not containers of strings. *)
Definition py_in (k : string) (v : pyval) : result bool :=
  match v with
  | PDict d => Ok (dict_in k d)
  | PList l => Ok (existsb (is_PStr k) l)
  | PStr s => Ok (match String.index 0 k s with Some _ => true | None => false end)
  | PBytes _ => Raise (TypeError "a bytes-like object is required, not 'str'")
  | _ => Raise (TypeError ("argument of type '" ++ type_name v
                           ++ "' is not iterable")%string)
  end.

(** [v[k]] for a string [k]. *)
Definition py_getitem (v : pyval) (k : string) : result pyval :=
  match v with
  | PDict d =>
      match dict_get k d with
      | Some x => Ok x
      | None => Raise (KeyError ("'" ++ k ++ "'")%string)
      end
  | PStr _ => Raise (TypeError "string indices must be integers, not 'str'")
  | PBytes _ => Raise (TypeError "byte indices must be integers or slices, not str")
  | PList _ => Raise (TypeError "list indices must be integers or slices, not str")
  | _ => Raise (TypeError ("'" ++ type_name v
                           ++ "' object is not subscriptable")%string)
  end.

(** [v.get(k)]. *)
Definition py_get (v : pyval) (k : string) : result pyval :=
  match v with
  | PDict d => Ok (match dict_get k d with Some x => x | None => PNone end)
  | _ => Raise (AttributeError ("'" ++ type_name v
                                ++ "' object has no attribute 'get'")%string)
  end.

(** ** UTF-8 text *)

Definition in_range (lo hi : N) (b : byte) : bool :=
  ((lo <=? Byte.to_N b) && (Byte.to_N b <=? hi))%N.

(** Well-formed UTF-8: what [bytes.decode("utf-8")] accepts. *)
Fixpoint utf8_valid (bs : bytes) : bool :=
  match bs with
  | [] => true
  | b0 :: r0 =>
      if in_range 0x00 0x7F b0 then utf8_valid r0
      else if in_range 0xC2 0xDF b0 then
        match r0 with
        | b1 :: r1 => in_range 0x80 0xBF b1 && utf8_valid r1
        | _ => false
        end
      else if in_range 0xE0 0xEF b0 then
        match r0 with
        | b1 :: b2 :: r2 =>
            in_range (if in_range 0xE0 0xE0 b0 then 0xA0 else 0x80)
                     (if in_range 0xED 0xED b0 then 0x9F else 0xBF) b1
            && in_range 0x80 0xBF b2 && utf8_valid r2
        | _ => false
        end
      else if in_range 0xF0 0xF4 b0 then
        match r0 with
        | b1 :: b2 :: b3 :: r3 =>
            in_range (if in_range 0xF0 0xF0 b0 then 0x90 else 0x80)
                     (if in_range 0xF4 0xF4 b0 then 0x8F else 0xBF) b1
            && in_range 0x80 0xBF b2 && in_range 0x80 0xBF b3 && utf8_valid r3
        | _ => false
        end
      else false
  end.

(** [b.decode("utf-8")]. *)
Definition utf8_decode (b : bytes) : result string :=
  if utf8_valid b then Ok (string_of_list_byte b)
  else Raise (UnicodeDecodeError "'utf-8' codec can't decode bytes").

(** [s.lstrip('\x00')]. *)
Fixpoint lstrip_nul (b : bytes) : bytes :=
  match b with
  | x00 :: r => lstrip_nul r
  | _ => b
  end.

(** The characters that [str.strip()] removes, in UTF-8: U+0009..U+000D,
    U+001C..U+0020, U+0085, U+00A0, U+1680, U+2000..U+200A, U+2028, U+2029,
    U+202F, U+205F and U+3000. *)
Definition py_whitespace : list bytes :=
  [ [x09]; [x0a]; [x0b]; [x0c]; [x0d]; [x1c]; [x1d]; [x1e]; [x1f]; [x20];
    [xc2; x85]; [xc2; xa0]; [xe1; x9a; x80];
    [xe2; x80; x80]; [xe2; x80; x81]; [xe2; x80; x82]; [xe2; x80; x83];
    [xe2; x80; x84]; [xe2; x80; x85]; [xe2; x80; x86]; [xe2; x80; x87];
    [xe2; x80; x88]; [xe2; x80; x89]; [xe2; x80; x8a];
    [xe2; x80; xa8]; [xe2; x80; xa9]; [xe2; x80; xaf]; [xe2; x81; x9f];
    [xe3; x80; x80] ].

Fixpoint drop_prefix (p l : bytes) : option bytes :=
  match p, l with
  | [], _ => Some l
  | x :: p', y :: l' => if Byte.eqb x y then drop_prefix p' l' else None
  | _ :: _, [] => None
  end.

Fixpoint drop_any (ps : list bytes) (l : bytes) : option bytes :=
  match ps with
  | [] => None
  | p :: r =>
      match drop_prefix p l with
      | Some l' => Some l'
      | None => drop_any r l
      end
  end.

Fixpoint lstrip_seqs (fuel : nat) (ps : list bytes) (l : bytes) : bytes :=
  match fuel with
  | O => l
  | S k =>
      match drop_any ps l with
      | Some l' => lstrip_seqs k ps l'
      | None => l
      end
  end.

Definition lstrip_ws (l : bytes) : bytes :=
  lstrip_seqs (length l) py_whitespace l.

Definition rstrip_ws (l : bytes) : bytes :=
  rev (lstrip_seqs (length l) (map (@rev byte) py_whitespace) (rev l)).

(** [s.lstrip('\x00').strip()]. *)
Definition strip_yaml_text (s : string) : string :=
  string_of_list_byte
    (rstrip_ws (lstrip_ws (lstrip_nul (list_byte_of_string s)))).

(** [s.split(',')]. *)
Fixpoint split_on (c : ascii) (s : string) : list string :=
  match s with
  | EmptyString => [EmptyString]
  | String x r =>
      if Ascii.eqb x c then EmptyString :: split_on c r
      else match split_on c r with
           | h :: t => String x h :: t
           | [] => [String x EmptyString]
           end
  end.

(** ** The embedded relational store *)

(** The storage classes of a stored value (REAL is not used by the schema). *)
Inductive sqlval : Type :=
| SNull
| SInt (z : Z)
| SText (s : string)
| SBlob (b : bytes).

Inductive affinity : Type := AffText | AffInteger | AffBlob.

Record column : Type := mkColumn {
  col_name : string;
  col_affinity : affinity;
  col_notnull : bool;
  col_pk : bool
}.

Definition sqlrow : Type := list sqlval.

Record table : Type := mkTable {
  tbl_columns : list column;
  tbl_rows : list sqlrow
}.

(** A database: the application id of its file header and its tables. Rows
    are kept in insertion order, which is the order of an unordered scan. *)
Record database : Type := mkDatabase {
  application_id : Z;
  tables : list (string * table)
}.

Definition sqlval_eq_dec (a b : sqlval) : {a = b} + {a <> b}.
Proof.
  decide equality;
    [ apply Z.eq_dec | apply string_dec | apply (list_eq_dec Byte.byte_eq_dec) ].
Defined.

Definition sqlval_eqb (a b : sqlval) : bool :=
  if sqlval_eq_dec a b then true else false.

(** The comparison [a = b] of a join condition: unknown, hence not
    satisfied, when either side is NULL. Values of different storage classes
    are taken to differ. *)
Definition sql_equal (a b : sqlval) : bool :=
  match a, b with
  | SNull, _ | _, SNull => false
  | _, _ => sqlval_eqb a b
  end.

Fixpoint bytes_compare (a b : bytes) : comparison :=
  match a, b with
  | [], [] => Eq
  | [], _ :: _ => Lt
  | _ :: _, [] => Gt
  | x :: a', y :: b' =>
      match N.compare (Byte.to_N x) (Byte.to_N y) with
      | Eq => bytes_compare a' b'
      | c => c
      end
  end.

(** The sort order of [ORDER BY]: NULL, then integers, then text in byte
    order (the BINARY collation), then blobs. *)
Definition sql_compare (a b : sqlval) : comparison :=
  match a, b with
  | SNull, SNull => Eq
  | SNull, _ => Lt
  | _, SNull => Gt
  | SInt x, SInt y => Z.compare x y
  | SInt _, _ => Lt
  | _, SInt _ => Gt
  | SText x, SText y => String.compare x y
  | SText _, _ => Lt
  | _, SText _ => Gt
  | SBlob x, SBlob y => bytes_compare x y
  end.

(** Comparison of rows under several sort keys in turn. *)
Fixpoint keys_compare (a b : list sqlval) : comparison :=
  match a, b with
  | x :: a', y :: b' =>
      match sql_compare x y with
      | Eq => keys_compare a' b'
      | c => c
      end
  | _, _ => Eq
  end.

Definition keys_leb (a b : list sqlval) : bool :=
  match keys_compare a b with Gt => false | _ => true end.

Fixpoint insert_sorted {A} (leb : A -> A -> bool) (x : A) (l : list A) : list A :=
  match l with
  | [] => [x]
  | y :: r => if leb x y then x :: l else y :: insert_sorted leb x r
  end.

(** [ORDER BY] under the keys [key]. The engine leaves the order of rows with
    equal keys open; this model keeps them in scan order. *)
Definition order_by {A} (key : A -> list sqlval) (l : list A) : list A :=
  fold_right (insert_sorted (fun a b => keys_leb (key a) (key b))) [] l.

(** Conversion of a value on its way into a column. Values already of the
    column's class, and NULL, are stored as they are; an integer bound to a
    TEXT column is stored as its decimal text, and a text bound to an INTEGER
    column is stored as an integer when it is the decimal text of one. *)
Definition apply_affinity (a : affinity) (v : sqlval) : sqlval :=
  match a, v with
  | AffText, SInt z => SText (str_of_int z)
  | AffInteger, SText s =>
      match NilZero.int_of_string s with
      | Some (Decimal.Pos Decimal.Nil) | Some (Decimal.Neg Decimal.Nil) | None => v
      | Some d => SInt (Z.of_int d)
      end
  | _, _ => v
  end.

Definition find_table (name : string) (db : database) : result table :=
  match find (fun nt => String.eqb name (fst nt)) (tables db) with
  | Some nt => Ok (snd nt)
  | None => Raise (OperationalError ("no such table: " ++ name)%string)
  end.

Fixpoint column_index (name : string) (cols : list column) : option nat :=
  match cols with
  | [] => None
  | c :: r =>
      if String.eqb name (col_name c) then Some O
      else option_map S (column_index name r)
  end.

(** The position of a column that a statement names. *)
Definition resolve_column (t : table) (name : string) : result nat :=
  match column_index name (tbl_columns t) with
  | Some i => Ok i
  | None => Raise (OperationalError ("no such column: " ++ name)%string)
  end.

Definition cell (i : nat) (r : sqlrow) : sqlval := nth i r SNull.

(** [CREATE TABLE name (cols)]. *)
Definition create_table (name : string) (cols : list column) (db : database)
  : result database :=
  match find (fun nt => String.eqb name (fst nt)) (tables db) with
  | Some _ => Raise (OperationalError ("table " ++ name ++ " already exists")%string)
  | None => Ok (mkDatabase (application_id db)
                           (tables db ++ [(name, mkTable cols [])]))
  end.

(** [CREATE INDEX ... ON name(col)]: an index changes no query result; the
    statement only has to name an existing column. *)
Definition create_index (name col : string) (db : database) : result database :=
  (t <- find_table name db ;;
   _ <- resolve_column t col ;;
   Ok db)%result.

(** The value a Python object is bound to as a statement parameter. *)
Definition bind_param (v : pyval) : result sqlval :=
  match v with
  | PNone => Ok SNull
  | PBool b => Ok (SInt (if b then 1 else 0))
  | PInt z =>
      if ((- 2 ^ 63 <=? z) && (z <? 2 ^ 63))%Z then Ok (SInt z)
      else Raise (OverflowError "Python int too large to convert to SQLite INTEGER")
  | PStr s => Ok (SText s)
  | PBytes b => Ok (SBlob b)
  | _ => Raise (ProgrammingError
                  ("Error binding parameter: type '" ++ type_name v
                   ++ "' is not supported")%string)
  end.

(** The first NOT NULL column of [cols] that [row] leaves NULL. *)
Fixpoint notnull_violation (cols : list column) (row : sqlrow) : option string :=
  match cols, row with
  | c :: cs, v :: vs =>
      match col_notnull c, v with
      | true, SNull => Some (col_name c)
      | _, _ => notnull_violation cs vs
      end
  | _, _ => None
  end.

(** The first primary-key column of [cols] in which [row] repeats a value
    that a stored row already has (NULL never counts as repeated). *)
Fixpoint unique_violation (cols : list column) (i : nat) (row : sqlrow)
    (stored : list sqlrow) : option string :=
  match cols with
  | [] => None
  | c :: cs =>
      if col_pk c && existsb (fun r => sql_equal (cell i r) (cell i row)) stored
      then Some (col_name c)
      else unique_violation cs (S i) row stored
  end.

Definition replace_table (name : string) (t : table) (db : database) : database :=
  mkDatabase (application_id db)
    (map (fun nt => if String.eqb name (fst nt) then (name, t) else nt) (tables db)).

(** [INSERT INTO name (all columns, in table order) VALUES (values)]. *)
Definition insert_row (name : string) (values : sqlrow) (db : database)
  : result database :=
  (t <- find_table name db ;;
   let row := map (fun cv => apply_affinity (col_affinity (fst cv)) (snd cv))
                  (combine (tbl_columns t) values) in
   match notnull_violation (tbl_columns t) row with
   | Some c => Raise (IntegrityError
                        ("NOT NULL constraint failed: " ++ name ++ "." ++ c)%string)
   | None =>
       match unique_violation (tbl_columns t) 0 row (tbl_rows t) with
       | Some c => Raise (IntegrityError
                            ("UNIQUE constraint failed: " ++ name ++ "." ++ c)%string)
       | None =>
           Ok (replace_table name (mkTable (tbl_columns t) (tbl_rows t ++ [row])) db)
       end
   end)%result.

(** [SELECT cols FROM name], in scan order. *)
Definition select_from (name : string) (cols : list string) (db : database)
  : result (list sqlrow) :=
  (t <- find_table name db ;;
   idx <- for_each (resolve_column t) cols ;;
   Ok (map (fun r => map (fun i => cell i r) idx) (tbl_rows t)))%result.

(** The text of a value inside [GROUP_CONCAT]. *)
Definition sql_text (v : sqlval) : string :=
  match v with
  | SNull => ""
  | SInt z => str_of_int z
  | SText s => s
  | SBlob b => string_of_list_byte b
  end.

(** [GROUP_CONCAT(x)] over the values [vs] of a group: NULL values are
    skipped, and the result is NULL when nothing is left. *)
Definition group_concat (vs : list sqlval) : sqlval :=
  match filter (fun v => negb (sqlval_eqb v SNull)) vs with
  | [] => SNull
  | nn => SText (String.concat "," (map sql_text nn))
  end.

(** One group of the alternate-dialect message query: the grouping columns,
    the [sequence] of the group's first row and the joined attachment ids. *)
Record msg_group : Type := mkGroup {
  grp_key : sqlrow;
  grp_sequence : sqlval;
  grp_attachment_ids : list sqlval
}.

Definition row_eqb (a b : sqlrow) : bool :=
  if list_eq_dec sqlval_eq_dec a b then true else false.

(** Adds a joined row to the group with its key, or opens a new group. *)
Fixpoint add_to_groups (g : msg_group) (gs : list msg_group) : list msg_group :=
  match gs with
  | [] => [g]
  | h :: r =>
      if row_eqb (grp_key h) (grp_key g)
      then mkGroup (grp_key h) (grp_sequence h)
                   (grp_attachment_ids h ++ grp_attachment_ids g) :: r
      else h :: add_to_groups g r
  end.

Definition group_by (gs : list msg_group) : list msg_group :=
  fold_left (fun acc g => add_to_groups g acc) gs [].

(** The alternate-dialect message query of [_parse_messages]:
    [SELECT m.id, m.role, m.content, m.timestamp, m.parent_id, m.metadata,
            GROUP_CONCAT(a.id)
     FROM messages m LEFT JOIN attachments a ON a.message_id = m.id
     GROUP BY m.id, m.role, m.content, m.timestamp, m.parent_id, m.metadata
     ORDER BY m.sequence, m.timestamp].
    It fails with [OperationalError] when a table or column it names is
    missing. *)
Definition select_messages_joined (db : database) : result (list sqlrow) :=
  (m <- find_table "messages" db ;;
   a <- find_table "attachments" db ;;
   mcols <- for_each (resolve_column m)
              ["id"; "role"; "content"; "timestamp"; "parent_id"; "metadata"] ;;
   a_id <- resolve_column a "id" ;;
   a_mid <- resolve_column a "message_id" ;;
   m_id <- resolve_column m "id" ;;
   m_seq <- resolve_column m "sequence" ;;
   let joined :=
     map (fun r =>
            mkGroup (map (fun i => cell i r) mcols) (cell m_seq r)
              (map (cell a_id)
                 (filter (fun ar => sql_equal (cell a_mid ar) (cell m_id r))
                         (tbl_rows a))))
         (tbl_rows m) in
   let groups :=
     order_by (fun g => [grp_sequence g; cell 3 (grp_key g)]) (group_by joined) in
   Ok (map (fun g => grp_key g ++ [group_concat (grp_attachment_ids g)]) groups))%result.

(** The write-schema message query:
    [SELECT id, role, content, timestamp, parent_id, attachments, metadata
     FROM messages ORDER BY timestamp]. *)
Definition select_messages_plain (db : database) : result (list sqlrow) :=
  (rows <- select_from "messages"
             ["id"; "role"; "content"; "timestamp"; "parent_id"; "attachments";
              "metadata"] db ;;
   Ok (order_by (fun r => [cell 3 r]) rows))%result.

(** ** The services outside the repository *)

(** - [yaml_dump m] is [yaml.dump(m, default_flow_style=False,
      allow_unicode=True, sort_keys=False)], [yaml_safe_load] is
      [yaml.safe_load];
    - [json_dumps] and [json_loads] are [json.dumps] and [json.loads] on text;
    - [db_file db] is the content of the database file once [db] is committed
      and closed, and [db_open b] is the database that the engine finds in a
      file of content [b] (an exception when it finds none). *)
Class Capabilities : Type := {
  yaml_dump : pyval -> result string;
  yaml_safe_load : string -> result pyval;
  json_dumps : pyval -> result string;
  json_loads : string -> result pyval;
  db_file : database -> bytes;
  db_open : bytes -> result database
}.

Definition is_YAMLError (e : exn) : bool :=
  match e with YAMLError _ => true | _ => false end.

Definition is_JSONDecodeError (e : exn) : bool :=
  match e with JSONDecodeError _ => true | _ => false end.

(** ** Values of a result row in Python *)

(** The Python object a stored value is returned as. *)
Definition py_of_sql (v : sqlval) : pyval :=
  match v with
  | SNull => PNone
  | SInt z => PInt z
  | SText s => PStr s
  | SBlob b => PBytes b
  end.

(** [f"{v}"] of a value of a result row. *)
Definition fmt_value (v : sqlval) : string :=
  match v with
  | SNull => "None"
  | SInt z => str_of_int z
  | SText s => s
  | SBlob b => bytes_repr b
  end.

(** [v.split(',')] of a value of a result row. *)
Definition split_value (v : sqlval) : result (list string) :=
  match v with
  | SText s => Ok (split_on ","%char s)
  | SBlob _ => Raise (TypeError "a bytes-like object is required, not 'str'")
  | _ => Raise (AttributeError ("'" ++ type_name (py_of_sql v)
                                ++ "' object has no attribute 'split'")%string)
  end.

Section Parser.
Context {caps : Capabilities}.

(** [json.loads(v)] of a value of a result row: text is parsed, bytes are
    decoded and parsed, anything else is a [TypeError]. *)
Definition json_loads_value (v : sqlval) : result pyval :=
  match v with
  | SText s => json_loads s
  | SBlob b => json_loads (string_of_list_byte b)
  | _ => Raise (TypeError ("the JSON object must be str, bytes or bytearray, not "
                           ++ type_name (py_of_sql v))%string)
  end.

(** ** [LLMCParser._parse_messages] *)

(** The block [if row[6]: ...] of the alternate-dialect loop: the ids that
    [GROUP_CONCAT] joined are split at the commas and prefixed. *)
Definition joined_attachment_ids (v : sqlval) (message : dict) : result dict :=
  (if py_truthy (py_of_sql v) then
     parts <- split_value v ;;
     let attachment_ids :=
       map (fun aid => PStr ("att_" ++ aid))
           (filter (fun aid => negb (String.eqb aid "")) parts) in
     Ok (match attachment_ids with
         | [] => message
         | _ => dict_set "attachments" (PList attachment_ids) message
         end)
   else Ok message)%result%string.

(** The block [if v: try: record["metadata"] = json.loads(v)
    except json.JSONDecodeError: pass] of the alternate-dialect loops. *)
Definition lenient_metadata (v : sqlval) (record : dict) : result dict :=
  (if py_truthy (py_of_sql v) then
     try_except
       (x <- json_loads_value v ;; Ok (dict_set "metadata" x record))
       is_JSONDecodeError
       (fun _ => Ok record)
   else Ok record)%result.

(** The block [if v: record[name] = json.loads(v)] of the write-schema
    loops. *)
Definition json_field (name : string) (v : sqlval) (record : dict) : result dict :=
  (if py_truthy (py_of_sql v) then
     x <- json_loads_value v ;; Ok (dict_set name x record)
   else Ok record)%result.

(** The body of the loop over the rows of the alternate-dialect query. *)
Definition message_of_joined_row (row : sqlrow) : result pyval :=
  (let message : dict :=
     [ ("id", PStr ("msg_" ++ fmt_value (cell 0 row)));
       ("role", py_of_sql (cell 1 row));
       ("content", py_of_sql (cell 2 row));
       ("timestamp", py_of_sql (cell 3 row)) ] in
   let message :=
     match cell 4 row with
     | SNull => message
     | v => dict_set "parent_id" (PStr ("msg_" ++ fmt_value v)) message
     end in
   message <- joined_attachment_ids (cell 6 row) message ;;
   message <- lenient_metadata (cell 5 row) message ;;
   Ok (PDict message))%result%string.

(** The body of the loop over the rows of the write-schema query. *)
Definition message_of_plain_row (row : sqlrow) : result pyval :=
  (let message : dict :=
     [ ("id", py_of_sql (cell 0 row));
       ("role", py_of_sql (cell 1 row));
       ("content", py_of_sql (cell 2 row));
       ("timestamp", py_of_sql (cell 3 row)) ] in
   let message :=
     match cell 4 row with
     | SNull => message
     | v => dict_set "parent_id" (py_of_sql v) message
     end in
   message <- json_field "attachments" (cell 5 row) message ;;
   message <- json_field "metadata" (cell 6 row) message ;;
   Ok (PDict message))%result.

Definition _parse_messages (conn : database) : result (list pyval) :=
  try_except
    (rows <- select_messages_joined conn ;;
     for_each message_of_joined_row rows)%result
    is_OperationalError
    (fun _ =>
       try_except
         (rows <- select_messages_plain conn ;;
          for_each message_of_plain_row rows)%result
         is_OperationalError
         (fun e => Raise (LLMCFormatError
                            ("Unsupported database schema: " ++ exn_str e)%string))).

(** ** [LLMCParser._parse_attachments] *)

Definition attachment_of_alt_row (row : sqlrow) : result pyval :=
  (let attachment : dict :=
     [ ("id", PStr ("att_" ++ fmt_value (cell 0 row)));
       ("filename", py_of_sql (cell 1 row));
       ("content_type", py_of_sql (cell 2 row));
       ("size", py_of_sql (cell 3 row));
       ("data", py_of_sql (cell 4 row)) ] in
   attachment <- lenient_metadata (cell 6 row) attachment ;;
   Ok (PDict attachment))%result%string.

Definition attachment_of_plain_row (row : sqlrow) : result pyval :=
  (let attachment : dict :=
     [ ("id", py_of_sql (cell 0 row));
       ("filename", py_of_sql (cell 1 row));
       ("content_type", py_of_sql (cell 2 row));
       ("size", py_of_sql (cell 3 row));
       ("data", py_of_sql (cell 4 row)) ] in
   let attachment :=
     if py_truthy (py_of_sql (cell 5 row))
     then dict_set "created_at" (py_of_sql (cell 5 row)) attachment
     else attachment in
   attachment <- json_field "metadata" (cell 6 row) attachment ;;
   Ok (PDict attachment))%result.

Definition _parse_attachments (conn : database) : result (list pyval) :=
  try_except
    (rows <- select_from "attachments"
               ["id"; "filename"; "content_type"; "size"; "data"; "checksum";
                "metadata"] conn ;;
     for_each attachment_of_alt_row rows)%result
    is_OperationalError
    (fun _ =>
       try_except
         (rows <- select_from "attachments"
                    ["id"; "filename"; "content_type"; "size"; "data";
                     "created_at"; "metadata"] conn ;;
          for_each attachment_of_plain_row rows)%result
         is_OperationalError
         (fun _ => Ok [])).

(** ** [LLMCParser._parse_sqlite_data] *)

(** The temporary file only carries [sqlite_data] to the engine; [db_open]
    stands for connecting to it and reading its header. *)
Definition _parse_sqlite_data (sqlite_data : bytes)
  : result (list pyval * list pyval) :=
  try_except
    (conn <- db_open sqlite_data ;;
     let app_id := application_id conn in
     if negb (app_id =? SQLITE_APPLICATION_ID)%Z
     then Raise (LLMCFormatError
                   ("Invalid SQLite application ID: " ++ HexString.of_Z app_id)%string)
     else
     messages <- _parse_messages conn ;;
     attachments <- _parse_attachments conn ;;
     Ok (messages, attachments))%result
    is_sqlite3_Error
    (fun e => Raise (LLMCFormatError ("SQLite parsing error: " ++ exn_str e)%string)).

(** ** [LLMCParser._read_yaml_section] *)

Definition _read_yaml_section (yaml_length : Z) : io string :=
  (yaml_data <- stream_read (Z.to_nat yaml_length) ;;
   if negb (Z.of_nat (length yaml_data) =? yaml_length)%Z
   then throw (LLMCFormatError "Incomplete YAML section")
   else
     match utf8_decode yaml_data with
     | Ok yaml_text => ret (strip_yaml_text yaml_text)
     | Raise e =>
         throw (LLMCFormatError
                  ("Invalid UTF-8 in YAML section: " ++ exn_str e)%string)
     end)%io.

(** ** [LLMCParser._parse_metadata] *)

(** The loop that collects the [role] of each participant that has one. *)
Fixpoint collect_roles (participants : list pyval) : result (list pyval) :=
  match participants with
  | [] => Ok []
  | participant :: rest =>
      (has <- py_in "role" participant ;;
       if has : bool then
         role <- py_getitem participant "role" ;;
         roles <- collect_roles rest ;;
         Ok (role :: roles)
       else collect_roles rest)%result
  end.

(** The participants step shared by the two parsers. *)
Definition normalize_participants (data : dict) : result dict :=
  match dict_get "participants" data with
  | None => Ok (dict_set "participants" (PList [PStr "user"; PStr "assistant"]) data)
  | Some (PList (PDict first :: rest)) =>
      (roles <- collect_roles (PDict first :: rest) ;;
       Ok (match roles with
           | [] => data
           | _ => dict_set "participants" (PList roles) data
           end))%result
  | Some _ => Ok data
  end.

(** The check of the required fields, in the order of [required_fields]. *)
Fixpoint require_fields (fields : list string) (data : dict) : result unit :=
  match fields with
  | [] => Ok tt
  | field :: rest =>
      if dict_in field data then require_fields rest data
      else Raise (LLMCFormatError ("Missing required field: " ++ field)%string)
  end.

(** The part of [_parse_metadata] that works on the loaded value. *)
Definition normalize_metadata (data : pyval) : result pyval :=
  match data with
  | PDict data =>
      (let data :=
         match dict_get "created" data with
         | Some created =>
             if negb (dict_in "created_at" data)
             then dict_set "created_at" created (dict_pop "created" data)
             else data
         | None => data
         end in
       data <- normalize_participants data ;;
       _ <- require_fields ["version"; "created_at"; "participants"] data ;;
       Ok (PDict data))%result
  | _ => Raise (LLMCFormatError "YAML metadata must be a dictionary")
  end.

Definition _parse_metadata (yaml_data : string) : result pyval :=
  try_except
    (data <- yaml_safe_load yaml_data ;; normalize_metadata data)%result
    is_YAMLError
    (fun e => Raise (LLMCFormatError ("Invalid YAML metadata: " ++ exn_str e)%string)).

(** ** [LLMCParser.parse_stream] *)

Definition is_parse_or_format_error (e : exn) : bool :=
  match e with
  | LLMCParseError _ | LLMCFormatError _ => true
  | _ => false
  end.

Definition parse_stream : io pyval :=
  io_try
    (header <- _read_header ;;
     yaml_data <- _read_yaml_section (yaml_length header) ;;
     metadata <- lift (_parse_metadata yaml_data) ;;
     stream_seek (Z.to_nat (sqlite_offset header)) ;;;
     sqlite_data <- stream_read_all ;;
     parsed <- lift (_parse_sqlite_data sqlite_data) ;;
     let conversation : dict :=
       [ ("metadata", metadata); ("messages", PList (fst parsed)) ] in
     ret (PDict (match snd parsed with
                 | [] => conversation
                 | attachments =>
                     dict_set "attachments" (PList attachments) conversation
                 end)))%io
    (fun e =>
       if is_parse_or_format_error e then throw e
       else throw (LLMCParseError
                     ("Unexpected error during parsing: " ++ exn_str e)%string)).

End Parser.

Section Writer.
Context {caps : Capabilities}.

(** ** [LLMCWriter._validate_conversation] *)

(** The inner loop [for field in required_fields] over one container;
    [missing] builds the exception for the field that is not there. *)
Fixpoint check_fields (fields : list string) (container : pyval)
    (missing : string -> exn) : result unit :=
  match fields with
  | [] => Ok tt
  | field :: rest =>
      (present <- py_in field container ;;
       if present : bool then check_fields rest container missing
       else Raise (missing field))%result
  end.

(** The loop [for i, message in enumerate(messages)], from index [i] on. *)
Fixpoint validate_messages (i : nat) (messages : list pyval) : result unit :=
  match messages with
  | [] => Ok tt
  | message :: rest =>
      match message with
      | PDict _ =>
          (_ <- check_fields ["id"; "role"; "content"; "timestamp"] message
                  (fun field =>
                     LLMCValidationError
                       ("Message " ++ str_of_int (Z.of_nat i)
                        ++ " missing required field: " ++ field)%string) ;;
           validate_messages (S i) rest)%result
      | _ => Raise (LLMCValidationError
                      ("Message " ++ str_of_int (Z.of_nat i)
                       ++ " must be a dictionary")%string)
      end
  end.

Definition _validate_conversation (conversation : pyval) : result unit :=
  match conversation with
  | PDict c =>
      match dict_get "metadata" c with
      | None => Raise (LLMCValidationError "Missing metadata section")
      | Some metadata =>
          match dict_get "messages" c with
          | None => Raise (LLMCValidationError "Missing messages section")
          | Some messages =>
              (_ <- check_fields ["version"; "created_at"; "participants"] metadata
                      (fun field =>
                         LLMCValidationError
                           ("Missing required metadata field: " ++ field)%string) ;;
               match messages with
               | PList ms => validate_messages 0 ms
               | _ => Raise (LLMCValidationError "Messages must be a list")
               end)%result
          end
      end
  | _ => Raise (LLMCValidationError "Conversation must be a dictionary")
  end.

(** ** [LLMCWriter._generate_yaml] *)

Definition _generate_yaml (metadata : pyval) : result string :=
  try_except (yaml_dump metadata) is_YAMLError
    (fun e => Raise (LLMCFormatError ("Failed to generate YAML: " ++ exn_str e)%string)).

(** ** [LLMCWriter._create_schema] *)

Definition messages_columns : list column :=
  [ mkColumn "id" AffText false true;
    mkColumn "role" AffText true false;
    mkColumn "content" AffText true false;
    mkColumn "timestamp" AffText true false;
    mkColumn "parent_id" AffText false false;
    mkColumn "attachments" AffText false false;
    mkColumn "metadata" AffText false false ].

Definition attachments_columns : list column :=
  [ mkColumn "id" AffText false true;
    mkColumn "filename" AffText true false;
    mkColumn "content_type" AffText true false;
    mkColumn "size" AffInteger true false;
    mkColumn "data" AffBlob true false;
    mkColumn "created_at" AffText false false;
    mkColumn "metadata" AffText false false ].

Definition _create_schema (conn : database) : result database :=
  (conn <- create_table "messages" messages_columns conn ;;
   conn <- create_table "attachments" attachments_columns conn ;;
   conn <- create_index "messages" "timestamp" conn ;;
   create_index "messages" "parent_id" conn)%result.

(** ** [LLMCWriter._insert_messages] and [_insert_attachments] *)

(** [None], or [json.dumps(record[field])] when the field is there and
    truthy. *)
Definition optional_json (record : pyval) (field : string) : result pyval :=
  (present <- py_in field record ;;
   if present : bool then
     v <- py_getitem record field ;;
     if py_truthy v then
       text <- json_dumps v ;;
       Ok (PStr text)
     else Ok PNone
   else Ok PNone)%result.

Definition insert_message (conn : database) (message : pyval) : result database :=
  (attachments_json <- optional_json message "attachments" ;;
   metadata_json <- optional_json message "metadata" ;;
   id <- py_getitem message "id" ;;
   role <- py_getitem message "role" ;;
   content <- py_getitem message "content" ;;
   timestamp <- py_getitem message "timestamp" ;;
   parent_id <- py_get message "parent_id" ;;
   values <- for_each bind_param
               [id; role; content; timestamp; parent_id; attachments_json;
                metadata_json] ;;
   insert_row "messages" values conn)%result.

Definition insert_attachment (conn : database) (attachment : pyval)
  : result database :=
  (metadata_json <- optional_json attachment "metadata" ;;
   id <- py_getitem attachment "id" ;;
   filename <- py_getitem attachment "filename" ;;
   content_type <- py_getitem attachment "content_type" ;;
   size <- py_getitem attachment "size" ;;
   data <- py_getitem attachment "data" ;;
   created_at <- py_get attachment "created_at" ;;
   values <- for_each bind_param
               [id; filename; content_type; size; data; created_at;
                metadata_json] ;;
   insert_row "attachments" values conn)%result.

(** The loop [for x in xs: conn.execute(...)] over a connection. *)
Fixpoint insert_all (ins : database -> pyval -> result database)
    (conn : database) (xs : list pyval) : result database :=
  match xs with
  | [] => Ok conn
  | x :: rest => (conn <- ins conn x ;; insert_all ins conn rest)%result
  end.

(** The characters of a string, one string each. *)
Fixpoint utf8_chars (s : string) : list string :=
  match s with
  | EmptyString => []
  | String c r =>
      match utf8_chars r with
      | h :: t =>
          match h with
          | String c' _ =>
              if ((128 <=? N_of_ascii c') && (N_of_ascii c' <? 192))%N
              then (String c h) :: t
              else String c EmptyString :: h :: t
          | EmptyString => String c EmptyString :: h :: t
          end
      | [] => [String c EmptyString]
      end
  end.

(** The elements that [for x in v] visits. *)
Definition py_iter (v : pyval) : result (list pyval) :=
  match v with
  | PList l => Ok l
  | PDict d => Ok (map (fun kv => PStr (fst kv)) d)
  | PStr s => Ok (map PStr (utf8_chars s))
  | PBytes b => Ok (map (fun x => PInt (Z_of_byte x)) b)
  | _ => Raise (TypeError ("'" ++ type_name v ++ "' object is not iterable")%string)
  end.

Definition _insert_messages (conn : database) (messages : pyval) : result database :=
  (ms <- py_iter messages ;; insert_all insert_message conn ms)%result.

Definition _insert_attachments (conn : database) (attachments : pyval)
  : result database :=
  (xs <- py_iter attachments ;; insert_all insert_attachment conn xs)%result.

(** ** [LLMCWriter._generate_sqlite] *)

(** A fresh database file: no table, application id 0. *)
Definition empty_database : database := mkDatabase 0 [].

Definition _generate_sqlite (conversation : pyval) : result bytes :=
  try_except
    (let conn := mkDatabase SQLITE_APPLICATION_ID (tables empty_database) in
     conn <- _create_schema conn ;;
     messages <- py_getitem conversation "messages" ;;
     conn <- _insert_messages conn messages ;;
     has_attachments <- py_in "attachments" conversation ;;
     conn <- (if has_attachments : bool then
                attachments <- py_getitem conversation "attachments" ;;
                _insert_attachments conn attachments
              else Ok conn) ;;
     Ok (db_file conn))%result
    is_sqlite3_Error
    (fun e => Raise (LLMCFormatError ("SQLite generation error: " ++ exn_str e)%string)).

(** ** [LLMCWriter.write_stream] *)

Definition is_validation_or_format_error (e : exn) : bool :=
  match e with
  | LLMCValidationError _ | LLMCFormatError _ => true
  | _ => false
  end.

Definition write_stream (conversation : pyval) : io unit :=
  io_try
    (lift (_validate_conversation conversation) ;;;
     metadata <- lift (py_getitem conversation "metadata") ;;
     yaml_data <- lift (_generate_yaml metadata) ;;
     let yaml_bytes := list_byte_of_string yaml_data in
     sqlite_data <- lift (_generate_sqlite conversation) ;;
     let header_size := 32%Z in
     let sqlite_offset := (header_size + Z.of_nat (length yaml_bytes))%Z in
     _write_header (Z.of_nat (length yaml_bytes)) sqlite_offset ;;;
     stream_write yaml_bytes ;;;
     stream_write sqlite_data)%io
    (fun e =>
       if is_validation_or_format_error e then throw e
       else throw (LLMCFormatError
                     ("Unexpected error during writing: " ++ exn_str e)%string)).

End Writer.

(** ** [LLMDParser._parse_metadata] of [llmd_python] *)

Module LLMD.
Section Parser.
Context {caps : Capabilities}.

(** The LLMD parser renames [llmd_version] before it renames [created];
    its exception classes are the LLMD copies of the LLMC ones and are
    written with the same constructors. *)
Definition normalize_metadata (data : pyval) : result pyval :=
  match data with
  | PDict data =>
      (let data :=
         match dict_get "llmd_version" data with
         | Some llmd_version =>
             if negb (dict_in "version" data)
             then dict_set "version" llmd_version (dict_pop "llmd_version" data)
             else data
         | None => data
         end in
       let data :=
         match dict_get "created" data with
         | Some created =>
             if negb (dict_in "created_at" data)
             then dict_set "created_at" created (dict_pop "created" data)
             else data
         | None => data
         end in
       data <- normalize_participants data ;;
       _ <- require_fields ["version"; "created_at"; "participants"] data ;;
       Ok (PDict data))%result
  | _ => Raise (LLMCFormatError "YAML metadata must be a dictionary")
  end.

Definition _parse_metadata (yaml_data : string) : result pyval :=
  try_except
    (data <- yaml_safe_load yaml_data ;; normalize_metadata data)%result
    is_YAMLError
    (fun e => Raise (LLMCFormatError ("Invalid YAML metadata: " ++ exn_str e)%string)).

(** *** The rest of [LLMDParser] and [LLMDWriter]

    The LLMD package is the earlier form of the LLMC one. Its header is the
    24 bytes of fields, with no flags byte and no trailing reserved bytes;
    its parser reads the write schema only. [_read_yaml_section],
    [_validate_conversation], [_generate_yaml], [_create_schema],
    [_insert_messages] and [_insert_attachments] have the text of their
    LLMC namesakes, and the two loops over rows have the text of the
    write-schema loops of the LLMC parser; these are used as they are. *)

Definition LLMD_MAGIC : bytes := [x4c; x4c; x4d; x44].
Definition LLMD_VERSION : Z := 1.
Definition LLMD_FORMAT_VERSION : Z := 1.
Definition SQLITE_APPLICATION_ID : Z := 0x4C4C4D44.

Definition _read_header : io header :=
  (magic <- stream_read 4 ;;
   if negb (bytes_eqb magic LLMD_MAGIC)
   then throw (LLMCFormatError ("Invalid magic bytes: " ++ bytes_repr magic)%string)
   else
   b <- stream_read 1 ;;
   version <- lift (struct_unpack fmt_B b) ;;
   if negb (version =? LLMD_VERSION)%Z
   then throw (LLMCFormatError ("Unsupported version: " ++ str_of_int version)%string)
   else
   _ <- stream_read 3 ;;
   b <- stream_read 4 ;;
   format_version <- lift (struct_unpack fmt_I b) ;;
   if negb (format_version =? 1)%Z
   then throw (LLMCFormatError
                 ("Unsupported format version: " ++ str_of_int format_version)%string)
   else
   b <- stream_read 4 ;;
   yaml_length <- lift (struct_unpack fmt_I b) ;;
   b <- stream_read 8 ;;
   sqlite_offset <- lift (struct_unpack fmt_Q b) ;;
   ret (mkHeader version format_version yaml_length sqlite_offset))%io.

Definition _parse_messages (conn : database) : result (list pyval) :=
  (rows <- select_messages_plain conn ;;
   for_each message_of_plain_row rows)%result.

(** Only the query is inside the [try]; the loop over its rows is not. *)
Definition _parse_attachments (conn : database) : result (list pyval) :=
  match select_from "attachments"
          ["id"; "filename"; "content_type"; "size"; "data"; "created_at";
           "metadata"] conn with
  | Raise e => if is_OperationalError e then Ok [] else Raise e
  | Ok rows => for_each attachment_of_plain_row rows
  end.

Definition _parse_sqlite_data (sqlite_data : bytes)
  : result (list pyval * list pyval) :=
  try_except
    (conn <- db_open sqlite_data ;;
     let app_id := application_id conn in
     if negb (app_id =? SQLITE_APPLICATION_ID)%Z
     then Raise (LLMCFormatError
                   ("Invalid SQLite application ID: " ++ HexString.of_Z app_id)%string)
     else
     messages <- _parse_messages conn ;;
     attachments <- _parse_attachments conn ;;
     Ok (messages, attachments))%result
    is_sqlite3_Error
    (fun e => Raise (LLMCFormatError ("SQLite parsing error: " ++ exn_str e)%string)).

Definition parse_stream : io pyval :=
  io_try
    (header <- _read_header ;;
     yaml_data <- _read_yaml_section (yaml_length header) ;;
     metadata <- lift (_parse_metadata yaml_data) ;;
     stream_seek (Z.to_nat (sqlite_offset header)) ;;;
     sqlite_data <- stream_read_all ;;
     parsed <- lift (_parse_sqlite_data sqlite_data) ;;
     let conversation : dict :=
       [ ("metadata", metadata); ("messages", PList (fst parsed)) ] in
     ret (PDict (match snd parsed with
                 | [] => conversation
                 | attachments =>
                     dict_set "attachments" (PList attachments) conversation
                 end)))%io
    (fun e =>
       if is_parse_or_format_error e then throw e
       else throw (LLMCParseError
                     ("Unexpected error during parsing: " ++ exn_str e)%string)).

End Parser.

Section Writer.
Context {caps : Capabilities}.

Definition _write_header (yaml_length sqlite_offset : Z) : io unit :=
  (stream_write LLMD_MAGIC ;;;
   b <- lift (struct_pack fmt_B LLMD_VERSION) ;;
   stream_write b ;;;
   stream_write [x00; x00; x00] ;;;
   b <- lift (struct_pack fmt_I LLMD_FORMAT_VERSION) ;;
   stream_write b ;;;
   b <- lift (struct_pack fmt_I yaml_length) ;;
   stream_write b ;;;
   b <- lift (struct_pack fmt_Q sqlite_offset) ;;
   stream_write b)%io.

Definition _generate_sqlite (conversation : pyval) : result bytes :=
  try_except
    (let conn := mkDatabase SQLITE_APPLICATION_ID (tables empty_database) in
     conn <- _create_schema conn ;;
     messages <- py_getitem conversation "messages" ;;
     conn <- _insert_messages conn messages ;;
     has_attachments <- py_in "attachments" conversation ;;
     conn <- (if has_attachments : bool then
                attachments <- py_getitem conversation "attachments" ;;
                _insert_attachments conn attachments
              else Ok conn) ;;
     Ok (db_file conn))%result
    is_sqlite3_Error
    (fun e => Raise (LLMCFormatError ("SQLite generation error: " ++ exn_str e)%string)).

Definition write_stream (conversation : pyval) : io unit :=
  io_try
    (lift (_validate_conversation conversation) ;;;
     metadata <- lift (py_getitem conversation "metadata") ;;
     yaml_data <- lift (_generate_yaml metadata) ;;
     let yaml_bytes := list_byte_of_string yaml_data in
     sqlite_data <- lift (_generate_sqlite conversation) ;;
     let header_size := 24%Z in
     let sqlite_offset := (header_size + Z.of_nat (length yaml_bytes))%Z in
     _write_header (Z.of_nat (length yaml_bytes)) sqlite_offset ;;;
     stream_write yaml_bytes ;;;
     stream_write sqlite_data)%io
    (fun e =>
       if is_validation_or_format_error e then throw e
       else throw (LLMCFormatError
                     ("Unexpected error during writing: " ++ exn_str e)%string)).

End Writer.

End LLMD.

(** ** A reference realisation of the services

    To run the embedding on concrete inputs the three services need a
    concrete form. The one below writes a value as a self-delimiting text
    ([n], [t], [f], [i<decimal>e], [s<length>:<text>], [b<length>:<bytes>],
    [l<items>e], [d<key value ...>e]) and reads it back; the same text serves
    as the YAML block, as the JSON text and, applied to a description of the
    tables, as the store image. It is one possible behaviour of the services,
    not a description of the real YAML, JSON or database formats. *)
Module Reference.

Definition encode_text (s : string) : string :=
  ("s" ++ str_of_int (Z.of_nat (String.length s)) ++ ":" ++ s)%string.

Fixpoint encode_value (v : pyval) : string :=
  match v with
  | PNone => "n"
  | PBool true => "t"
  | PBool false => "f"
  | PInt z => "i" ++ str_of_int z ++ "e"
  | PStr s => encode_text s
  | PBytes b =>
      "b" ++ str_of_int (Z.of_nat (length b)) ++ ":" ++ string_of_list_byte b
  | PList l => "l" ++ String.concat "" (map encode_value l) ++ "e"
  | PDict d =>
      "d" ++ String.concat ""
               (map (fun kv => match kv with
                               | (k, x) => encode_text k ++ encode_value x
                               end) d)
          ++ "e"
  end%string.

(** The text before the first [stop] and the text after it. *)
Fixpoint split_at (stop : ascii) (s : string) : option (string * string) :=
  match s with
  | EmptyString => None
  | String c r =>
      if Ascii.eqb c stop then Some (EmptyString, r)
      else match split_at stop r with
           | Some (a, b) => Some (String c a, b)
           | None => None
           end
  end.

Definition read_nat (s : string) : option nat :=
  match s with
  | EmptyString => None
  | _ => option_map Nat.of_uint (NilZero.uint_of_string s)
  end.

Definition read_int (s : string) : option Z :=
  match s with
  | EmptyString => None
  | _ => option_map Z.of_int (NilZero.int_of_string s)
  end.

(** [n] characters of [s] and what follows them. *)
Fixpoint take (n : nat) (s : string) : option (string * string) :=
  match n, s with
  | O, _ => Some (EmptyString, s)
  | S k, String c r =>
      match take k r with
      | Some (a, b) => Some (String c a, b)
      | None => None
      end
  | S _, EmptyString => None
  end.

Definition read_sized (s : string) : option (string * string) :=
  match split_at ":" s with
  | Some (len, rest) =>
      match read_nat len with
      | Some n => take n rest
      | None => None
      end
  | None => None
  end.

Fixpoint pair_up (items : list pyval) : option dict :=
  match items with
  | [] => Some []
  | PStr k :: v :: rest => option_map (cons (k, v)) (pair_up rest)
  | _ => None
  end.

Fixpoint decode_value (fuel : nat) (s : string) : option (pyval * string) :=
  match fuel with
  | O => None
  | S k =>
      match s with
      | String "n" r => Some (PNone, r)
      | String "t" r => Some (PBool true, r)
      | String "f" r => Some (PBool false, r)
      | String "i" r =>
          match split_at "e" r with
          | Some (digits, rest) => option_map (fun z => (PInt z, rest)) (read_int digits)
          | None => None
          end
      | String "s" r => option_map (fun p => (PStr (fst p), snd p)) (read_sized r)
      | String "b" r =>
          option_map (fun p => (PBytes (list_byte_of_string (fst p)), snd p))
                     (read_sized r)
      | String "l" r =>
          option_map (fun p => (PList (fst p), snd p)) (decode_items k r)
      | String "d" r =>
          match decode_items k r with
          | Some (items, rest) => option_map (fun d => (PDict d, rest)) (pair_up items)
          | None => None
          end
      | _ => None
      end
  end
with decode_items (fuel : nat) (s : string) : option (list pyval * string) :=
  match fuel with
  | O => None
  | S k =>
      match s with
      | String "e" r => Some ([], r)
      | _ =>
          match decode_value k s with
          | Some (v, rest) =>
              option_map (fun p => (v :: fst p, snd p)) (decode_items k rest)
          | None => None
          end
      end
  end.

(** Reads one value that fills the whole text. *)
Definition decode (s : string) : option pyval :=
  match decode_value (2 * String.length s + 2) s with
  | Some (v, EmptyString) => Some v
  | _ => None
  end.

(** Whether a value holds a [bytes] object, which JSON cannot write. *)
Fixpoint has_bytes (v : pyval) : bool :=
  match v with
  | PBytes _ => true
  | PList l => existsb has_bytes l
  | PDict d => existsb (fun kv => has_bytes (snd kv)) d
  | _ => false
  end.

Definition value_of_sql (v : sqlval) : pyval := py_of_sql v.

Definition sql_of_value (v : pyval) : option sqlval :=
  match v with
  | PNone => Some SNull
  | PInt z => Some (SInt z)
  | PStr s => Some (SText s)
  | PBytes b => Some (SBlob b)
  | _ => None
  end.

Definition value_of_affinity (a : affinity) : pyval :=
  PInt (match a with AffText => 0 | AffInteger => 1 | AffBlob => 2 end).

Definition affinity_of_value (v : pyval) : option affinity :=
  match v with
  | PInt 0 => Some AffText
  | PInt 1 => Some AffInteger
  | PInt 2 => Some AffBlob
  | _ => None
  end.

Definition value_of_column (c : column) : pyval :=
  PList [ PStr (col_name c); value_of_affinity (col_affinity c);
          PBool (col_notnull c); PBool (col_pk c) ].

Definition column_of_value (v : pyval) : option column :=
  match v with
  | PList [PStr name; a; PBool notnull; PBool pk] =>
      option_map (fun a => mkColumn name a notnull pk) (affinity_of_value a)
  | _ => None
  end.

Definition value_of_table (nt : string * table) : pyval :=
  PList [ PStr (fst nt);
          PList (map value_of_column (tbl_columns (snd nt)));
          PList (map (fun r => PList (map value_of_sql r)) (tbl_rows (snd nt))) ].

(** [Some] of all the elements when [f] is defined on each. *)
Fixpoint map_option {A B} (f : A -> option B) (l : list A) : option (list B) :=
  match l with
  | [] => Some []
  | x :: r =>
      match f x, map_option f r with
      | Some y, Some ys => Some (y :: ys)
      | _, _ => None
      end
  end.

Definition row_of_value (v : pyval) : option sqlrow :=
  match v with
  | PList cells => map_option sql_of_value cells
  | _ => None
  end.

Definition table_of_value (v : pyval) : option (string * table) :=
  match v with
  | PList [PStr name; PList cols; PList rows] =>
      match map_option column_of_value cols, map_option row_of_value rows with
      | Some cs, Some rs => Some (name, mkTable cs rs)
      | _, _ => None
      end
  | _ => None
  end.

Definition value_of_database (db : database) : pyval :=
  PList [PInt (application_id db); PList (map value_of_table (tables db))].

Definition database_of_value (v : pyval) : option database :=
  match v with
  | PList [PInt id; PList ts] => option_map (mkDatabase id) (map_option table_of_value ts)
  | _ => None
  end.

(** An empty file is an empty database; other content has to be an image. *)
Definition open_image (b : bytes) : result database :=
  match b with
  | [] => Ok empty_database
  | _ =>
      match decode (string_of_list_byte b) with
      | Some v =>
          match database_of_value v with
          | Some db => Ok db
          | None => Raise (DatabaseError "file is not a database")
          end
      | None => Raise (DatabaseError "file is not a database")
      end
  end.

#[export] Instance services : Capabilities := {
  yaml_dump v := Ok (encode_value v);
  yaml_safe_load s :=
    match decode s with
    | Some v => Ok v
    | None => Raise (YAMLError "could not parse the document")
    end;
  json_dumps v :=
    if has_bytes v
    then Raise (TypeError "Object of type bytes is not JSON serializable")
    else Ok (encode_value v);
  json_loads s :=
    match decode s with
    | Some v => Ok v
    | None => Raise (JSONDecodeError "Expecting value: line 1 column 1 (char 0)")
    end;
  db_file db := list_byte_of_string (encode_value (value_of_database db));
  db_open := open_image
}.

End Reference.

(** ** Definitions used to state the properties *)

(** [at_offset a k s]: the stream [s] holds [a] and what is left to read
    starts at offset [k] of [a] (the position itself stops at the end). *)
Definition at_offset (a : bytes) (k : nat) (s : BinaryIO) : Prop :=
  content s = a /\ skipn (position s) a = skipn k a.

(** What [_read_header] returns on a stream that holds [a] from its start:
    every field is read at its fixed offset. *)
Definition header_outcome (a : bytes) : result header :=
  let magic := firstn 4 a in
  if negb (bytes_eqb magic LLMC_MAGIC)
  then Raise (LLMCFormatError ("Invalid magic bytes: " ++ bytes_repr magic)%string)
  else
  (version <- struct_unpack fmt_B (firstn 1 (skipn 4 a)) ;;
   if negb (version =? LLMC_VERSION)%Z
   then Raise (LLMCFormatError ("Unsupported version: " ++ str_of_int version)%string)
   else
   format_version <- struct_unpack fmt_I (firstn 4 (skipn 8 a)) ;;
   if negb (format_version =? 1)%Z
   then Raise (LLMCFormatError
                 ("Unsupported format version: " ++ str_of_int format_version)%string)
   else
   yaml_length <- struct_unpack fmt_I (firstn 4 (skipn 12 a)) ;;
   sqlite_offset <- struct_unpack fmt_Q (firstn 8 (skipn 16 a)) ;;
   Ok (mkHeader version format_version yaml_length sqlite_offset))%result.

(** The byte positions of the header that carry no field: the three reserved
    bytes, the encryption flags and the seven trailing reserved bytes. *)
Definition reserved_positions : list nat :=
  [5; 6; 7; 24; 25; 26; 27; 28; 29; 30; 31].

(** Two inputs of one length that agree at every position outside
    [reserved_positions]. *)
Definition differ_only_in_reserved (a b : bytes) : Prop :=
  length a = length b /\
  forall i, ~ In i reserved_positions -> nth_error a i = nth_error b i.

(** The 32 bytes [_write_header] emits. *)
Definition header_bytes (yaml_length sqlite_offset : Z) : bytes :=
  LLMC_MAGIC ++ [x01] ++ [x00; x00; x00] ++ le_encode 4 1
  ++ le_encode 4 yaml_length ++ le_encode 8 sqlite_offset
  ++ [x00] ++ [x00; x00; x00; x00; x00; x00; x00].

(** A complete header and a copy of it with other values in reserved
    positions (among them a nonzero encryption-flags byte). *)
Definition sample_header : bytes := header_bytes 5 37.

Definition sample_header_flagged : bytes :=
  firstn 5 sample_header ++ [xaa; x00; x07] ++ firstn 16 (skipn 8 sample_header)
  ++ [xff; x00; x00; x00; x00; x00; x00; x01].

(** The list that a missing [participants] key is set to. *)
Definition default_participants : pyval := PList [PStr "user"; PStr "assistant"].

(** Metadata with both legacy keys and no participants, as an older
    producer writes it. *)
Definition legacy_metadata : dict :=
  [ ("llmd_version", PStr "0.1");
    ("created", PStr "2024-01-15T10:30:00Z");
    ("title", PStr "Test") ].

(** Metadata with the legacy name of the creation time and, next to its
    [version], a stray [llmd_version]. *)
Definition legacy_created_metadata : dict :=
  [ ("version", PStr "0.1");
    ("llmd_version", PStr "0.0");
    ("created", PStr "2024-01-15T10:30:00Z") ].

(** The renaming of a legacy key, as both parsers write it. *)
Definition rename_legacy (legacy canonical : string) (d : dict) : dict :=
  match dict_get legacy d with
  | Some v =>
      if negb (dict_in canonical d)
      then dict_set canonical v (dict_pop legacy d)
      else d
  | None => d
  end.

(** [participants] is absent or is not a list of structured records, so that
    the projection to roles does not apply. *)
Definition participants_plain (d : dict) : Prop :=
  match dict_get "participants" d with
  | Some (PList (PDict _ :: _)) => False
  | _ => True
  end.

(** *** The pre-write structural check, as the specification words it *)

Definition required_metadata_fields : list string :=
  ["version"; "created_at"; "participants"].

Definition required_message_fields : list string :=
  ["id"; "role"; "content"; "timestamp"].

(** What a conversation can be found to lack. *)
Inductive offence : Type :=
| NotAMapping
| MissingSection (name : string)
| MissingMetadataField (field : string)
| MessagesNotAList
| MessageNotAMapping (index : nat)
| MessageMissingField (index : nat) (field : string).

(** The text of the error that names an offence. *)
Definition offence_message (o : offence) : string :=
  match o with
  | NotAMapping => "Conversation must be a dictionary"
  | MissingSection name => "Missing " ++ name ++ " section"
  | MissingMetadataField field => "Missing required metadata field: " ++ field
  | MessagesNotAList => "Messages must be a list"
  | MessageNotAMapping i =>
      "Message " ++ str_of_int (Z.of_nat i) ++ " must be a dictionary"
  | MessageMissingField i field =>
      "Message " ++ str_of_int (Z.of_nat i) ++ " missing required field: " ++ field
  end%string.

(** [first_missing d fields f]: [f] is the first of [fields] that the
    mapping [d] does not hold. *)
Inductive first_missing (d : dict) : list string -> string -> Prop :=
| first_missing_here (f : string) (rest : list string) :
    dict_in f d = false -> first_missing d (f :: rest) f
| first_missing_later (f g : string) (rest : list string) :
    dict_in f d = true -> first_missing d rest g -> first_missing d (f :: rest) g.

Definition has_all (fields : list string) (d : dict) : Prop :=
  forall f, In f fields -> dict_in f d = true.

(** A message that meets the check: a mapping with the required fields. *)
Definition message_complete (m : pyval) : Prop :=
  exists d, m = PDict d /\ has_all required_message_fields d.

(** [first_offence c o]: [o] is the first thing the check finds wrong with
    [c], going through the top level, then the metadata fields in their
    listed order, then the messages in input order and, inside a message,
    its fields in their listed order. *)
Inductive first_offence : pyval -> offence -> Prop :=
| offence_not_mapping (c : pyval) :
    (forall d, c <> PDict d) -> first_offence c NotAMapping
| offence_no_metadata (c : dict) :
    dict_in "metadata" c = false ->
    first_offence (PDict c) (MissingSection "metadata")
| offence_no_messages (c : dict) :
    dict_in "metadata" c = true ->
    dict_in "messages" c = false ->
    first_offence (PDict c) (MissingSection "messages")
| offence_metadata_field (c metadata : dict) (f : string) :
    dict_get "metadata" c = Some (PDict metadata) ->
    dict_in "messages" c = true ->
    first_missing metadata required_metadata_fields f ->
    first_offence (PDict c) (MissingMetadataField f)
| offence_messages_not_list (c metadata : dict) (messages : pyval) :
    dict_get "metadata" c = Some (PDict metadata) ->
    has_all required_metadata_fields metadata ->
    dict_get "messages" c = Some messages ->
    (forall l, messages <> PList l) ->
    first_offence (PDict c) MessagesNotAList
| offence_message_not_mapping (c metadata : dict) (before after : list pyval)
    (m : pyval) :
    dict_get "metadata" c = Some (PDict metadata) ->
    has_all required_metadata_fields metadata ->
    dict_get "messages" c = Some (PList (before ++ m :: after)) ->
    Forall message_complete before ->
    (forall d, m <> PDict d) ->
    first_offence (PDict c) (MessageNotAMapping (length before))
| offence_message_field (c metadata : dict) (before after : list pyval)
    (m : dict) (f : string) :
    dict_get "metadata" c = Some (PDict metadata) ->
    has_all required_metadata_fields metadata ->
    dict_get "messages" c = Some (PList (before ++ PDict m :: after)) ->
    Forall message_complete before ->
    first_missing m required_message_fields f ->
    first_offence (PDict c) (MessageMissingField (length before) f).

(** A conversation that meets the check. *)
Definition conversation_valid (c : pyval) : Prop :=
  exists d metadata messages,
    c = PDict d
    /\ dict_get "metadata" d = Some (PDict metadata)
    /\ has_all required_metadata_fields metadata
    /\ dict_get "messages" d = Some (PList messages)
    /\ Forall message_complete messages.

(** The two conversations of the validation scenario: one without
    [metadata.version], one whose second message has no [content]. *)
Definition sample_metadata : dict :=
  [ ("version", PStr "0.1");
    ("created_at", PStr "2024-01-15T10:30:00Z");
    ("participants", PList [PStr "user"; PStr "assistant"]);
    ("title", PStr "Test") ].

Definition sample_message (id role content timestamp : string) : pyval :=
  PDict [ ("id", PStr id); ("role", PStr role); ("content", PStr content);
          ("timestamp", PStr timestamp) ].

Definition conversation_without_version : pyval :=
  PDict [ ("metadata", PDict (dict_pop "version" sample_metadata));
          ("messages", PList [sample_message "msg_1" "user" "Hello"
                                "2024-01-15T10:30:00Z"]) ].

Definition conversation_without_content : pyval :=
  PDict [ ("metadata", PDict sample_metadata);
          ("messages",
           PList [ sample_message "msg_1" "user" "Hello" "2024-01-15T10:30:00Z";
                   PDict [ ("id", PStr "msg_2"); ("role", PStr "assistant");
                           ("timestamp", PStr "2024-01-15T10:30:05Z") ] ]) ].

(** What [write_stream] lays out: the header with the length of the YAML
    bytes and the offset behind them, the YAML bytes, the store image. *)
Definition layout (yaml_bytes image : bytes) : bytes :=
  header_bytes (Z.of_nat (length yaml_bytes)) (32 + Z.of_nat (length yaml_bytes))
  ++ yaml_bytes ++ image.

Section Outcomes.
Context {caps : Capabilities}.

(** What [_read_yaml_section] returns on a stream that holds [a] and has
    read the header: the block is the [yaml_length] bytes from offset 32. *)
Definition yaml_section_outcome (a : bytes) (yaml_length : Z) : result string :=
  let yaml_data := firstn (Z.to_nat yaml_length) (skipn 32 a) in
  if negb (Z.of_nat (length yaml_data) =? yaml_length)%Z
  then Raise (LLMCFormatError "Incomplete YAML section")
  else
    match utf8_decode yaml_data with
    | Ok yaml_text => Ok (strip_yaml_text yaml_text)
    | Raise e =>
        Raise (LLMCFormatError ("Invalid UTF-8 in YAML section: " ++ exn_str e)%string)
    end.

(** The conversation [parse_stream] assembles. *)
Definition assemble (metadata : pyval) (parsed : list pyval * list pyval) : pyval :=
  let conversation : dict :=
    [ ("metadata", metadata); ("messages", PList (fst parsed)) ] in
  PDict (match snd parsed with
         | [] => conversation
         | attachments => dict_set "attachments" (PList attachments) conversation
         end).

(** The body of [parse_stream] on a stream that holds [a] from its start,
    before the handler of the outer [try]. *)
Definition parse_outcome (a : bytes) : result pyval :=
  (header <- header_outcome a ;;
   yaml_data <- yaml_section_outcome a (yaml_length header) ;;
   metadata <- _parse_metadata yaml_data ;;
   parsed <- _parse_sqlite_data (skipn (Z.to_nat (sqlite_offset header)) a) ;;
   Ok (assemble metadata parsed))%result.

(** The handler of the outer [try] of [parse_stream]. *)
Definition wrap_parse_error {A} (r : result A) : result A :=
  match r with
  | Ok x => Ok x
  | Raise e =>
      if negb (is_Exception e) || is_parse_or_format_error e then Raise e
      else Raise (LLMCParseError
                    ("Unexpected error during parsing: " ++ exn_str e)%string)
  end.

(** The container of a YAML text and a store. *)
Definition container (yaml_text : string) (store : database) : bytes :=
  layout (list_byte_of_string yaml_text) (db_file store).

End Outcomes.

(** *** Sample stores *)

(** The tables of the alternate dialect: integer keys, a [sequence] column,
    and attachments that point to their message. *)
Definition alt_messages_columns : list column :=
  [ mkColumn "id" AffInteger false true;
    mkColumn "sequence" AffInteger true false;
    mkColumn "role" AffText true false;
    mkColumn "content" AffText true false;
    mkColumn "timestamp" AffText true false;
    mkColumn "parent_id" AffInteger false false;
    mkColumn "metadata" AffText false false ].

Definition alt_attachments_columns : list column :=
  [ mkColumn "id" AffInteger false true;
    mkColumn "message_id" AffInteger true false;
    mkColumn "filename" AffText true false;
    mkColumn "content_type" AffText true false;
    mkColumn "size" AffInteger true false;
    mkColumn "data" AffBlob true false;
    mkColumn "checksum" AffText false false;
    mkColumn "metadata" AffText false false ].

Definition store_of (messages attachments : table) : database :=
  mkDatabase SQLITE_APPLICATION_ID
    [ ("messages", messages); ("attachments", attachments) ].

(** A write-schema store whose only message row has [metadata_cell] in its
    [metadata] column and [attachments_cell] in its [attachments] column. *)
Definition plain_store (attachments_cell metadata_cell : sqlval) : database :=
  store_of
    (mkTable messages_columns
       [ [ SText "msg_1"; SText "user"; SText "Hello";
           SText "2024-01-15T10:30:00Z"; SNull; attachments_cell; metadata_cell ] ])
    (mkTable attachments_columns []).

(** An alternate-dialect store whose only message row has [metadata_cell]
    in its [metadata] column. *)
Definition alt_store (metadata_cell : sqlval) : database :=
  store_of
    (mkTable alt_messages_columns
       [ [ SInt 1; SInt 0; SText "user"; SText "Hello";
           SText "2024-01-15T10:30:00Z"; SNull; metadata_cell ] ])
    (mkTable alt_attachments_columns []).

(** A text that is not JSON. *)
Definition not_json : string := "not json".

(** The container of a store behind the sample metadata, under the
    reference services. *)
Definition sample_container (store : database) : bytes :=
  @container Reference.services (Reference.encode_value (PDict sample_metadata)) store.

Section StoreReached.
Context {caps : Capabilities}.


(** [db] is read through the write schema: the alternate-dialect query
    fails on a missing table or column, and the write-schema query returns
    [rows]. *)
Definition write_schema_rows (db : database) (rows : list sqlrow) : Prop :=
  (exists m, select_messages_joined db = Raise (OperationalError m))
  /\ select_messages_plain db = Ok rows.

End StoreReached.

(** *** The alternate dialect *)





(** The field [k] of a returned record. *)
Definition field (m : pyval) (k : string) : option pyval :=
  match m with
  | PDict d => dict_get k d
  | _ => None
  end.





Section AltDialect.
Context {caps : Capabilities}.



End AltDialect.

(** An alternate-dialect store with a reply that points to its parent and
    two attachments on the first message. *)
Definition alt_sample_messages : table :=
  mkTable alt_messages_columns
    [ [ SInt 7; SInt 0; SText "user"; SText "Hello";
        SText "2024-01-15T10:30:00Z"; SNull; SNull ];
      [ SInt 9; SInt 1; SText "assistant"; SText "Hi";
        SText "2024-01-15T10:30:05Z"; SInt 7; SText not_json ] ].

Definition alt_sample_attachments : table :=
  mkTable alt_attachments_columns
    [ [ SInt 3; SInt 7; SText "a.txt"; SText "text/plain"; SInt 2;
        SBlob [x68; x69]; SNull; SNull ];
      [ SInt 4; SInt 7; SText "b.txt"; SText "text/plain"; SInt 0;
        SBlob []; SNull; SNull ] ].

Definition alt_sample_store : database :=
  store_of alt_sample_messages alt_sample_attachments.



(** *** Conversations that the store holds as they are *)

(** The text in the field [k] of a record (empty when there is none). *)
Definition text_field (k : string) (m : pyval) : string :=
  match field m k with
  | Some (PStr s) => s
  | _ => ""
  end.

Fixpoint strictly_increasing (l : list string) : Prop :=
  match l with
  | a :: r =>
      match r with
      | b :: _ => String.ltb a b = true
      | [] => True
      end /\ strictly_increasing r
  | [] => True
  end.

(** [P] holds of the field [k] of [d] when [d] has that field. *)
Definition optional (P : pyval -> Prop) (d : dict) (k : string) : Prop :=
  match dict_get k d with
  | Some v => P v
  | None => True
  end.

Definition is_text (v : pyval) : Prop := exists s, v = PStr s.

Definition is_nonempty_text (v : pyval) : Prop :=
  exists s, v = PStr s /\ s <> ""%string.

Definition message_fields : list string :=
  ["id"; "role"; "content"; "timestamp"; "parent_id"; "attachments"; "metadata"].

Definition attachment_fields : list string :=
  ["id"; "filename"; "content_type"; "size"; "data"; "created_at"; "metadata"].

(** [r'] has the fields of [r] among [fields], with the same values, and no
    field outside [fields]. *)
Definition same_fields (fields : list string) (r r' : pyval) : Prop :=
  (forall k, In k fields -> field r' k = field r k)
  /\ (forall k, field r' k <> None -> In k fields).

(** The attachments of a conversation (none when the key is absent). *)
Definition attachments_of (c : pyval) : list pyval :=
  match field c "attachments" with
  | Some (PList l) => l
  | _ => []
  end.

Section Storable.
Context {caps : Capabilities}.

(** A value that goes through the JSON text of a column unchanged: it is
    truthy, so that it is written at all, and its text decodes to it. *)
Definition json_faithful (v : pyval) : Prop :=
  py_truthy v = true
  /\ exists text, json_dumps v = Ok text /\ text <> ""%string
                  /\ json_loads text = Ok v.

(** A message typed as in the data model, whose optional fields, when there,
    are not empty. *)
Definition storable_message (m : pyval) : Prop :=
  exists dm,
    m = PDict dm
    /\ (forall k, In k required_message_fields -> exists s, dict_get k dm = Some (PStr s))
    /\ optional is_text dm "parent_id"
    /\ optional json_faithful dm "attachments"
    /\ optional json_faithful dm "metadata".

(** An attachment typed as in the data model (with a size that fits the
    64-bit integers of the store), whose optional fields, when there, are
    not empty. Nothing relates [size] to [data]. *)
Definition storable_attachment (a : pyval) : Prop :=
  exists da,
    a = PDict da
    /\ (forall k, In k ["id"; "filename"; "content_type"] ->
          exists s, dict_get k da = Some (PStr s))
    /\ (exists z, dict_get "size" da = Some (PInt z) /\ (- 2 ^ 63 <= z < 2 ^ 63)%Z)
    /\ (exists b, dict_get "data" da = Some (PBytes b))
    /\ optional is_nonempty_text da "created_at"
    /\ optional json_faithful da "metadata".

(** The cell that [optional_json] makes of the field [k] of a record. *)
Definition json_cell (m : pyval) (k : string) : sqlval :=
  match field m k with
  | Some v =>
      if py_truthy v
      then match json_dumps v with
           | Ok text => SText text
           | Raise _ => SNull
           end
      else SNull
  | None => SNull
  end.

(** The cell of a field bound as it is. *)
Definition plain_cell (m : pyval) (k : string) : sqlval :=
  match field m k with
  | Some (PStr s) => SText s
  | Some (PInt z) => SInt z
  | Some (PBytes b) => SBlob b
  | _ => SNull
  end.

(** The rows that the writer stores for a storable message or attachment. *)
Definition row_of_message (m : pyval) : sqlrow :=
  [ plain_cell m "id"; plain_cell m "role"; plain_cell m "content";
    plain_cell m "timestamp"; plain_cell m "parent_id";
    json_cell m "attachments"; json_cell m "metadata" ].

Definition row_of_attachment (a : pyval) : sqlrow :=
  [ plain_cell a "id"; plain_cell a "filename"; plain_cell a "content_type";
    plain_cell a "size"; plain_cell a "data"; plain_cell a "created_at";
    json_cell a "metadata" ].

(** The store that the writer builds for storable messages and
    attachments. *)
Definition stored (msgs atts : list pyval) : database :=
  store_of (mkTable messages_columns (map row_of_message msgs))
           (mkTable attachments_columns (map row_of_attachment atts)).

(** The YAML service writes [md] as [text] and reads it back from the bytes
    of the container: [text] is well-formed UTF-8, its length fits the
    header field, and what is left of it after stripping loads as [md]. *)
Definition yaml_faithful (md : dict) (text : string) : Prop :=
  yaml_dump (PDict md) = Ok text
  /\ utf8_valid (list_byte_of_string text) = true
  /\ (Z.of_nat (length (list_byte_of_string text)) < 2 ^ 32)%Z
  /\ yaml_safe_load (strip_yaml_text text) = Ok (PDict md).

(** A conversation that the container holds as it is: typed as in the data
    model, with unique ids, message timestamps that strictly increase in
    list order, optional fields that are not empty when they are there, and
    services that are faithful on its parts. [md], [msgs] and [atts] are its
    metadata, messages and attachments, [text] its YAML block. *)
Record roundtrip_ready (c : pyval) (md : dict) (msgs atts : list pyval)
    (text : string) : Prop := {
  rr_shape :
    exists d, c = PDict d
              /\ dict_get "metadata" d = Some (PDict md)
              /\ dict_get "messages" d = Some (PList msgs)
              /\ match dict_get "attachments" d with
                 | Some v => v = PList atts
                 | None => atts = []
                 end;
  rr_metadata_fields : has_all required_metadata_fields md;
  rr_participants : participants_plain md;
  rr_yaml : yaml_faithful md text;
  rr_messages : Forall storable_message msgs;
  rr_message_ids : NoDup (map (text_field "id") msgs);
  rr_timestamps : strictly_increasing (map (text_field "timestamp") msgs);
  rr_attachments : Forall storable_attachment atts;
  rr_attachment_ids : NoDup (map (text_field "id") atts);
  rr_store : db_open (db_file (stored msgs atts)) = Ok (stored msgs atts)
}.

End Storable.

(** [d[k] = v] when there is a [v]. *)
Definition set_optional (k : string) (o : option pyval) (d : dict) : dict :=
  match o with
  | Some v => dict_set k v d
  | None => d
  end.

Definition null_or_text (v : sqlval) : Prop := v = SNull \/ exists s, v = SText s.

(** [at_end s]: the next write of [s] appends. *)
Definition at_end (s : BinaryIO) : Prop := position s = length (content s).

(** *** Sample conversations *)

(** The messages of a conversation (none when the key is absent). *)
Definition messages_of (c : pyval) : list pyval :=
  match field c "messages" with
  | Some (PList l) => l
  | _ => []
  end.

(** The two-message scenario: [msg_1] of the user at [t1], [msg_2] of the
    assistant at [t2], behind the sample metadata. *)
Definition scenario_messages (t1 t2 : string) : list pyval :=
  [ sample_message "msg_1" "user" "Hello" t1;
    sample_message "msg_2" "assistant" "Hi" t2 ].

Definition scenario (t1 t2 : string) : pyval :=
  PDict [ ("metadata", PDict sample_metadata);
          ("messages", PList (scenario_messages t1 t2)) ].

(** A conversation with every optional field in use: the first message
    lists an attachment, the second has a parent and metadata, and the
    attachment has [size] and [data] as given. *)
Definition attached_messages : list pyval :=
  [ PDict [ ("id", PStr "msg_1"); ("role", PStr "user"); ("content", PStr "Hello");
            ("timestamp", PStr "2024-01-15T10:30:00Z");
            ("attachments", PList [PStr "att_1"]) ];
    PDict [ ("id", PStr "msg_2"); ("role", PStr "assistant"); ("content", PStr "Hi");
            ("timestamp", PStr "2024-01-15T10:30:05Z");
            ("parent_id", PStr "msg_1");
            ("metadata", PDict [("tokens", PInt 2)]) ] ].

Definition sample_attachment (size : Z) (data : bytes) : pyval :=
  PDict [ ("id", PStr "att_1"); ("filename", PStr "a.txt");
          ("content_type", PStr "text/plain"); ("size", PInt size);
          ("data", PBytes data);
          ("created_at", PStr "2024-01-15T10:29:00Z") ].

Definition attached_conversation (size : Z) (data : bytes) : pyval :=
  PDict [ ("metadata", PDict sample_metadata);
          ("messages", PList attached_messages);
          ("attachments", PList [sample_attachment size data]) ].

(** A conversation that passes the check, with its later message first and
    an empty attachment list on that message. *)
Definition unordered_conversation : pyval :=
  PDict [ ("metadata", PDict sample_metadata);
          ("messages",
           PList [ PDict [ ("id", PStr "msg_1"); ("role", PStr "user");
                           ("content", PStr "Hello");
                           ("timestamp", PStr "2024-01-15T10:30:05Z");
                           ("attachments", PList []) ];
                   sample_message "msg_2" "assistant" "Hi" "2024-01-15T10:30:00Z" ]) ].

(** What the reference services make of a conversation: the content of the
    stream after [write_stream] on an empty stream, and the outcome of
    [parse_stream] on that content. *)
Definition written (c : pyval) : bytes :=
  content (snd (@write_stream Reference.services c (mkStream [] 0))).

Definition reparsed (c : pyval) : result pyval :=
  fst (@parse_stream Reference.services (mkStream (written c) 0)).


Section Gap.
Context {caps : Capabilities}.

(** A container whose store section does not follow the YAML block at once:
    [gap] sits between them and the header's [sqlite_offset] points behind
    it. *)
Definition container_with_gap (yaml_text : string) (gap : bytes)
    (store : database) : bytes :=
  let yaml_bytes := list_byte_of_string yaml_text in
  header_bytes (Z.of_nat (length yaml_bytes))
               (32 + Z.of_nat (length yaml_bytes) + Z.of_nat (length gap))
  ++ yaml_bytes ++ gap ++ db_file store.

End Gap.

(** A store with the application id and no table. *)
Definition store_without_tables : database := mkDatabase SQLITE_APPLICATION_ID [].

(** An attachment table of the alternate dialect that lacks the [checksum]
    column, with one row. *)
Definition attachments_without_checksum : table :=
  mkTable
    [ mkColumn "id" AffInteger false true;
      mkColumn "message_id" AffInteger true false;
      mkColumn "filename" AffText true false;
      mkColumn "content_type" AffText true false;
      mkColumn "size" AffInteger true false;
      mkColumn "data" AffBlob true false;
      mkColumn "metadata" AffText false false ]
    [ [ SInt 3; SInt 7; SText "a.txt"; SText "text/plain"; SInt 2;
        SBlob [x68; x69]; SNull ] ].

Fixpoint nondecreasing (l : list string) : Prop :=
  match l with
  | a :: r =>
      match r with
      | b :: _ => String.leb a b = true
      | [] => True
      end /\ nondecreasing r
  | [] => True
  end.

Section Writable.
Context {caps : Capabilities}.

(** A conversation that the writer stores field by field: typed as in the
    data model, with unique ids and optional fields that are not empty when
    they are there, and with a YAML service that is faithful on its
    metadata. Nothing is asked of the order of the timestamps. *)
Record write_ready (c : pyval) (md : dict) (msgs atts : list pyval)
    (text : string) : Prop := {
  wr_shape :
    exists d, c = PDict d
              /\ dict_get "metadata" d = Some (PDict md)
              /\ dict_get "messages" d = Some (PList msgs)
              /\ match dict_get "attachments" d with
                 | Some v => v = PList atts
                 | None => atts = []
                 end;
  wr_metadata_fields : has_all required_metadata_fields md;
  wr_participants : participants_plain md;
  wr_yaml : yaml_faithful md text;
  wr_messages : Forall storable_message msgs;
  wr_message_ids : NoDup (map (text_field "id") msgs);
  wr_attachments : Forall storable_attachment atts;
  wr_attachment_ids : NoDup (map (text_field "id") atts)
}.

(** The steps of [write_stream] before its first write: the check, the
    lookup of the metadata, the YAML text and the store image. *)
Definition generated_sections (conversation : pyval) : result (bytes * bytes) :=
  (_ <- _validate_conversation conversation ;;
   metadata <- py_getitem conversation "metadata" ;;
   yaml_data <- _generate_yaml metadata ;;
   sqlite_data <- _generate_sqlite conversation ;;
   Ok (list_byte_of_string yaml_data, sqlite_data))%result.

End Writable.

(** What the handler of the outer [try] of [write_stream] raises for [e]. *)
Definition wrap_write_error (e : exn) : exn :=
  if negb (is_Exception e) || is_validation_or_format_error e then e
  else LLMCFormatError ("Unexpected error during writing: " ++ exn_str e)%string.

(** *** The LLMD container *)

(** The database [db] under another application id. *)
Definition with_application_id (id : Z) (db : database) : database :=
  mkDatabase id (tables db).

(** The 24 bytes [LLMDWriter._write_header] emits. *)
Definition LLMD_header_bytes (yaml_length sqlite_offset : Z) : bytes :=
  LLMD.LLMD_MAGIC ++ [x01] ++ [x00; x00; x00] ++ le_encode 4 1
  ++ le_encode 4 yaml_length ++ le_encode 8 sqlite_offset.

(** What [LLMDParser._read_header] returns on a stream that holds [a] from
    its start. *)
Definition LLMD_header_outcome (a : bytes) : result header :=
  let magic := firstn 4 a in
  if negb (bytes_eqb magic LLMD.LLMD_MAGIC)
  then Raise (LLMCFormatError ("Invalid magic bytes: " ++ bytes_repr magic)%string)
  else
  (version <- struct_unpack fmt_B (firstn 1 (skipn 4 a)) ;;
   if negb (version =? LLMD.LLMD_VERSION)%Z
   then Raise (LLMCFormatError ("Unsupported version: " ++ str_of_int version)%string)
   else
   format_version <- struct_unpack fmt_I (firstn 4 (skipn 8 a)) ;;
   if negb (format_version =? 1)%Z
   then Raise (LLMCFormatError
                 ("Unsupported format version: " ++ str_of_int format_version)%string)
   else
   yaml_length <- struct_unpack fmt_I (firstn 4 (skipn 12 a)) ;;
   sqlite_offset <- struct_unpack fmt_Q (firstn 8 (skipn 16 a)) ;;
   Ok (mkHeader version format_version yaml_length sqlite_offset))%result.

(** What [LLMDWriter.write_stream] lays out: the 24-byte header, the YAML
    bytes, the store image. *)
Definition LLMD_layout (yaml_bytes image : bytes) : bytes :=
  LLMD_header_bytes (Z.of_nat (length yaml_bytes)) (24 + Z.of_nat (length yaml_bytes))
  ++ yaml_bytes ++ image.

(** What [_read_yaml_section] returns on a stream that holds [a] and is at
    offset [k]. *)
Definition yaml_section_at (k : nat) (a : bytes) (yaml_length : Z) : result string :=
  let yaml_data := firstn (Z.to_nat yaml_length) (skipn k a) in
  if negb (Z.of_nat (length yaml_data) =? yaml_length)%Z
  then Raise (LLMCFormatError "Incomplete YAML section")
  else
    match utf8_decode yaml_data with
    | Ok yaml_text => Ok (strip_yaml_text yaml_text)
    | Raise e =>
        Raise (LLMCFormatError ("Invalid UTF-8 in YAML section: " ++ exn_str e)%string)
    end.

Section LLMDOutcomes.
Context {caps : Capabilities}.

(** The store that the LLMD writer builds for storable messages and
    attachments: the tables of [stored] under the LLMD application id. *)
Definition LLMD_stored (msgs atts : list pyval) : database :=
  with_application_id LLMD.SQLITE_APPLICATION_ID (stored msgs atts).

(** The body of [LLMDParser.parse_stream] on a stream that holds [a] from
    its start, before the handler of the outer [try]. *)
Definition LLMD_parse_outcome (a : bytes) : result pyval :=
  (header <- LLMD_header_outcome a ;;
   yaml_data <- yaml_section_at 24 a (yaml_length header) ;;
   metadata <- LLMD._parse_metadata yaml_data ;;
   parsed <- LLMD._parse_sqlite_data (skipn (Z.to_nat (sqlite_offset header)) a) ;;
   Ok (assemble metadata parsed))%result.

End LLMDOutcomes.
(** *** Structured participants *)

(** The [role] of every participant record that has one, in list order. *)
Definition roles_of (participants : list pyval) : list pyval :=
  flat_map (fun p => match field p "role" with
                     | Some r => [r]
                     | None => []
                     end) participants.

Definition is_mapping (v : pyval) : Prop := exists d, v = PDict d.
(** ** [parse_file] and [write_file]

    The part of the file system that the two methods see: the content of
    each file, and the paths that the system refuses to open, with the text
    of the [OSError] it raises for them. *)
Record filesystem : Type := mkFilesystem {
  files : list (string * bytes);
  refused : string -> option string
}.

Fixpoint file_content (path : string) (fl : list (string * bytes)) : option bytes :=
  match fl with
  | [] => None
  | (p, b) :: r => if String.eqb path p then Some b else file_content path r
  end.

Fixpoint store_file (path : string) (b : bytes) (fl : list (string * bytes))
  : list (string * bytes) :=
  match fl with
  | [] => [(path, b)]
  | (p, b') :: r =>
      if String.eqb path p then (path, b) :: r else (p, b') :: store_file path b r
  end.

Definition set_file (path : string) (b : bytes) (fs : filesystem) : filesystem :=
  mkFilesystem (store_file path b (files fs)) (refused fs).

(** [open(path, "rb")]: the content of the file, or the text of the
    [OSError]. *)
Definition open_rb (fs : filesystem) (path : string) : bytes + string :=
  match refused fs path with
  | Some msg => inr msg
  | None =>
      match file_content path (files fs) with
      | Some b => inl b
      | None => inr ("[Errno 2] No such file or directory: '" ++ path ++ "'")%string
      end
  end.

(** [open(path, "wb")]: the file is created, or emptied, as it is opened. *)
Definition open_wb (fs : filesystem) (path : string) : filesystem + string :=
  match refused fs path with
  | Some msg => inr msg
  | None => inl (set_file path [] fs)
  end.

Section Files.
Context {caps : Capabilities}.

(** [LLMCParser.parse_file]; the function [parse_file] of the package calls
    it on a new parser. *)
Definition parse_file (file_path : string) (fs : filesystem) : result pyval :=
  match open_rb fs file_path with
  | inl b => fst (parse_stream (mkStream b 0))
  | inr e =>
      Raise (LLMCParseError
               ("Failed to read file " ++ file_path ++ ": " ++ e)%string)
  end.

(** [LLMCWriter.write_file]; the function [write_file] of the package calls
    it on a new writer. When the [with] block is left, with or without an
    exception, the file holds what was written to it. *)
Definition write_file (conversation : pyval) (file_path : string) (fs : filesystem)
  : result unit * filesystem :=
  match open_wb fs file_path with
  | inl fs' =>
      let (r, f) := write_stream conversation (mkStream [] 0) in
      (r, set_file file_path (content f) fs')
  | inr e =>
      (Raise (LLMCFormatError
                ("Failed to write file " ++ file_path ++ ": " ++ e)%string),
       fs)
  end.

End Files.

(** *** Samples for the further properties *)

(** Services whose YAML loader is interrupted: [yaml.safe_load] raises
    [KeyboardInterrupt]; the other services are the reference ones. *)
Definition interrupted_services : Capabilities := {|
  yaml_dump := @yaml_dump Reference.services;
  yaml_safe_load := fun _ => Raise (KeyboardInterrupt "");
  json_dumps := @json_dumps Reference.services;
  json_loads := @json_loads Reference.services;
  db_file := @db_file Reference.services;
  db_open := @db_open Reference.services
|}.

(** The sample metadata and an empty write-schema store in a container
    with [gap] between the YAML block and the store, under the reference
    services. *)
Definition gapped_sample (gap : bytes) : bytes :=
  @container_with_gap Reference.services
     (Reference.encode_value (PDict sample_metadata)) gap (plain_store SNull SNull).

(** Two messages with the same id. *)
Definition conversation_with_duplicate_id : pyval :=
  PDict [ ("metadata", PDict sample_metadata);
          ("messages",
           PList [ sample_message "msg_1" "user" "Hello" "2024-01-15T10:30:00Z";
                   sample_message "msg_1" "assistant" "Hi" "2024-01-15T10:30:05Z" ]) ].

(** A message whose [content] is [None]. *)
Definition message_with_null_content : dict :=
  [ ("id", PStr "msg_1"); ("role", PStr "user"); ("content", PNone);
    ("timestamp", PStr "2024-01-15T10:30:00Z") ].

Definition conversation_with_null_content : pyval :=
  PDict [ ("metadata", PDict sample_metadata);
          ("messages", PList [PDict message_with_null_content]) ].

(** Metadata whose participants are records, one of them without a role. *)
Definition structured_participants : list pyval :=
  [ PDict [("role", PStr "user"); ("name", PStr "Ann")];
    PDict [("name", PStr "Bot")];
    PDict [("role", PStr "assistant")] ].

Definition structured_metadata : dict :=
  [ ("version", PStr "0.1");
    ("created_at", PStr "2024-01-15T10:30:00Z");
    ("participants", PList structured_participants) ].

(** A file system with one file, in which every path can be opened. *)
Definition sample_files : filesystem :=
  mkFilesystem [("chat.llmc", [x41; x42])] (fun _ => None).

(** A message with an empty attachment list. *)
Definition message_with_empty_list : dict :=
  [ ("id", PStr "msg_1"); ("role", PStr "user"); ("content", PStr "Hello");
    ("timestamp", PStr "2024-01-15T10:30:00Z"); ("attachments", PList []) ].

(** The fields that [_insert_attachments] reads from an attachment, in the
    order in which it reads them. *)
Definition required_attachment_fields : list string :=
  ["id"; "filename"; "content_type"; "size"; "data"].

(** An attachment without [data]. *)
Definition attachment_without_data : dict :=
  [ ("id", PStr "att_1"); ("filename", PStr "a.txt");
    ("content_type", PStr "text/plain"); ("size", PInt 2) ].

Definition conversation_with_broken_attachment : pyval :=
  PDict [ ("metadata", PDict sample_metadata);
          ("messages",
           PList [sample_message "msg_1" "user" "Hello" "2024-01-15T10:30:00Z"]);
          ("attachments", PList [PDict attachment_without_data]) ].



(** The text starts, or ends, with a character that [str.strip()] removes. *)
Definition starts_with_whitespace (s : string) : Prop :=
  exists rest, drop_any py_whitespace (list_byte_of_string s) = Some rest.

Definition ends_with_whitespace (s : string) : Prop :=
  exists rest,
    drop_any (map (@rev byte) py_whitespace) (rev (list_byte_of_string s)) = Some rest.

(** *** What the store keeps of an attachment *)

Section WrittenStore.
Context {caps : Capabilities}.


End WrittenStore.






(* ===================================================================== *)
(** * Part II: properties                                                 *)
(* ===================================================================== *)

Unset Implicit Arguments.

(** ** Streams *)

Lemma at_offset_start (a : bytes) : at_offset a 0 (mkStream a 0).
Proof. split; reflexivity. Qed.

Lemma skipn_past_read (a : bytes) (p n : nat) :
  skipn (p + length (firstn n (skipn p a))) a = skipn (p + n) a.
Proof.
  rewrite length_firstn, length_skipn.
  destruct (Nat.le_gt_cases n (length a - p)) as [H | H].
  - rewrite Nat.min_l by exact H. reflexivity.
  - rewrite Nat.min_r by lia.
    rewrite !skipn_all2 by lia. reflexivity.
Qed.

Lemma stream_read_at (a : bytes) (k n : nat) (s : BinaryIO) :
  at_offset a k s ->
  exists s', stream_read n s = (Ok (firstn n (skipn k a)), s')
             /\ at_offset a (k + n) s'.
Proof.
  intros [Hc Hp]. unfold stream_read. rewrite Hc, Hp.
  eexists; split; [reflexivity |].
  split; [reflexivity |]. simpl.
  rewrite <- Hp at 1.
  rewrite skipn_past_read.
  rewrite (Nat.add_comm (position s) n), (Nat.add_comm k n).
  rewrite <- !skipn_skipn, Hp. reflexivity.
Qed.

(** ** The header codec *)

Lemma Z_of_byte_of_Z (v : Z) : Z_of_byte (byte_of_Z v) = (v mod 256)%Z.
Proof.
  unfold Z_of_byte, byte_of_Z.
  assert (Hr : (0 <= v mod 256 < 256)%Z) by (apply Z.mod_pos_bound; lia).
  destruct (Byte.of_N (Z.to_N (v mod 256))) as [b |] eqn:E.
  - apply Byte.to_of_N in E. rewrite E. lia.
  - apply Byte.of_N_None_iff in E. lia.
Qed.

Lemma le_decode_encode (n : nat) :
  forall v, (0 <= v < 256 ^ Z.of_nat n)%Z -> le_decode (le_encode n v) = v.
Proof.
  induction n as [| n IH]; intros v Hv.
  - simpl in *. lia.
  - cbn [le_encode le_decode]. rewrite Z_of_byte_of_Z.
    rewrite IH.
    + pose proof (Z.div_mod v 256). lia.
    + rewrite Nat2Z.inj_succ, Z.pow_succ_r in Hv by lia.
      split; [apply Z.div_pos; lia |].
      apply Z.div_lt_upper_bound; lia.
Qed.

Lemma length_le_encode (n : nat) (v : Z) : length (le_encode n v) = n.
Proof. revert v; induction n; intros; simpl; [reflexivity | now rewrite IHn]. Qed.

Lemma struct_pack_ok (f : struct_fmt) (v : Z) :
  (0 <= v < 256 ^ Z.of_nat (fmt_size f))%Z ->
  struct_pack f v = Ok (le_encode (fmt_size f) v).
Proof.
  intros Hv. unfold struct_pack.
  destruct (0 <=? v)%Z eqn:E1; [| apply Z.leb_gt in E1; lia].
  destruct (v <? 256 ^ Z.of_nat (fmt_size f))%Z eqn:E2;
    [reflexivity | apply Z.ltb_ge in E2; lia].
Qed.

Lemma struct_unpack_pack (f : struct_fmt) (v : Z) :
  (0 <= v < 256 ^ Z.of_nat (fmt_size f))%Z ->
  struct_unpack f (le_encode (fmt_size f) v) = Ok v.
Proof.
  intros Hv. unfold struct_unpack.
  rewrite length_le_encode, Nat.eqb_refl, le_decode_encode by exact Hv.
  reflexivity.
Qed.

(** Running [_read_header] from the start of [a] gives [header_outcome a];
    after a success what is left to read starts at offset 32. *)
Lemma read_header_run (a : bytes) (s : BinaryIO) :
  at_offset a 0 s ->
  exists s', _read_header s = (header_outcome a, s')
             /\ (forall h, header_outcome a = Ok h -> at_offset a 32 s').
Proof.
  intros H0. unfold _read_header, header_outcome, bind, lift, throw, ret.
  destruct (stream_read_at _ _ 4 _ H0) as (s1 & E1 & H1). rewrite E1. clear E1.
  change (skipn 0 a) with a.
  destruct (negb (bytes_eqb (firstn 4 a) LLMC_MAGIC)).
  { eexists; split; [reflexivity | discriminate]. }
  destruct (stream_read_at _ _ 1 _ H1) as (s2 & E2 & H2). rewrite E2. clear E2.
  cbn [Nat.add] in *.
  destruct (struct_unpack fmt_B (firstn 1 (skipn 4 a))) as [v |] ; cbn [rbind].
  2: { eexists; split; [reflexivity | discriminate]. }
  destruct (negb (v =? LLMC_VERSION)%Z).
  { eexists; split; [reflexivity | discriminate]. }
  destruct (stream_read_at _ _ 3 _ H2) as (s3 & E3 & H3). rewrite E3. clear E3.
  destruct (stream_read_at _ _ 4 _ H3) as (s4 & E4 & H4). rewrite E4. clear E4.
  cbn [Nat.add] in *.
  destruct (struct_unpack fmt_I (firstn 4 (skipn 8 a))) as [fv |]; cbn [rbind].
  2: { eexists; split; [reflexivity | discriminate]. }
  destruct (negb (fv =? 1)%Z).
  { eexists; split; [reflexivity | discriminate]. }
  destruct (stream_read_at _ _ 4 _ H4) as (s5 & E5 & H5). rewrite E5. clear E5.
  cbn [Nat.add] in *.
  destruct (struct_unpack fmt_I (firstn 4 (skipn 12 a))) as [yl |]; cbn [rbind].
  2: { eexists; split; [reflexivity | discriminate]. }
  destruct (stream_read_at _ _ 8 _ H5) as (s6 & E6 & H6). rewrite E6. clear E6.
  cbn [Nat.add] in *.
  destruct (struct_unpack fmt_Q (firstn 8 (skipn 16 a))) as [so |]; cbn [rbind].
  2: { eexists; split; [reflexivity | discriminate]. }
  destruct (stream_read_at _ _ 1 _ H6) as (s7 & E7 & H7). rewrite E7. clear E7.
  destruct (stream_read_at _ _ 7 _ H7) as (s8 & E8 & H8). rewrite E8. clear E8.
  cbn [Nat.add] in *.
  eexists; split; [reflexivity | intros; exact H8].
Qed.

Lemma slice_agree (a b : bytes) (k n : nat) :
  (forall i, k <= i < k + n -> nth_error a i = nth_error b i) ->
  firstn n (skipn k a) = firstn n (skipn k b).
Proof.
  intros H. apply nth_error_ext. intros j.
  rewrite !nth_error_firstn, !nth_error_skipn.
  destruct (j <? n) eqn:E; [| reflexivity].
  apply Nat.ltb_lt in E. apply H. lia.
Qed.

Lemma outside_reserved (i : nat) :
  i < 5 \/ 8 <= i < 24 -> ~ In i reserved_positions.
Proof. unfold reserved_positions. simpl. lia. Qed.

Lemma header_outcome_reserved (a b : bytes) :
  differ_only_in_reserved a b -> header_outcome a = header_outcome b.
Proof.
  intros [_ H]. unfold header_outcome.
  assert (E0 : firstn 4 a = firstn 4 b).
  { apply (slice_agree a b 0 4). intros; apply H, outside_reserved; lia. }
  assert (E1 : firstn 1 (skipn 4 a) = firstn 1 (skipn 4 b)).
  { apply slice_agree. intros; apply H, outside_reserved; lia. }
  assert (E2 : firstn 4 (skipn 8 a) = firstn 4 (skipn 8 b)).
  { apply slice_agree. intros; apply H, outside_reserved; lia. }
  assert (E3 : firstn 4 (skipn 12 a) = firstn 4 (skipn 12 b)).
  { apply slice_agree. intros; apply H, outside_reserved; lia. }
  assert (E4 : firstn 8 (skipn 16 a) = firstn 8 (skipn 16 b)).
  { apply slice_agree. intros; apply H, outside_reserved; lia. }
  rewrite E0, E1, E2, E3, E4. reflexivity.
Qed.

Lemma read_header_outcome (a : bytes) :
  fst (_read_header (mkStream a 0)) = header_outcome a.
Proof.
  destruct (read_header_run _ _ (at_offset_start a)) as (s' & E & _).
  rewrite E. reflexivity.
Qed.

Lemma length_slice (a : bytes) (k n : nat) :
  k + n <= length a -> length (firstn n (skipn k a)) = n.
Proof. intros H. rewrite length_firstn, length_skipn. lia. Qed.

(** The header of an input that holds the 24 bytes of fields, with the
    right magic, version byte and format revision. *)
Lemma header_outcome_valid (a : bytes) :
  24 <= length a ->
  firstn 4 a = LLMC_MAGIC ->
  nth_error a 4 = Some x01 ->
  le_decode (firstn 4 (skipn 8 a)) = 1%Z ->
  header_outcome a =
    Ok (mkHeader 1 1 (le_decode (firstn 4 (skipn 12 a)))
                     (le_decode (firstn 8 (skipn 16 a)))).
Proof.
  intros Hlen Hmagic Hver Hrev. unfold header_outcome.
  rewrite Hmagic. cbn [negb bytes_eqb].
  replace (bytes_eqb LLMC_MAGIC LLMC_MAGIC) with true by reflexivity.
  cbn [negb].
  assert (E1 : firstn 1 (skipn 4 a) = [x01]).
  { apply nth_error_ext. intros j.
    rewrite nth_error_firstn, nth_error_skipn.
    destruct j as [| j]; cbn [Nat.ltb Nat.leb].
    - rewrite Nat.add_0_r. exact Hver.
    - destruct j; reflexivity. }
  rewrite E1. cbn [struct_unpack length fmt_size Nat.eqb rbind].
  change (le_decode [x01] =? LLMC_VERSION)%Z with true. cbn [negb].
  unfold struct_unpack.
  rewrite !length_slice by lia. cbn [fmt_size Nat.eqb rbind].
  rewrite Hrev. reflexivity.
Qed.

Lemma read_header_reserved_same_outcome (a b : bytes) :
  differ_only_in_reserved a b ->
  fst (_read_header (mkStream a 0)) = fst (_read_header (mkStream b 0)).
Proof.
  intros H. rewrite !read_header_outcome. now apply header_outcome_reserved.
Qed.

(** C10. On read, the 32-byte header decoder never looks at the three
    reserved bytes, the encryption-flags byte or the seven trailing reserved
    bytes: two inputs that hold a header, differ only in those eleven
    positions and carry the right magic, version and format revision both
    decode, to the same header fields. *)
Theorem read_header_ignores_reserved (a b : bytes) :
  differ_only_in_reserved a b ->
  32 <= length a ->
  firstn 4 a = LLMC_MAGIC ->
  nth_error a 4 = Some x01 ->
  le_decode (firstn 4 (skipn 8 a)) = 1%Z ->
  exists h,
    fst (_read_header (mkStream a 0)) = Ok h
    /\ fst (_read_header (mkStream b 0)) = Ok h
    /\ yaml_length h = le_decode (firstn 4 (skipn 12 a))
    /\ sqlite_offset h = le_decode (firstn 8 (skipn 16 a)).
Proof.
  intros Hd Hlen Hm Hv Hr.
  rewrite <- (read_header_reserved_same_outcome _ _ Hd).
  rewrite read_header_outcome, header_outcome_valid by (assumption || lia).
  eexists. repeat split.
Qed.

Lemma read_header_ignores_reserved_witness :
  exists h,
    fst (_read_header (mkStream sample_header 0)) = Ok h
    /\ fst (_read_header (mkStream sample_header_flagged 0)) = Ok h
    /\ yaml_length h = le_decode (firstn 4 (skipn 12 sample_header))
    /\ sqlite_offset h = le_decode (firstn 8 (skipn 16 sample_header)).
Proof.
  apply (read_header_ignores_reserved sample_header sample_header_flagged).
  - split; [reflexivity |].
    intros i Hi.
    do 32 (destruct i as [| i]; [first [reflexivity | exfalso; apply Hi; simpl; tauto] |]).
    reflexivity.
  - vm_compute. lia.
  - reflexivity.
  - reflexivity.
  - reflexivity.
Defined.

(** ** Header rejection *)

Lemma bytes_eqb_neq (a b : bytes) : a <> b -> bytes_eqb a b = false.
Proof. intros H. unfold bytes_eqb. destruct (list_eq_dec _ a b); congruence. Qed.

(** A magic that does not match (also one cut short) is a [LLMCFormatError]. *)
Lemma header_bad_magic (a : bytes) :
  firstn 4 a <> LLMC_MAGIC ->
  header_outcome a =
    Raise (LLMCFormatError ("Invalid magic bytes: " ++ bytes_repr (firstn 4 a))%string).
Proof.
  intros H. unfold header_outcome. now rewrite bytes_eqb_neq.
Qed.

(** A version byte other than 1 is a [LLMCFormatError]. *)
Lemma header_bad_version (a : bytes) (v : byte) :
  firstn 4 a = LLMC_MAGIC ->
  nth_error a 4 = Some v ->
  v <> x01 ->
  header_outcome a =
    Raise (LLMCFormatError ("Unsupported version: " ++ str_of_int (Z_of_byte v))%string).
Proof.
  intros Hm Hv Hne. unfold header_outcome. rewrite Hm.
  replace (bytes_eqb LLMC_MAGIC LLMC_MAGIC) with true by reflexivity.
  cbn [negb].
  assert (E1 : firstn 1 (skipn 4 a) = [v]).
  { apply nth_error_ext. intros j.
    rewrite nth_error_firstn, nth_error_skipn.
    destruct j as [| j]; cbn [Nat.ltb Nat.leb].
    - rewrite Nat.add_0_r. exact Hv.
    - destruct j; reflexivity. }
  rewrite E1. cbn [struct_unpack length fmt_size Nat.eqb rbind le_decode].
  rewrite Z.mul_0_r, Z.add_0_r.
  destruct (Z_of_byte v =? LLMC_VERSION)%Z eqn:E; [| reflexivity].
  exfalso. apply Hne. apply Z.eqb_eq in E.
  unfold Z_of_byte, LLMC_VERSION in E.
  assert (E' : Byte.to_N v = Byte.to_N x01) by (simpl; lia).
  apply (f_equal Byte.of_N) in E'. rewrite !Byte.of_to_N in E'. congruence.
Qed.

(** A format revision other than 1 is a [LLMCFormatError]. *)
Lemma header_bad_revision (a : bytes) :
  12 <= length a ->
  firstn 4 a = LLMC_MAGIC ->
  nth_error a 4 = Some x01 ->
  le_decode (firstn 4 (skipn 8 a)) <> 1%Z ->
  header_outcome a =
    Raise (LLMCFormatError
             ("Unsupported format version: "
              ++ str_of_int (le_decode (firstn 4 (skipn 8 a))))%string).
Proof.
  intros Hlen Hm Hv Hne. unfold header_outcome. rewrite Hm.
  replace (bytes_eqb LLMC_MAGIC LLMC_MAGIC) with true by reflexivity.
  cbn [negb].
  assert (E1 : firstn 1 (skipn 4 a) = [x01]).
  { apply nth_error_ext. intros j.
    rewrite nth_error_firstn, nth_error_skipn.
    destruct j as [| j]; cbn [Nat.ltb Nat.leb].
    - rewrite Nat.add_0_r. exact Hv.
    - destruct j; reflexivity. }
  rewrite E1. cbn [struct_unpack length fmt_size Nat.eqb rbind].
  change (le_decode [x01] =? LLMC_VERSION)%Z with true. cbn [negb].
  unfold struct_unpack. rewrite length_slice by lia.
  cbn [fmt_size Nat.eqb rbind].
  apply Z.eqb_neq in Hne. rewrite Hne. reflexivity.
Qed.

Section HeaderErrors.
Context {caps : Capabilities}.

(** What [parse_stream] makes of a failure of [_read_header]: the LLMC
    errors pass, as does what is no [Exception]; anything else is wrapped
    into a [LLMCParseError]. *)
Lemma parse_stream_header_error (a : bytes) (e : exn) :
  header_outcome a = Raise e ->
  fst (parse_stream (mkStream a 0)) =
    Raise (if negb (is_Exception e) || is_parse_or_format_error e then e
           else LLMCParseError ("Unexpected error during parsing: " ++ exn_str e)%string).
Proof.
  intros H.
  destruct (read_header_run _ _ (at_offset_start a)) as (s' & E & _).
  unfold parse_stream, io_try, bind. rewrite E, H.
  destruct (is_Exception e); [| reflexivity].
  destruct (is_parse_or_format_error e); reflexivity.
Qed.

(** C2, at the inputs where the code departs from it. An input cut after
    the magic makes [struct.unpack] fail inside [_read_header], and
    [parse_stream] reports that as a [LLMCParseError]; an input that stops
    after the 24 bytes of fields, 8 bytes short of the header, is decoded
    without any error. *)
Theorem truncated_header_outcomes :
  fst (_read_header (mkStream LLMC_MAGIC 0))
    = Raise (struct_error "unpack requires a buffer of 1 bytes")
  /\ fst (parse_stream (mkStream LLMC_MAGIC 0))
    = Raise (LLMCParseError
               "Unexpected error during parsing: unpack requires a buffer of 1 bytes")
  /\ length (firstn 24 sample_header) = 24
  /\ fst (_read_header (mkStream (firstn 24 sample_header) 0))
    = Ok (mkHeader 1 1 5 37).
Proof.
  split; [reflexivity |].
  split; [| split; reflexivity].
  rewrite (@parse_stream_header_error LLMC_MAGIC
             (struct_error "unpack requires a buffer of 1 bytes"));
    reflexivity.
Qed.

End HeaderErrors.

(** ** Dictionaries *)

Lemma dict_get_set_same (k : string) (v : pyval) (d : dict) :
  dict_get k (dict_set k v d) = Some v.
Proof.
  induction d as [| [k' v'] d IH]; simpl.
  - now rewrite String.eqb_refl.
  - destruct (String.eqb k k') eqn:E; simpl.
    + now rewrite String.eqb_refl.
    + now rewrite E.
Qed.

Lemma dict_get_set_other (k k' : string) (v : pyval) (d : dict) :
  k <> k' -> dict_get k (dict_set k' v d) = dict_get k d.
Proof.
  intros Hne. induction d as [| [k0 v0] d IH]; simpl.
  - apply String.eqb_neq in Hne. now rewrite Hne.
  - destruct (String.eqb k' k0) eqn:E; simpl.
    + apply String.eqb_eq in E. subst k0.
      apply String.eqb_neq in Hne. now rewrite Hne.
    + destruct (String.eqb k k0); [reflexivity | exact IH].
Qed.

Lemma dict_get_pop_same (k : string) (d : dict) :
  dict_get k (dict_pop k d) = None.
Proof.
  unfold dict_pop. induction d as [| [k' v'] d IH]; simpl; [reflexivity |].
  destruct (String.eqb k k') eqn:E; simpl; [exact IH | now rewrite E].
Qed.

Lemma dict_get_pop_other (k k' : string) (d : dict) :
  k <> k' -> dict_get k (dict_pop k' d) = dict_get k d.
Proof.
  intros Hne. unfold dict_pop.
  induction d as [| [k0 v0] d IH]; simpl; [reflexivity |].
  destruct (String.eqb k' k0) eqn:E; simpl.
  - apply String.eqb_eq in E. subst k0.
    apply String.eqb_neq in Hne. now rewrite Hne.
  - destruct (String.eqb k k0); [reflexivity | exact IH].
Qed.

Lemma dict_in_get (k : string) (d : dict) :
  dict_in k d = true <-> exists v, dict_get k d = Some v.
Proof.
  unfold dict_in. destruct (dict_get k d).
  - split; eauto.
  - split; [discriminate | intros [v H]; discriminate].
Qed.

Lemma dict_in_false (k : string) (d : dict) :
  dict_in k d = false <-> dict_get k d = None.
Proof.
  unfold dict_in. destruct (dict_get k d); split; congruence.
Qed.

(** Rewrites lookups through [dict_set] and [dict_pop] at literal keys. *)
Ltac dict_simpl :=
  repeat first
    [ rewrite dict_get_set_same
    | rewrite dict_get_pop_same
    | rewrite dict_get_set_other by discriminate
    | rewrite dict_get_pop_other by discriminate ].

(** ** Metadata normalisation *)

Lemma rename_legacy_moves (legacy canonical : string) (d : dict) (v : pyval) :
  legacy <> canonical ->
  dict_get legacy d = Some v ->
  dict_in canonical d = false ->
  dict_get canonical (rename_legacy legacy canonical d) = Some v
  /\ dict_get legacy (rename_legacy legacy canonical d) = None.
Proof.
  intros Hne Hl Hc. unfold rename_legacy. rewrite Hl, Hc. cbn [negb].
  split.
  - apply dict_get_set_same.
  - rewrite dict_get_set_other by exact Hne. apply dict_get_pop_same.
Qed.

Lemma rename_legacy_keeps_canonical (legacy canonical : string) (d : dict) (v : pyval) :
  dict_get canonical d = Some v ->
  rename_legacy legacy canonical d = d.
Proof.
  intros Hc. unfold rename_legacy, dict_in. rewrite Hc.
  destruct (dict_get legacy d); reflexivity.
Qed.

Lemma rename_legacy_other (legacy canonical k : string) (d : dict) :
  k <> legacy -> k <> canonical ->
  dict_get k (rename_legacy legacy canonical d) = dict_get k d.
Proof.
  intros H1 H2. unfold rename_legacy.
  destruct (dict_get legacy d); [| reflexivity].
  destruct (negb (dict_in canonical d)); [| reflexivity].
  rewrite dict_get_set_other by exact H2.
  apply dict_get_pop_other. exact H1.
Qed.

Lemma normalize_participants_other (d r : dict) (k : string) :
  normalize_participants d = Ok r ->
  k <> "participants" ->
  dict_get k r = dict_get k d.
Proof.
  intros H Hk. unfold normalize_participants in H.
  destruct (dict_get "participants" d) as [p |].
  - destruct p as [| | | | | l |]; try (injection H as <-; reflexivity).
    destruct l as [| x rest]; try (injection H as <-; reflexivity).
    destruct x; try (injection H as <-; reflexivity).
    destruct (collect_roles _) as [roles |]; cbn [rbind] in H; [| discriminate].
    injection H as <-.
    destruct roles; [reflexivity |].
    apply dict_get_set_other. exact Hk.
  - injection H as <-. apply dict_get_set_other. exact Hk.
Qed.

Lemma normalize_participants_default (d : dict) :
  dict_in "participants" d = false ->
  normalize_participants d = Ok (dict_set "participants" default_participants d).
Proof.
  intros H. apply dict_in_false in H. unfold normalize_participants.
  now rewrite H.
Qed.

Lemma require_fields_ok (fields : list string) (d : dict) :
  (forall f, In f fields -> dict_in f d = true) ->
  require_fields fields d = Ok tt.
Proof.
  induction fields as [| f fs IH]; intros H; simpl; [reflexivity |].
  rewrite (H f) by (now left). apply IH. intros g Hg. apply H. now right.
Qed.

Lemma LLMC_normalize_unfold (d : dict) :
  normalize_metadata (PDict d) =
    (data <- normalize_participants (rename_legacy "created" "created_at" d) ;;
     _ <- require_fields ["version"; "created_at"; "participants"] data ;;
     Ok (PDict data))%result.
Proof. reflexivity. Qed.

Lemma LLMD_normalize_unfold (d : dict) :
  LLMD.normalize_metadata (PDict d) =
    normalize_metadata (PDict (rename_legacy "llmd_version" "version" d)).
Proof. reflexivity. Qed.

(** What a successful LLMC normalisation of [d] returns. *)
Lemma LLMC_normalize_result (d r : dict) :
  normalize_metadata (PDict d) = Ok (PDict r) ->
  normalize_participants (rename_legacy "created" "created_at" d) = Ok r.
Proof.
  rewrite LLMC_normalize_unfold. intros H.
  destruct (normalize_participants _) as [d' |]; cbn [rbind] in H; [| discriminate].
  destruct (require_fields _ d'); cbn [rbind] in H; [| discriminate].
  now injection H as <-.
Qed.

Lemma normalize_participants_plain (d : dict) :
  participants_plain d ->
  exists r, normalize_participants d = Ok r
            /\ forall k, dict_in k d = true -> dict_in k r = true.
Proof.
  unfold participants_plain, normalize_participants. intros H.
  destruct (dict_get "participants" d) as [p |] eqn:E.
  - exists d. split; [| auto].
    destruct p as [| | | | | l |]; try reflexivity.
    destruct l as [| x rest]; try reflexivity.
    destruct x; try reflexivity. contradiction.
  - eexists. split; [reflexivity |]. intros k Hk.
    apply dict_in_get. apply dict_in_get in Hk as [v Hk].
    destruct (string_dec k "participants") as [-> | Hne].
    + rewrite dict_get_set_same. eauto.
    + rewrite dict_get_set_other by exact Hne. eauto.
Qed.

Lemma normalize_participants_has (d r : dict) :
  normalize_participants d = Ok r -> dict_in "participants" r = true.
Proof.
  intros H. unfold normalize_participants in H. apply dict_in_get.
  destruct (dict_get "participants" d) as [p |] eqn:E.
  - destruct p as [| | | | | l |]; try (injection H as <-; eauto).
    destruct l as [| x rest]; try (injection H as <-; eauto).
    destruct x; try (injection H as <-; eauto).
    destruct (collect_roles _) as [roles |]; cbn [rbind] in H; [| discriminate].
    injection H as <-.
    destruct roles; [eauto |]. rewrite dict_get_set_same. eauto.
  - injection H as <-. rewrite dict_get_set_same. eauto.
Qed.

Lemma rename_legacy_plain (legacy canonical : string) (d : dict) :
  "participants" <> legacy -> "participants" <> canonical ->
  participants_plain d -> participants_plain (rename_legacy legacy canonical d).
Proof.
  intros H1 H2. unfold participants_plain.
  now rewrite rename_legacy_other.
Qed.

Lemma rename_legacy_has_canonical (legacy canonical : string) (d : dict) :
  legacy <> canonical ->
  dict_in canonical d = true \/ dict_in legacy d = true ->
  dict_in canonical (rename_legacy legacy canonical d) = true.
Proof.
  intros Hne H. destruct (dict_in canonical d) eqn:E.
  - apply dict_in_get in E as [v E].
    now rewrite (rename_legacy_keeps_canonical legacy _ _ _ E), dict_in_get; eauto.
  - destruct H as [H | H]; [discriminate |].
    apply dict_in_get in H as [v H]. apply dict_in_get. exists v.
    now apply rename_legacy_moves.
Qed.

Lemma rename_legacy_keeps_in (legacy canonical k : string) (d : dict) :
  k <> legacy ->
  dict_in k d = true -> dict_in k (rename_legacy legacy canonical d) = true.
Proof.
  intros Hne H. unfold rename_legacy.
  destruct (dict_get legacy d); [| exact H].
  destruct (negb (dict_in canonical d)); [| exact H].
  apply dict_in_get. apply dict_in_get in H as [x H].
  destruct (string_dec k canonical) as [-> | Hc].
  - rewrite dict_get_set_same. eauto.
  - rewrite dict_get_set_other, dict_get_pop_other by assumption. eauto.
Qed.

(** Both normalisations succeed when the required keys are there under
    either name and no projection of participants is due. *)
Lemma LLMD_normalize_succeeds (d : dict) :
  dict_in "version" d = true \/ dict_in "llmd_version" d = true ->
  dict_in "created_at" d = true \/ dict_in "created" d = true ->
  participants_plain d ->
  exists r, LLMD.normalize_metadata (PDict d) = Ok (PDict r).
Proof.
  intros Hv Hc Hp.
  rewrite LLMD_normalize_unfold, LLMC_normalize_unfold.
  set (d1 := rename_legacy "llmd_version" "version" d).
  set (d2 := rename_legacy "created" "created_at" d1).
  assert (Hv2 : dict_in "version" d2 = true).
  { apply rename_legacy_keeps_in; [discriminate |].
    apply rename_legacy_has_canonical; [discriminate | exact Hv]. }
  assert (Hc2 : dict_in "created_at" d2 = true).
  { apply rename_legacy_has_canonical; [discriminate |].
    destruct Hc as [Hc | Hc]; [left | right];
      (apply rename_legacy_keeps_in; [discriminate | exact Hc]). }
  assert (Hp2 : participants_plain d2).
  { apply rename_legacy_plain; try discriminate.
    apply rename_legacy_plain; try discriminate. exact Hp. }
  destruct (normalize_participants_plain _ Hp2) as (r & Er & Hr).
  rewrite Er. cbn [rbind].
  rewrite require_fields_ok; [cbn [rbind]; eauto |].
  intros f [<- | [<- | [<- | []]]].
  - now apply Hr.
  - now apply Hr.
  - exact (normalize_participants_has _ _ Er).
Qed.

(** The LLMC normalisation succeeds as soon as [version] is there, the
    creation time is there under either name, and no projection of
    participants is due. *)
Lemma LLMC_normalize_succeeds_plain (d : dict) :
  dict_in "version" d = true ->
  dict_in "created_at" d = true \/ dict_in "created" d = true ->
  participants_plain d ->
  exists r, normalize_metadata (PDict d) = Ok (PDict r).
Proof.
  intros Hv Hc Hp. rewrite LLMC_normalize_unfold.
  set (d1 := rename_legacy "created" "created_at" d).
  assert (Hp1 : participants_plain d1)
    by (apply rename_legacy_plain; [discriminate | discriminate | exact Hp]).
  destruct (normalize_participants_plain _ Hp1) as (r & Er & Hr).
  rewrite Er. cbn [rbind].
  rewrite require_fields_ok; [cbn [rbind]; eauto |].
  intros f [<- | [<- | [<- | []]]].
  - apply Hr. apply rename_legacy_keeps_in; [discriminate | exact Hv].
  - apply Hr. apply rename_legacy_has_canonical; [discriminate | exact Hc].
  - exact (normalize_participants_has _ _ Er).
Qed.

(** The LLMC normalisation never returns a mapping that came without
    [version]. *)
Lemma LLMC_normalize_needs_version (d : dict) :
  dict_in "version" d = false ->
  (forall r, normalize_metadata (PDict d) <> Ok r)
  /\ (participants_plain d ->
      normalize_metadata (PDict d)
      = Raise (LLMCFormatError "Missing required field: version")).
Proof.
  intros Hv.
  assert (Hmiss : forall r,
            normalize_participants (rename_legacy "created" "created_at" d) = Ok r ->
            dict_in "version" r = false).
  { intros r Er. apply dict_in_false.
    rewrite (normalize_participants_other _ _ _ Er) by discriminate.
    rewrite rename_legacy_other by discriminate. now apply dict_in_false. }
  split.
  - intros r. rewrite LLMC_normalize_unfold.
    destruct (normalize_participants _) as [d' |] eqn:Er; cbn [rbind];
      [| discriminate].
    cbn [require_fields]. rewrite (Hmiss d' eq_refl). discriminate.
  - intros Hp. rewrite LLMC_normalize_unfold.
    assert (Hp1 : participants_plain (rename_legacy "created" "created_at" d))
      by (apply rename_legacy_plain; [discriminate | discriminate | exact Hp]).
    destruct (normalize_participants_plain _ Hp1) as (r & Er & _).
    rewrite Er. cbn [rbind require_fields]. now rewrite (Hmiss r Er).
Qed.

(** C3, as amended. Normalising a raw metadata mapping [d]:
    - without [participants], the result holds the list [user, assistant];
    - a legacy [created] next to no [created_at] is moved to [created_at],
      and [created] is gone from the result;
    - a [created_at] that is there keeps its value, whether or not
      [created] is there too.
    Both parsers do this. The step from [llmd_version] to [version] (moved
    when [version] is absent, [version] kept when it is there) is a step of
    the LLMD parser only ([r]): the LLMC parser has no such step, returns
    [version] and [llmd_version] as they came ([r']) and never accepts a
    mapping without [version]. Each parser returns a result when the
    required keys are there under the names it knows and [participants] is
    not a list of structured records. *)
Theorem metadata_defaults_and_aliases (d : dict) :
  (forall r, LLMD.normalize_metadata (PDict d) = Ok (PDict r) ->
     (dict_in "participants" d = false ->
      dict_get "participants" r = Some default_participants)
     /\ (forall v, dict_get "created" d = Some v -> dict_in "created_at" d = false ->
           dict_get "created_at" r = Some v /\ dict_get "created" r = None)
     /\ (forall v, dict_get "llmd_version" d = Some v -> dict_in "version" d = false ->
           dict_get "version" r = Some v /\ dict_get "llmd_version" r = None)
     /\ (forall v, dict_get "created_at" d = Some v -> dict_get "created_at" r = Some v)
     /\ (forall v, dict_get "version" d = Some v -> dict_get "version" r = Some v))
  /\ ((dict_in "version" d = true \/ dict_in "llmd_version" d = true) ->
      (dict_in "created_at" d = true \/ dict_in "created" d = true) ->
      participants_plain d ->
      exists r, LLMD.normalize_metadata (PDict d) = Ok (PDict r))
  /\ (forall r', normalize_metadata (PDict d) = Ok (PDict r') ->
     (dict_in "participants" d = false ->
      dict_get "participants" r' = Some default_participants)
     /\ (forall v, dict_get "created" d = Some v -> dict_in "created_at" d = false ->
           dict_get "created_at" r' = Some v /\ dict_get "created" r' = None)
     /\ (forall v, dict_get "created_at" d = Some v -> dict_get "created_at" r' = Some v)
     /\ dict_get "version" r' = dict_get "version" d
     /\ dict_get "llmd_version" r' = dict_get "llmd_version" d)
  /\ (dict_in "version" d = true ->
      (dict_in "created_at" d = true \/ dict_in "created" d = true) ->
      participants_plain d ->
      exists r', normalize_metadata (PDict d) = Ok (PDict r'))
  /\ (dict_in "version" d = false ->
      (forall r', normalize_metadata (PDict d) <> Ok r')
      /\ (participants_plain d ->
          normalize_metadata (PDict d)
          = Raise (LLMCFormatError "Missing required field: version"))).
Proof.
  assert (LLMC_part : forall d0 r0,
    normalize_metadata (PDict d0) = Ok (PDict r0) ->
    (dict_in "participants" d0 = false ->
     dict_get "participants" r0 = Some default_participants)
    /\ (forall v, dict_get "created" d0 = Some v -> dict_in "created_at" d0 = false ->
          dict_get "created_at" r0 = Some v /\ dict_get "created" r0 = None)
    /\ (forall v, dict_get "created_at" d0 = Some v -> dict_get "created_at" r0 = Some v)
    /\ (forall k, k <> "participants" -> k <> "created" -> k <> "created_at" ->
          dict_get k r0 = dict_get k d0)).
  { intros d0 r0 H. apply LLMC_normalize_result in H.
    split; [| split; [| split]].
    - intros Hp. rewrite normalize_participants_default in H.
      + injection H as <-. apply dict_get_set_same.
      + apply dict_in_false. rewrite rename_legacy_other by discriminate.
        now apply dict_in_false.
    - intros v Hv Habs.
      rewrite !(normalize_participants_other _ _ _ H) by discriminate.
      apply rename_legacy_moves; [discriminate | assumption | assumption].
    - intros v Hv. rewrite (normalize_participants_other _ _ _ H) by discriminate.
      now rewrite (rename_legacy_keeps_canonical "created" _ _ _ Hv).
    - intros k H1 H2 H3. rewrite (normalize_participants_other _ _ _ H) by exact H1.
      now apply rename_legacy_other. }
  split; [| split; [| split; [| split]]].
  - intros r H. rewrite LLMD_normalize_unfold in H.
    destruct (LLMC_part _ _ H) as (Hp & Hc & Hca & Hother).
    split; [| split; [| split; [| split]]].
    + intros Habs. apply Hp. apply dict_in_false.
      rewrite rename_legacy_other by discriminate. now apply dict_in_false.
    + intros v Hv Habs. apply Hc.
      * now rewrite rename_legacy_other by discriminate.
      * apply dict_in_false. rewrite rename_legacy_other by discriminate.
        now apply dict_in_false.
    + intros v Hv Habs. rewrite !Hother by discriminate.
      apply rename_legacy_moves; [discriminate | assumption | assumption].
    + intros v Hv. apply Hca. now rewrite rename_legacy_other by discriminate.
    + intros v Hv. rewrite Hother by discriminate.
      now rewrite (rename_legacy_keeps_canonical "llmd_version" _ _ _ Hv).
  - apply LLMD_normalize_succeeds.
  - intros r' H. destruct (LLMC_part _ _ H) as (Hp & Hc & Hca & Hother).
    split; [exact Hp | split; [exact Hc | split; [exact Hca |]]].
    split; apply Hother; discriminate.
  - apply LLMC_normalize_succeeds_plain.
  - apply LLMC_normalize_needs_version.
Qed.

Lemma metadata_defaults_and_aliases_witness :
  (exists r,
     LLMD.normalize_metadata (PDict legacy_metadata) = Ok (PDict r)
     /\ dict_get "participants" r = Some default_participants
     /\ dict_get "created_at" r = Some (PStr "2024-01-15T10:30:00Z")
     /\ dict_get "created" r = None
     /\ dict_get "version" r = Some (PStr "0.1")
     /\ dict_get "llmd_version" r = None)
  /\ (exists r',
        normalize_metadata (PDict legacy_created_metadata) = Ok (PDict r')
        /\ dict_get "participants" r' = Some default_participants
        /\ dict_get "created_at" r' = Some (PStr "2024-01-15T10:30:00Z")
        /\ dict_get "created" r' = None
        /\ dict_get "version" r' = Some (PStr "0.1")
        /\ dict_get "llmd_version" r' = Some (PStr "0.0"))
  /\ normalize_metadata (PDict legacy_metadata)
     = Raise (LLMCFormatError "Missing required field: version").
Proof.
  split; [| split].
  - destruct (metadata_defaults_and_aliases legacy_metadata) as (HD & Hex & _).
    destruct Hex as (r & Hr).
    + right. reflexivity.
    + right. reflexivity.
    + exact I.
    + exists r. split; [exact Hr |].
      destruct (HD r Hr) as (Hp & Hc & Hv & _).
      split; [apply Hp; reflexivity |].
      destruct (Hc (PStr "2024-01-15T10:30:00Z")) as [H1 H2]; try reflexivity.
      destruct (Hv (PStr "0.1")) as [H3 H4]; try reflexivity.
      auto.
  - destruct (metadata_defaults_and_aliases legacy_created_metadata)
      as (_ & _ & HC & Hex & _).
    destruct Hex as (r' & Hr').
    + reflexivity.
    + right. reflexivity.
    + exact I.
    + exists r'. split; [exact Hr' |].
      destruct (HC r' Hr') as (Hp & Hc & _ & Hv & Hl).
      split; [apply Hp; reflexivity |].
      destruct (Hc (PStr "2024-01-15T10:30:00Z")) as [H1 H2]; try reflexivity.
      rewrite Hv, Hl. auto.
  - destruct (metadata_defaults_and_aliases legacy_metadata) as (_ & _ & _ & _ & HF).
    destruct HF as [_ HF]; [reflexivity |]. apply HF. exact I.
Defined.

(** C3, as stated, fails for the LLMC parser, which has no [llmd_version]
    step: the legacy metadata has [llmd_version] and no [version], and the
    LLMC parser neither moves the value to [version] nor returns anything;
    it reports the [version] as missing. *)
Lemma LLMC_keeps_llmd_version :
  dict_get "llmd_version" legacy_metadata = Some (PStr "0.1")
  /\ dict_in "version" legacy_metadata = false
  /\ normalize_metadata (PDict legacy_metadata)
     = Raise (LLMCFormatError "Missing required field: version")
  /\ ~ (exists r,
          normalize_metadata (PDict legacy_metadata) = Ok (PDict r)
          /\ dict_get "version" r = Some (PStr "0.1")
          /\ dict_get "llmd_version" r = None).
Proof.
  split; [reflexivity |]. split; [reflexivity |]. split; [reflexivity |].
  intros (r & H & _). discriminate H.
Qed.

(** ** Validation *)

Lemma check_fields_first_missing (d : dict) (fields : list string) (f : string)
    (missing : string -> exn) :
  first_missing d fields f ->
  check_fields fields (PDict d) missing = Raise (missing f).
Proof.
  induction 1 as [f rest H | f g rest H _ IH]; simpl; rewrite H; simpl.
  - reflexivity.
  - exact IH.
Qed.

Lemma check_fields_all (d : dict) (fields : list string) (missing : string -> exn) :
  has_all fields d -> check_fields fields (PDict d) missing = Ok tt.
Proof.
  induction fields as [| f fs IH]; intros H; simpl; [reflexivity |].
  rewrite (H f) by (now left). simpl. apply IH.
  intros g Hg. apply H. now right.
Qed.

(** A mapping either holds all of [fields] or has a first missing one. *)
Lemma all_or_first_missing (d : dict) (fields : list string) :
  has_all fields d \/ exists f, first_missing d fields f.
Proof.
  induction fields as [| f fs IH].
  - left. intros f [].
  - destruct (dict_in f d) eqn:E.
    + destruct IH as [IH | [g IH]].
      * left. intros g [<- | Hg]; [exact E | now apply IH].
      * right. exists g. now apply first_missing_later.
    + right. exists f. now apply first_missing_here.
Qed.

Lemma validate_messages_complete (ms : list pyval) :
  Forall message_complete ms -> forall i, validate_messages i ms = Ok tt.
Proof.
  induction 1 as [| m ms (d & -> & Hd) _ IH]; intros i; [reflexivity |].
  cbn [validate_messages].
  fold required_message_fields. rewrite check_fields_all by exact Hd.
  cbn [rbind]. apply IH.
Qed.

Lemma validate_messages_missing_field (before after : list pyval) (m : dict)
    (f : string) :
  Forall message_complete before ->
  first_missing m required_message_fields f ->
  forall i,
    validate_messages i (before ++ PDict m :: after) =
      Raise (LLMCValidationError
               (offence_message (MessageMissingField (i + length before) f))).
Proof.
  intros Hb Hm. induction Hb as [| x before (d & -> & Hd) _ IH]; intros i.
  - cbn [app validate_messages length]. fold required_message_fields.
    rewrite (check_fields_first_missing _ _ _ _ Hm). rewrite Nat.add_0_r.
    reflexivity.
  - cbn [app validate_messages length]. fold required_message_fields.
    rewrite check_fields_all by exact Hd. cbn [rbind].
    rewrite IH. now rewrite Nat.add_succ_r.
Qed.

Lemma validate_messages_not_mapping (before after : list pyval) (m : pyval) :
  Forall message_complete before ->
  (forall d, m <> PDict d) ->
  forall i,
    validate_messages i (before ++ m :: after) =
      Raise (LLMCValidationError
               (offence_message (MessageNotAMapping (i + length before)))).
Proof.
  intros Hb Hm. induction Hb as [| x before (d & -> & Hd) _ IH]; intros i.
  - cbn [app validate_messages length]. rewrite Nat.add_0_r.
    destruct m; try reflexivity. now destruct (Hm d).
  - cbn [app validate_messages length]. fold required_message_fields.
    rewrite check_fields_all by exact Hd. cbn [rbind].
    rewrite IH. now rewrite Nat.add_succ_r.
Qed.

(** The check of the code reports the first offence. *)
Lemma validate_reports_first_offence (c : pyval) (o : offence) :
  first_offence c o ->
  _validate_conversation c = Raise (LLMCValidationError (offence_message o)).
Proof.
  intros H. destruct H as
    [ c Hc
    | c Hmd
    | c Hmd Hms
    | c metadata f Hmd Hms Hf
    | c metadata messages Hmd Hall Hms Hl
    | c metadata before after m Hmd Hall Hms Hb Hm
    | c metadata before after m f Hmd Hall Hms Hb Hf ].
  - destruct c; try reflexivity. now destruct (Hc d).
  - apply dict_in_false in Hmd. cbn [_validate_conversation]. now rewrite Hmd.
  - apply dict_in_get in Hmd as [md Hmd]. apply dict_in_false in Hms.
    cbn [_validate_conversation]. now rewrite Hmd, Hms.
  - apply dict_in_get in Hms as [ms Hms].
    cbn [_validate_conversation]. rewrite Hmd, Hms.
    fold required_metadata_fields.
    now rewrite (check_fields_first_missing _ _ _ _ Hf).
  - cbn [_validate_conversation]. rewrite Hmd, Hms.
    fold required_metadata_fields. rewrite check_fields_all by exact Hall.
    cbn [rbind]. destruct messages; try reflexivity. now destruct (Hl l).
  - cbn [_validate_conversation]. rewrite Hmd, Hms.
    fold required_metadata_fields. rewrite check_fields_all by exact Hall.
    cbn [rbind]. now rewrite (validate_messages_not_mapping before after m Hb Hm 0).
  - cbn [_validate_conversation]. rewrite Hmd, Hms.
    fold required_metadata_fields. rewrite check_fields_all by exact Hall.
    cbn [rbind]. now rewrite (validate_messages_missing_field before after m f Hb Hf 0).
Qed.

(** A conversation that meets the check passes the check of the code. *)
Lemma validate_accepts_valid (c : pyval) :
  conversation_valid c -> _validate_conversation c = Ok tt.
Proof.
  intros (d & metadata & messages & -> & Hmd & Hall & Hms & Hcomplete).
  cbn [_validate_conversation]. rewrite Hmd, Hms.
  fold required_metadata_fields. rewrite check_fields_all by exact Hall.
  cbn [rbind]. now apply validate_messages_complete.
Qed.

(** The messages of a list are all complete, or there is a first one that
    is not a mapping or lacks a field. *)
Lemma messages_complete_or_first (ms : list pyval) :
  Forall message_complete ms
  \/ exists before m after,
       ms = before ++ m :: after
       /\ Forall message_complete before
       /\ ((forall d, m <> PDict d)
           \/ exists d f, m = PDict d /\ first_missing d required_message_fields f).
Proof.
  induction ms as [| m ms IH]; [left; constructor |].
  assert (Hm : message_complete m
               \/ (forall d, m <> PDict d)
               \/ exists d f, m = PDict d /\ first_missing d required_message_fields f).
  { destruct m as [| | | | | | d];
      try (right; left; intros d0; discriminate).
    destruct (all_or_first_missing d required_message_fields) as [H | [f H]].
    - left. now exists d.
    - right. right. now exists d, f. }
  destruct Hm as [Hm | Hm].
  - destruct IH as [IH | (before & x & after & -> & Hb & Hx)].
    + left. now constructor.
    + right. exists (m :: before), x, after.
      split; [reflexivity |]. split; [now constructor | exact Hx].
  - right. exists [], m, ms. split; [reflexivity |]. split; [constructor | exact Hm].
Qed.

(** Every conversation whose [metadata], when there is one, is a mapping
    either meets the check or has a first offence. *)
Lemma valid_or_first_offence (c : pyval) :
  (forall d v, c = PDict d -> dict_get "metadata" d = Some v ->
               exists metadata, v = PDict metadata) ->
  conversation_valid c \/ exists o, first_offence c o.
Proof.
  intros Hshape.
  destruct c as [| | | | | | d];
    try (right; exists NotAMapping; apply offence_not_mapping; intros d0; discriminate).
  destruct (dict_get "metadata" d) as [v |] eqn:Emd.
  2: { right. eexists. apply offence_no_metadata. now apply dict_in_false. }
  destruct (Hshape d v eq_refl Emd) as [metadata ->].
  destruct (dict_get "messages" d) as [ms |] eqn:Ems.
  2: { right. eexists. apply offence_no_messages.
       - apply dict_in_get. eauto.
       - now apply dict_in_false. }
  destruct (all_or_first_missing metadata required_metadata_fields) as [Hall | [f Hf]].
  2: { right. eexists. eapply offence_metadata_field; eauto.
       apply dict_in_get. eauto. }
  destruct ms as [| | | | | l |];
    try (right; exists MessagesNotAList;
         eapply offence_messages_not_list; eauto; intros l0; discriminate).
  destruct (messages_complete_or_first l)
    as [Hc | (before & m & after & -> & Hb & [Hm | (dm & f & -> & Hf)])].
  - left. exists d, metadata, l. auto.
  - right. eexists. eapply offence_message_not_mapping; eauto.
  - right. eexists. eapply offence_message_field; eauto.
Qed.

Section Validation.
Context {caps : Capabilities}.

(** C6. A conversation that violates the pre-write structural check makes
    [write_stream] fail with a [LLMCValidationError] that names the first
    offence (the first missing metadata field, or the index of the first
    offending message and its first missing field), and the stream is left
    as it was: no byte has been written. Every conversation that does not
    meet the check has such a first offence (its [metadata], when there is
    one, being a mapping). *)
Theorem write_rejects_first_offence (c : pyval) (s : BinaryIO) :
  (forall o, first_offence c o ->
     write_stream c s = (Raise (LLMCValidationError (offence_message o)), s))
  /\ ((forall d v, c = PDict d -> dict_get "metadata" d = Some v ->
                   exists metadata, v = PDict metadata) ->
      ~ conversation_valid c ->
      exists o, first_offence c o).
Proof.
  split.
  - intros o H. apply validate_reports_first_offence in H.
    unfold write_stream, io_try, bind, lift. rewrite H. reflexivity.
  - intros Hshape Hinvalid.
    destruct (valid_or_first_offence c Hshape) as [H | H]; [contradiction | exact H].
Qed.

End Validation.

Lemma write_rejects_first_offence_witness :
  @write_stream Reference.services conversation_without_version (mkStream [] 0)
    = (Raise (LLMCValidationError "Missing required metadata field: version"),
       mkStream [] 0)
  /\ @write_stream Reference.services conversation_without_content (mkStream [] 0)
    = (Raise (LLMCValidationError "Message 1 missing required field: content"),
       mkStream [] 0).
Proof.
  split.
  - apply (proj1 (@write_rejects_first_offence Reference.services
                    conversation_without_version (mkStream [] 0))
                 (MissingMetadataField "version")).
    eapply offence_metadata_field.
    + reflexivity.
    + reflexivity.
    + apply first_missing_here. reflexivity.
  - apply (proj1 (@write_rejects_first_offence Reference.services
                    conversation_without_content (mkStream [] 0))
                 (MessageMissingField 1 "content")).
    apply (@offence_message_field _ sample_metadata
             [sample_message "msg_1" "user" "Hello" "2024-01-15T10:30:00Z"] []
             [ ("id", PStr "msg_2"); ("role", PStr "assistant");
               ("timestamp", PStr "2024-01-15T10:30:05Z") ] "content").
    + reflexivity.
    + intros f [<- | [<- | [<- | []]]]; reflexivity.
    + reflexivity.
    + constructor; [| constructor].
      eexists. split; [reflexivity |].
      intros f [<- | [<- | [<- | [<- | []]]]]; reflexivity.
    + apply first_missing_later; [reflexivity |].
      apply first_missing_later; [reflexivity |].
      apply first_missing_here. reflexivity.
Defined.

(** ** The read pipeline *)

Section ReadPipeline.
Context {caps : Capabilities}.

Lemma read_yaml_section_run (a : bytes) (n : Z) (s : BinaryIO) :
  at_offset a 32 s ->
  exists s', _read_yaml_section n s = (yaml_section_outcome a n, s')
             /\ content s' = a.
Proof.
  intros H. unfold _read_yaml_section, yaml_section_outcome, bind, throw, ret.
  destruct (stream_read_at _ _ (Z.to_nat n) _ H) as (s1 & E1 & [Hc _]).
  rewrite E1. clear E1.
  destruct (negb _).
  - eexists; split; [reflexivity | exact Hc].
  - destruct (utf8_decode _); eexists; (split; [reflexivity | exact Hc]).
Qed.

(** [parse_stream] on a stream that holds [a] from its start. *)
Lemma parse_stream_outcome (a : bytes) :
  fst (parse_stream (mkStream a 0)) = wrap_parse_error (parse_outcome a).
Proof.
  unfold parse_stream, parse_outcome, io_try, bind.
  destruct (read_header_run _ _ (at_offset_start a)) as (s1 & E1 & H1).
  rewrite E1. clear E1.
  destruct (header_outcome a) as [h | e]; cbn [rbind wrap_parse_error].
  2: { destruct (is_Exception e); [destruct (is_parse_or_format_error e) |]; reflexivity. }
  destruct (read_yaml_section_run a (yaml_length h) s1 (H1 h eq_refl))
    as (s2 & E2 & Hc2).
  rewrite E2. clear E2.
  destruct (yaml_section_outcome a (yaml_length h)) as [text | e];
    cbn [rbind wrap_parse_error].
  2: { destruct (is_Exception e); [destruct (is_parse_or_format_error e) |]; reflexivity. }
  unfold lift.
  destruct (_parse_metadata text) as [md | e]; cbn [rbind wrap_parse_error].
  2: { destruct (is_Exception e); [destruct (is_parse_or_format_error e) |]; reflexivity. }
  unfold stream_seek, stream_read_all. cbn [content position]. rewrite Hc2.
  destruct (_parse_sqlite_data _) as [parsed | e]; cbn [rbind wrap_parse_error].
  2: { destruct (is_Exception e); [destruct (is_parse_or_format_error e) |]; reflexivity. }
  unfold ret, assemble. cbn [fst]. reflexivity.
Qed.

End ReadPipeline.

(** ** JSON sub-fields of a message row *)

Section JsonSubfields.
Context {caps : Capabilities}.


Lemma for_each_raises {A B : Type} (f : A -> result B) (xs : list A) (e : exn) :
  for_each f xs = Raise e -> exists x, In x xs /\ f x = Raise e.
Proof.
  induction xs as [| x xs IH]; cbn [for_each]; [discriminate |].
  destruct (f x) as [y |] eqn:Ex.
  - destruct (for_each f xs) as [ys |] eqn:Exs; [discriminate |].
    intros H. injection H as <-.
    destruct (IH eq_refl) as (x' & Hin & Hx'). exists x'. split; [now right | exact Hx'].
  - intros H. injection H as <-. exists x. split; [now left | exact Ex].
Qed.

(** In the write-schema path the attachment-id list is decoded without a
    handler: what the decoder raises leaves the row conversion. *)
Lemma json_field_raise (name : string) (s : string) (record : dict) (e : exn) :
  s <> ""%string ->
  json_loads s = Raise e ->
  json_field name (SText s) record = Raise e.
Proof.
  intros Hs He. unfold json_field. cbn [py_of_sql py_truthy json_loads_value].
  apply String.eqb_neq in Hs. rewrite Hs. cbn [negb]. now rewrite He.
Qed.


(** So is the metadata of a row, once its attachment-id list is empty. *)
Lemma plain_row_metadata_raise (row : sqlrow) (s : string) (e : exn) :
  cell 5 row = SNull ->
  cell 6 row = SText s -> s <> ""%string ->
  json_loads s = Raise e ->
  message_of_plain_row row = Raise e.
Proof.
  intros Ha Hc Hs He. unfold message_of_plain_row. rewrite Ha, Hc.
  cbn [json_field py_of_sql py_truthy rbind].
  now rewrite (json_field_raise _ _ _ _ Hs He).
Qed.

Lemma lenient_metadata_malformed (s msg : string) (record : dict) :
  json_loads s = Raise (JSONDecodeError msg) ->
  lenient_metadata (SText s) record = Ok record.
Proof.
  intros He. unfold lenient_metadata. cbn [py_of_sql py_truthy json_loads_value].
  destruct (negb (s =? "")%string); [| reflexivity].
  now rewrite He.
Qed.

(** In the alternate dialect a metadata text that does not decode is
    dropped: the row converts as if the column were NULL. *)
Lemma joined_row_metadata_lenient (c0 c1 c2 c3 c4 c6 : sqlval) (s msg : string) :
  json_loads s = Raise (JSONDecodeError msg) ->
  message_of_joined_row [c0; c1; c2; c3; c4; SText s; c6]
  = message_of_joined_row [c0; c1; c2; c3; c4; SNull; c6].
Proof.
  intros He. unfold message_of_joined_row. cbn [cell nth].
  destruct (joined_attachment_ids c6 _) as [message |]; cbn [rbind]; [| reflexivity].
  now rewrite (lenient_metadata_malformed _ _ _ He).
Qed.



(** The queries fail with [OperationalError] only. *)
Lemma find_table_raises (name : string) (db : database) (e : exn) :
  find_table name db = Raise e -> is_OperationalError e = true.
Proof.
  unfold find_table. destruct (find _ _); [discriminate |].
  intros H. now injection H as <-.
Qed.

Lemma resolve_column_raises (t : table) (name : string) (e : exn) :
  resolve_column t name = Raise e -> is_OperationalError e = true.
Proof.
  unfold resolve_column. destruct (column_index _ _); [discriminate |].
  intros H. now injection H as <-.
Qed.

Lemma select_messages_joined_raises (db : database) (e : exn) :
  select_messages_joined db = Raise e -> is_OperationalError e = true.
Proof.
  unfold select_messages_joined.
  destruct (find_table "messages" db) as [m |] eqn:Em; cbn [rbind].
  2: { intros H. injection H as <-. exact (find_table_raises _ _ _ Em). }
  destruct (find_table "attachments" db) as [a |] eqn:Ea; cbn [rbind].
  2: { intros H. injection H as <-. exact (find_table_raises _ _ _ Ea). }
  destruct (for_each _ _) as [mcols |] eqn:Ec; cbn [rbind].
  2: { intros H. injection H as <-.
       destruct (for_each_raises _ _ _ Ec) as (x & _ & Hx).
       exact (resolve_column_raises _ _ _ Hx). }
  destruct (resolve_column a "id") eqn:E1; cbn [rbind].
  2: { intros H. injection H as <-. exact (resolve_column_raises _ _ _ E1). }
  destruct (resolve_column a "message_id") eqn:E2; cbn [rbind].
  2: { intros H. injection H as <-. exact (resolve_column_raises _ _ _ E2). }
  destruct (resolve_column m "id") eqn:E3; cbn [rbind].
  2: { intros H. injection H as <-. exact (resolve_column_raises _ _ _ E3). }
  destruct (resolve_column m "sequence") eqn:E4; cbn [rbind].
  2: { intros H. injection H as <-. exact (resolve_column_raises _ _ _ E4). }
  discriminate.
Qed.



End JsonSubfields.

Section MalformedJson.
Context {caps : Capabilities}.


End MalformedJson.




(** C4, at the input where the code departs from it. The same text [not json]
    in the [metadata] column of a message row: read through the alternate
    dialect the message comes back without [metadata] and with its other
    fields; read through the write schema the whole parse fails with a
    [LLMCParseError]. *)
Theorem malformed_metadata_outcomes :
  fst (@parse_stream Reference.services
         (mkStream (sample_container (alt_store (SText not_json))) 0)) =
    Ok (PDict [ ("metadata", PDict sample_metadata);
                ("messages",
                 PList [ sample_message "msg_1" "user" "Hello"
                           "2024-01-15T10:30:00Z" ]) ])
  /\ fst (@parse_stream Reference.services
            (mkStream (sample_container (plain_store SNull (SText not_json))) 0)) =
    Raise (LLMCParseError
             "Unexpected error during parsing: Expecting value: line 1 column 1 (char 0)").
Proof.
  split; vm_compute; reflexivity.
Qed.

(** ** Splitting a comma-separated list *)







(** ** Grouping and ordering *)

Lemma insert_sorted_In {A : Type} (leb : A -> A -> bool) (x y : A) (l : list A) :
  In y (insert_sorted leb x l) <-> y = x \/ In y l.
Proof.
  induction l as [| z l IH]; cbn [insert_sorted].
  - simpl. intuition.
  - destruct (leb x z).
    + simpl. intuition.
    + simpl. rewrite IH. intuition.
Qed.

Lemma order_by_In {A : Type} (key : A -> list sqlval) (x : A) (l : list A) :
  In x (order_by key l) <-> In x l.
Proof.
  unfold order_by. induction l as [| y l IH]; cbn [fold_right]; [reflexivity |].
  rewrite insert_sorted_In, IH. simpl. intuition.
Qed.









(** ** Running a loop that succeeds on every element *)

Lemma for_each_ok {A B : Type} (f : A -> result B) (P : A -> B -> Prop)
    (xs : list A) :
  Forall (fun x => exists y, f x = Ok y /\ P x y) xs ->
  exists ys, for_each f xs = Ok ys /\ Forall2 P xs ys.
Proof.
  induction 1 as [| x xs (y & Hy & Hp) _ (ys & Hys & Hps)]; cbn [for_each].
  - exists []. split; [reflexivity | constructor].
  - exists (y :: ys). rewrite Hy, Hys. split; [reflexivity | now constructor].
Qed.




(** ** The alternate dialect *)

Section AltDialectIds.
Context {caps : Capabilities}.











End AltDialectIds.

Section AltDialectTheorem.
Context {caps : Capabilities}.




End AltDialectTheorem.




(** ** The write pipeline *)

Lemma stream_write_at_end (b : bytes) (s : BinaryIO) :
  at_end s ->
  stream_write b s = (Ok tt, mkStream (content s ++ b) (length (content s ++ b))).
Proof.
  unfold at_end, stream_write. intros H. rewrite H, Nat.sub_diag.
  cbn [repeat]. rewrite app_nil_r, firstn_all, skipn_all2 by lia.
  rewrite app_nil_r, length_app. reflexivity.
Qed.

Lemma length_header_bytes (yl so : Z) : length (header_bytes yl so) = 32.
Proof.
  unfold header_bytes. rewrite !length_app, !length_le_encode. reflexivity.
Qed.

(** [_write_header] appends the 32 header bytes when the two numbers fit
    their fields. *)
Lemma write_header_run (yl so : Z) (s : BinaryIO) :
  at_end s ->
  (0 <= yl < 2 ^ 32)%Z -> (0 <= so < 2 ^ 64)%Z ->
  _write_header yl so s =
    (Ok tt, mkStream (content s ++ header_bytes yl so)
                     (length (content s ++ header_bytes yl so))).
Proof.
  intros Hs Hyl Hso. unfold _write_header, bind, lift.
  rewrite (struct_pack_ok fmt_I yl) by (cbn [fmt_size]; lia).
  rewrite (struct_pack_ok fmt_Q so) by (cbn [fmt_size]; lia).
  replace (struct_pack fmt_B LLMC_VERSION) with (Ok [x01] : result bytes)
    by reflexivity.
  replace (struct_pack fmt_I LLMC_FORMAT_VERSION) with (Ok (le_encode 4 1))
    by reflexivity.
  repeat (rewrite stream_write_at_end by (first [exact Hs | reflexivity]);
          cbn [content position]).
  unfold header_bytes. cbn [fmt_size]. rewrite <- !app_assoc. reflexivity.
Qed.

Lemma firstn_skipn_app_mid {A : Type} (h b r : list A) (n : nat) :
  n <= length b ->
  firstn n (skipn (length h) (h ++ b ++ r)) = firstn n b.
Proof.
  intros Hn. rewrite skipn_app, skipn_all, Nat.sub_diag. cbn [app skipn].
  rewrite firstn_app. replace (n - length b) with 0 by lia.
  cbn [firstn]. now rewrite app_nil_r.
Qed.

(** The header of a container decodes to the numbers it was written with. *)
Lemma header_outcome_written (yl so : Z) (rest : bytes) :
  (0 <= yl < 2 ^ 32)%Z -> (0 <= so < 2 ^ 64)%Z ->
  header_outcome (header_bytes yl so ++ rest) = Ok (mkHeader 1 1 yl so).
Proof.
  intros Hyl Hso.
  assert (Hl4 : forall v, length (le_encode 4 v) = 4) by (intros; apply length_le_encode).
  assert (Hl8 : forall v, length (le_encode 8 v) = 8) by (intros; apply length_le_encode).
  rewrite header_outcome_valid.
  - f_equal. f_equal.
    + unfold header_bytes.
      change (LLMC_MAGIC ++ [x01] ++ [x00; x00; x00] ++ le_encode 4 1 ++ ?t)
        with ([x4c; x4c; x4d; x43; x01; x00; x00; x00] ++ le_encode 4 1 ++ t).
      rewrite <- app_assoc.
      rewrite <- (app_assoc (le_encode 4 1)).
      set (pre := [x4c; x4c; x4d; x43; x01; x00; x00; x00] ++ le_encode 4 1).
      rewrite app_assoc. fold pre.
      replace 12 with (length pre) by (subst pre; rewrite length_app, Hl4; reflexivity).
      rewrite <- !app_assoc.
      rewrite (firstn_skipn_app_mid pre (le_encode 4 yl)) by (rewrite Hl4; lia).
      rewrite <- (Hl4 yl) at 1. rewrite firstn_all.
      apply le_decode_encode. cbn. lia.
    + unfold header_bytes.
      change (LLMC_MAGIC ++ [x01] ++ [x00; x00; x00] ++ le_encode 4 1 ++ ?t)
        with ([x4c; x4c; x4d; x43; x01; x00; x00; x00] ++ le_encode 4 1 ++ t).
      rewrite <- !app_assoc.
      set (pre := [x4c; x4c; x4d; x43; x01; x00; x00; x00]
                  ++ le_encode 4 1 ++ le_encode 4 yl).
      replace ([x4c; x4c; x4d; x43; x01; x00; x00; x00]
               ++ le_encode 4 1 ++ le_encode 4 yl ++ le_encode 8 so
               ++ [x00] ++ [x00; x00; x00; x00; x00; x00; x00] ++ rest)
        with (pre ++ le_encode 8 so
              ++ ([x00] ++ [x00; x00; x00; x00; x00; x00; x00] ++ rest))
        by (subst pre; now rewrite <- !app_assoc).
      replace 16 with (length pre)
        by (subst pre; rewrite !length_app, !Hl4; reflexivity).
      rewrite (firstn_skipn_app_mid pre (le_encode 8 so)) by (rewrite Hl8; lia).
      rewrite <- (Hl8 so) at 1. rewrite firstn_all.
      apply le_decode_encode. cbn. lia.
  - rewrite length_app, length_header_bytes. lia.
  - reflexivity.
  - reflexivity.
  - reflexivity.
Qed.

(** ** Building the store *)

Section BuildStore.
Context {caps : Capabilities}.

Lemma json_cell_faithful (dm : dict) (k : string) :
  optional json_faithful dm k ->
  optional_json (PDict dm) k = Ok (py_of_sql (json_cell (PDict dm) k))
  /\ null_or_text (json_cell (PDict dm) k).
Proof.
  unfold optional, optional_json, json_cell. cbn [py_in field rbind py_getitem].
  unfold dict_in. destruct (dict_get k dm) as [v |]; cbn [rbind].
  - intros (Ht & text & Hd & _ & _). rewrite Ht, Hd. cbn [rbind py_of_sql].
    split; [reflexivity | right; eauto].
  - intros _. split; [reflexivity | now left].
Qed.

Lemma bind_null_or_text (v : sqlval) :
  null_or_text v -> bind_param (py_of_sql v) = Ok v.
Proof. intros [-> | [s ->]]; reflexivity. Qed.

(** The cells of the row of a storable message. *)
Lemma storable_message_row (m : pyval) :
  storable_message m ->
  exists role content p a j,
    row_of_message m =
      [ SText (text_field "id" m); SText role; SText content;
        SText (text_field "timestamp" m); p; a; j ]
    /\ null_or_text p /\ null_or_text a /\ null_or_text j.
Proof.
  intros (dm & -> & Hreq & Hp & Ha & Hj).
  destruct (Hreq "id") as [id Hid]; [simpl; tauto |].
  destruct (Hreq "role") as [role Hrole]; [simpl; tauto |].
  destruct (Hreq "content") as [content Hcontent]; [simpl; tauto |].
  destruct (Hreq "timestamp") as [ts Hts]; [simpl; tauto |].
  exists role, content, (plain_cell (PDict dm) "parent_id"),
         (json_cell (PDict dm) "attachments"), (json_cell (PDict dm) "metadata").
  split; [| split; [| split]].
  - unfold row_of_message, plain_cell, text_field. cbn [field].
    now rewrite Hid, Hrole, Hcontent, Hts.
  - unfold plain_cell, optional in *. cbn [field].
    destruct (dict_get "parent_id" dm) as [v |]; [| now left].
    destruct Hp as [s ->]. right. eauto.
  - apply (json_cell_faithful dm "attachments" Ha).
  - apply (json_cell_faithful dm "metadata" Hj).
Qed.

Lemma insert_message_row (conn : database) (m : pyval) :
  storable_message m ->
  insert_message conn m = insert_row "messages" (row_of_message m) conn.
Proof.
  intros (dm & -> & Hreq & Hp & Ha & Hj).
  destruct (Hreq "id") as [id Hid]; [simpl; tauto |].
  destruct (Hreq "role") as [role Hrole]; [simpl; tauto |].
  destruct (Hreq "content") as [content Hcontent]; [simpl; tauto |].
  destruct (Hreq "timestamp") as [ts Hts]; [simpl; tauto |].
  destruct (json_cell_faithful dm "attachments" Ha) as [Ea Hna].
  destruct (json_cell_faithful dm "metadata" Hj) as [Ej Hnj].
  unfold insert_message. rewrite Ea, Ej. cbn [rbind py_getitem py_get].
  rewrite Hid, Hrole, Hcontent, Hts. cbn [rbind for_each bind_param].
  rewrite (bind_null_or_text _ Hna), (bind_null_or_text _ Hnj).
  unfold row_of_message, plain_cell. cbn [field].
  rewrite Hid, Hrole, Hcontent, Hts.
  unfold optional in Hp.
  destruct (dict_get "parent_id" dm) as [v |].
  - destruct Hp as [s ->]. reflexivity.
  - reflexivity.
Qed.

(** The cells of the row of a storable attachment. *)
Lemma storable_attachment_row (a : pyval) :
  storable_attachment a ->
  exists filename content_type z b c j,
    row_of_attachment a =
      [ SText (text_field "id" a); SText filename; SText content_type;
        SInt z; SBlob b; c; j ]
    /\ field a "size" = Some (PInt z) /\ field a "data" = Some (PBytes b)
    /\ (c = SNull \/ exists s, c = SText s /\ s <> ""%string)
    /\ null_or_text j.
Proof.
  intros (da & -> & Hreq & (z & Hz & _) & (b & Hb) & Hc & Hj).
  destruct (Hreq "id") as [id Hid]; [simpl; tauto |].
  destruct (Hreq "filename") as [fn Hfn]; [simpl; tauto |].
  destruct (Hreq "content_type") as [ct Hct]; [simpl; tauto |].
  exists fn, ct, z, b, (plain_cell (PDict da) "created_at"),
         (json_cell (PDict da) "metadata").
  split; [| split; [| split; [| split]]].
  - unfold row_of_attachment, plain_cell, text_field. cbn [field].
    now rewrite Hid, Hfn, Hct, Hz, Hb.
  - exact Hz.
  - exact Hb.
  - unfold plain_cell, optional in *. cbn [field].
    destruct (dict_get "created_at" da) as [v |]; [| now left].
    destruct Hc as (s & -> & Hs). right. eauto.
  - apply (json_cell_faithful da "metadata" Hj).
Qed.

Lemma insert_attachment_row (conn : database) (a : pyval) :
  storable_attachment a ->
  insert_attachment conn a = insert_row "attachments" (row_of_attachment a) conn.
Proof.
  intros (da & -> & Hreq & (z & Hz & Hrange) & (b & Hb) & Hc & Hj).
  destruct (Hreq "id") as [id Hid]; [simpl; tauto |].
  destruct (Hreq "filename") as [fn Hfn]; [simpl; tauto |].
  destruct (Hreq "content_type") as [ct Hct]; [simpl; tauto |].
  destruct (json_cell_faithful da "metadata" Hj) as [Ej Hnj].
  unfold insert_attachment. rewrite Ej. cbn [rbind py_getitem py_get].
  rewrite Hid, Hfn, Hct, Hz, Hb. cbn [rbind for_each bind_param].
  replace ((- 2 ^ 63 <=? z)%Z && (z <? 2 ^ 63)%Z) with true.
  2: { symmetry. apply andb_true_iff. split; [apply Z.leb_le | apply Z.ltb_lt]; lia. }
  rewrite (bind_null_or_text _ Hnj).
  unfold row_of_attachment, plain_cell. cbn [field].
  rewrite Hid, Hfn, Hct, Hz, Hb.
  unfold optional in Hc.
  destruct (dict_get "created_at" da) as [v |].
  - destruct Hc as (s & -> & _). reflexivity.
  - reflexivity.
Qed.

End BuildStore.

Lemma existsb_key_false (key : sqlval) (rows : list sqlrow) :
  ~ In key (map (cell 0) rows) ->
  key <> SNull ->
  existsb (fun r => sql_equal (cell 0 r) key) rows = false.
Proof.
  intros Hnin Hnn. induction rows as [| r rows IH]; [reflexivity |].
  cbn [existsb map In] in *. rewrite IH by tauto.
  rewrite orb_false_r. unfold sql_equal, sqlval_eqb.
  destruct (cell 0 r) eqn:E; destruct key; try reflexivity; try congruence;
    match goal with
    | |- (if ?d then _ else _) = false => destruct d as [Heq | Hne]; [| reflexivity]
    end; exfalso; apply Hnin; left; congruence.
Qed.

Lemma affinity_text_keeps (v : sqlval) :
  null_or_text v -> apply_affinity AffText v = v.
Proof. intros [-> | [s ->]]; reflexivity. Qed.

Lemma insert_row_messages (rows : list sqlrow) (at_ : table)
    (id role content ts : string) (p a j : sqlval) :
  null_or_text p -> null_or_text a -> null_or_text j ->
  ~ In (SText id) (map (cell 0) rows) ->
  insert_row "messages" [SText id; SText role; SText content; SText ts; p; a; j]
    (store_of (mkTable messages_columns rows) at_)
  = Ok (store_of
          (mkTable messages_columns
             (rows ++ [[SText id; SText role; SText content; SText ts; p; a; j]]))
          at_).
Proof.
  intros Hp Ha Hj Hnin.
  set (row := [SText id; SText role; SText content; SText ts; p; a; j]).
  unfold insert_row, store_of, find_table.
  cbn [find tables fst snd String.eqb Ascii.eqb Bool.eqb rbind tbl_columns tbl_rows].
  assert (Erow : map (fun cv => apply_affinity (col_affinity (fst cv)) (snd cv))
                     (combine messages_columns row) = row).
  { subst row. unfold messages_columns. cbn [combine map col_affinity fst snd].
    now rewrite !affinity_text_keeps by (assumption || right; eauto). }
  rewrite Erow.
  replace (notnull_violation messages_columns row) with (@None string)
    by (subst row; reflexivity).
  assert (Eu : unique_violation messages_columns 0 row rows = None).
  { unfold messages_columns. cbn [unique_violation col_pk andb].
    subst row. cbn [cell nth].
    now rewrite (existsb_key_false (SText id) rows Hnin) by discriminate. }
  rewrite Eu. reflexivity.
Qed.

Lemma insert_row_attachments (mt : table) (rows : list sqlrow)
    (id fn ct : string) (z : Z) (b : bytes) (c j : sqlval) :
  null_or_text c -> null_or_text j ->
  ~ In (SText id) (map (cell 0) rows) ->
  insert_row "attachments" [SText id; SText fn; SText ct; SInt z; SBlob b; c; j]
    (store_of mt (mkTable attachments_columns rows))
  = Ok (store_of mt
          (mkTable attachments_columns
             (rows ++ [[SText id; SText fn; SText ct; SInt z; SBlob b; c; j]]))).
Proof.
  intros Hc Hj Hnin.
  set (row := [SText id; SText fn; SText ct; SInt z; SBlob b; c; j]).
  unfold insert_row, store_of, find_table.
  cbn [find tables fst snd String.eqb Ascii.eqb Bool.eqb rbind tbl_columns tbl_rows].
  assert (Erow : map (fun cv => apply_affinity (col_affinity (fst cv)) (snd cv))
                     (combine attachments_columns row) = row).
  { subst row. unfold attachments_columns. cbn [combine map col_affinity fst snd].
    now rewrite !affinity_text_keeps by (assumption || right; eauto). }
  rewrite Erow.
  replace (notnull_violation attachments_columns row) with (@None string)
    by (subst row; reflexivity).
  assert (Eu : unique_violation attachments_columns 0 row rows = None).
  { unfold attachments_columns. cbn [unique_violation col_pk andb].
    subst row. cbn [cell nth].
    now rewrite (existsb_key_false (SText id) rows Hnin) by discriminate. }
  rewrite Eu. reflexivity.
Qed.

Section BuildTables.
Context {caps : Capabilities}.

Lemma stored_keys_messages (ms : list pyval) :
  Forall storable_message ms ->
  map (cell 0) (map row_of_message ms) = map (fun m => SText (text_field "id" m)) ms.
Proof.
  induction 1 as [| m ms Hm _ IH]; cbn [map]; [reflexivity |].
  destruct (storable_message_row m Hm) as (? & ? & ? & ? & ? & E & _).
  rewrite E at 1. cbn [cell nth]. now rewrite IH.
Qed.

Lemma stored_keys_attachments (xs : list pyval) :
  Forall storable_attachment xs ->
  map (cell 0) (map row_of_attachment xs) = map (fun m => SText (text_field "id" m)) xs.
Proof.
  induction 1 as [| a xs Ha _ IH]; cbn [map]; [reflexivity |].
  destruct (storable_attachment_row a Ha) as (? & ? & ? & ? & ? & ? & E & _).
  rewrite E at 1. cbn [cell nth]. now rewrite IH.
Qed.

Lemma fresh_key (id : string) (xs : list pyval) :
  ~ In id (map (text_field "id") xs) ->
  ~ In (SText id) (map (fun m => SText (text_field "id" m)) xs).
Proof.
  intros H Hin. apply H. apply in_map_iff in Hin as (x & E & Hx).
  apply in_map_iff. exists x. split; [congruence | exact Hx].
Qed.

(** The loop of [_insert_messages] appends the rows of the messages. *)
Lemma insert_all_messages (at_ : table) (ms prev : list pyval) :
  Forall storable_message prev ->
  Forall storable_message ms ->
  NoDup (map (text_field "id") (prev ++ ms)) ->
  insert_all insert_message
    (store_of (mkTable messages_columns (map row_of_message prev)) at_) ms
  = Ok (store_of (mkTable messages_columns (map row_of_message (prev ++ ms))) at_).
Proof.
  revert prev. induction ms as [| m ms IH]; intros prev Hprev Hms Hnd.
  - cbn [insert_all]. now rewrite app_nil_r.
  - inversion Hms as [| ? ? Hm Hms']; subst.
    cbn [insert_all]. rewrite (insert_message_row _ m Hm).
    destruct (storable_message_row m Hm) as (role & content & p & a & j & E & Hp & Ha & Hj).
    rewrite E. rewrite insert_row_messages; try assumption.
    + cbn [rbind]. rewrite <- E.
      replace (map row_of_message prev ++ [row_of_message m])
        with (map row_of_message (prev ++ [m])) by (now rewrite map_app).
      rewrite IH.
      * now rewrite <- app_assoc.
      * apply Forall_app. split; [exact Hprev | now constructor].
      * exact Hms'.
      * now rewrite <- app_assoc.
    + rewrite (stored_keys_messages prev Hprev). apply fresh_key.
      rewrite map_app in Hnd. cbn [map] in Hnd.
      apply NoDup_remove_2 in Hnd. intros Hin. apply Hnd.
      apply in_or_app. now left.
Qed.

(** The loop of [_insert_attachments] appends the rows of the attachments. *)
Lemma insert_all_attachments (mt : table) (xs prev : list pyval) :
  Forall storable_attachment prev ->
  Forall storable_attachment xs ->
  NoDup (map (text_field "id") (prev ++ xs)) ->
  insert_all insert_attachment
    (store_of mt (mkTable attachments_columns (map row_of_attachment prev))) xs
  = Ok (store_of mt (mkTable attachments_columns (map row_of_attachment (prev ++ xs)))).
Proof.
  revert prev. induction xs as [| a xs IH]; intros prev Hprev Hxs Hnd.
  - cbn [insert_all]. now rewrite app_nil_r.
  - inversion Hxs as [| ? ? Ha Hxs']; subst.
    cbn [insert_all]. rewrite (insert_attachment_row _ a Ha).
    destruct (storable_attachment_row a Ha)
      as (fn & ct & z & b & c & j & E & _ & _ & Hc & Hj).
    rewrite E. rewrite insert_row_attachments; try assumption.
    + cbn [rbind]. rewrite <- E.
      replace (map row_of_attachment prev ++ [row_of_attachment a])
        with (map row_of_attachment (prev ++ [a])) by (now rewrite map_app).
      rewrite IH.
      * now rewrite <- app_assoc.
      * apply Forall_app. split; [exact Hprev | now constructor].
      * exact Hxs'.
      * now rewrite <- app_assoc.
    + destruct Hc as [-> | (s & -> & _)]; [now left | right; eauto].
    + rewrite (stored_keys_attachments prev Hprev). apply fresh_key.
      rewrite map_app in Hnd. cbn [map] in Hnd.
      apply NoDup_remove_2 in Hnd. intros Hin. apply Hnd.
      apply in_or_app. now left.
Qed.

End BuildTables.

(** ** Reading the store back *)

Lemma dict_get_set_optional_same (k : string) (o : option pyval) (d : dict) :
  dict_get k (set_optional k o d) =
    match o with Some v => Some v | None => dict_get k d end.
Proof. destruct o; cbn [set_optional]; [apply dict_get_set_same | reflexivity]. Qed.

Lemma dict_get_set_optional_other (k k' : string) (o : option pyval) (d : dict) :
  k <> k' -> dict_get k (set_optional k' o d) = dict_get k d.
Proof.
  intros H. destruct o; cbn [set_optional]; [now apply dict_get_set_other | reflexivity].
Qed.

(** A list that [ORDER BY] finds in order is returned as it is. *)
Lemma insert_sorted_head {A : Type} (leb : A -> A -> bool) (x : A) (l : list A) :
  match l with
  | [] => True
  | y :: _ => leb x y = true
  end ->
  insert_sorted leb x l = x :: l.
Proof. destruct l as [| y l]; cbn [insert_sorted]; [reflexivity | now intros ->]. Qed.

Lemma keys_leb_text (a b : string) :
  String.ltb a b = true -> keys_leb [SText a] [SText b] = true.
Proof.
  unfold String.ltb, keys_leb. cbn [keys_compare sql_compare].
  destruct (String.compare a b); [discriminate | reflexivity | discriminate].
Qed.

Lemma order_by_sorted {A : Type} (key : A -> list sqlval) (text : A -> string)
    (l : list A) :
  (forall x, In x l -> key x = [SText (text x)]) ->
  strictly_increasing (map text l) ->
  order_by key l = l.
Proof.
  unfold order_by. induction l as [| x l IH]; [reflexivity |].
  cbn [map strictly_increasing fold_right]. intros Hkey [Hx Hl].
  rewrite IH by (auto using in_cons). apply insert_sorted_head.
  destruct l as [| y l']; [exact I |].
  cbn [map] in Hx.
  rewrite (Hkey x), (Hkey y) by (simpl; tauto). now apply keys_leb_text.
Qed.

Section ReadStore.
Context {caps : Capabilities}.

Lemma json_field_faithful (dm : dict) (k : string) (record : dict) :
  optional json_faithful dm k ->
  json_field k (json_cell (PDict dm) k) record
  = Ok (set_optional k (dict_get k dm) record).
Proof.
  unfold optional, json_cell, json_field. cbn [field].
  destruct (dict_get k dm) as [v |]; [| reflexivity].
  intros (Ht & text & Hd & Hne & Hl). rewrite Ht, Hd.
  cbn [py_of_sql py_truthy json_loads_value].
  apply String.eqb_neq in Hne. rewrite Hne. cbn [negb]. now rewrite Hl.
Qed.

(** The row of a storable message converts to a message with the same
    fields. *)
Lemma plain_row_of_message (m : pyval) :
  storable_message m ->
  exists m', message_of_plain_row (row_of_message m) = Ok m'
             /\ same_fields message_fields m m'.
Proof.
  intros (dm & -> & Hreq & Hp & Ha & Hj).
  destruct (Hreq "id") as [id Hid]; [simpl; tauto |].
  destruct (Hreq "role") as [role Hrole]; [simpl; tauto |].
  destruct (Hreq "content") as [content Hcontent]; [simpl; tauto |].
  destruct (Hreq "timestamp") as [ts Hts]; [simpl; tauto |].
  set (message0 := [ ("id", PStr id); ("role", PStr role);
                     ("content", PStr content); ("timestamp", PStr ts) ] : dict).
  exists (PDict (set_optional "metadata" (dict_get "metadata" dm)
                  (set_optional "attachments" (dict_get "attachments" dm)
                     (set_optional "parent_id" (dict_get "parent_id" dm) message0)))).
  split.
  - assert (Erow : row_of_message (PDict dm) =
                     [ SText id; SText role; SText content; SText ts;
                       plain_cell (PDict dm) "parent_id";
                       json_cell (PDict dm) "attachments";
                       json_cell (PDict dm) "metadata" ]).
    { unfold row_of_message, plain_cell. cbn [field].
      now rewrite Hid, Hrole, Hcontent, Hts. }
    rewrite Erow. unfold message_of_plain_row. cbn [cell nth].
    unfold plain_cell, optional in *. cbn [field] in *.
    destruct (dict_get "parent_id" dm) as [v |].
    + destruct Hp as [s ->]. cbn [py_of_sql set_optional]. fold message0.
      rewrite (json_field_faithful dm "attachments" _ Ha). cbn [rbind].
      now rewrite (json_field_faithful dm "metadata" _ Hj).
    + cbn [py_of_sql set_optional]. fold message0.
      rewrite (json_field_faithful dm "attachments" _ Ha). cbn [rbind].
      now rewrite (json_field_faithful dm "metadata" _ Hj).
  - split.
    + intros k Hk. cbn [field].
      cbn [message_fields In] in Hk.
      destruct Hk as [<- | [<- | [<- | [<- | [<- | [<- | [<- | []]]]]]]].
      * rewrite !dict_get_set_optional_other by discriminate. now rewrite Hid.
      * rewrite !dict_get_set_optional_other by discriminate. now rewrite Hrole.
      * rewrite !dict_get_set_optional_other by discriminate. now rewrite Hcontent.
      * rewrite !dict_get_set_optional_other by discriminate. now rewrite Hts.
      * rewrite !dict_get_set_optional_other by discriminate.
        rewrite dict_get_set_optional_same.
        now destruct (dict_get "parent_id" dm).
      * rewrite dict_get_set_optional_other by discriminate.
        rewrite dict_get_set_optional_same.
        destruct (dict_get "attachments" dm); [reflexivity |].
        now rewrite dict_get_set_optional_other by discriminate.
      * rewrite dict_get_set_optional_same.
        destruct (dict_get "metadata" dm); [reflexivity |].
        now rewrite !dict_get_set_optional_other by discriminate.
    + intros k Hk. cbn [field] in Hk.
      destruct (in_dec string_dec k message_fields) as [Hin | Hnin]; [exact Hin |].
      exfalso. apply Hk. cbn [message_fields In] in Hnin.
      rewrite !dict_get_set_optional_other by (intros ->; tauto).
      subst message0. cbn [dict_get].
      repeat match goal with
             | |- context [String.eqb k ?x] =>
                 replace (String.eqb k x) with false
                   by (symmetry; apply String.eqb_neq; intros ->; tauto)
             end.
      reflexivity.
Qed.

(** The row of a storable attachment converts to an attachment with the
    same fields. *)
Lemma plain_row_of_attachment (a : pyval) :
  storable_attachment a ->
  exists a', attachment_of_plain_row (row_of_attachment a) = Ok a'
             /\ same_fields attachment_fields a a'.
Proof.
  intros (da & -> & Hreq & (z & Hz & _) & (b & Hb) & Hc & Hj).
  destruct (Hreq "id") as [id Hid]; [simpl; tauto |].
  destruct (Hreq "filename") as [fn Hfn]; [simpl; tauto |].
  destruct (Hreq "content_type") as [ct Hct]; [simpl; tauto |].
  set (attachment0 := [ ("id", PStr id); ("filename", PStr fn);
                        ("content_type", PStr ct); ("size", PInt z);
                        ("data", PBytes b) ] : dict).
  exists (PDict (set_optional "metadata" (dict_get "metadata" da)
                  (set_optional "created_at" (dict_get "created_at" da) attachment0))).
  split.
  - assert (Erow : row_of_attachment (PDict da) =
                     [ SText id; SText fn; SText ct; SInt z; SBlob b;
                       plain_cell (PDict da) "created_at";
                       json_cell (PDict da) "metadata" ]).
    { unfold row_of_attachment, plain_cell. cbn [field].
      now rewrite Hid, Hfn, Hct, Hz, Hb. }
    rewrite Erow. unfold attachment_of_plain_row. cbn [cell nth].
    unfold plain_cell, optional in *. cbn [field] in *.
    destruct (dict_get "created_at" da) as [v |].
    + destruct Hc as (s & -> & Hs). cbn [py_of_sql py_truthy set_optional].
      apply String.eqb_neq in Hs. rewrite Hs. cbn [negb]. fold attachment0.
      now rewrite (json_field_faithful da "metadata" _ Hj).
    + cbn [py_of_sql py_truthy set_optional]. fold attachment0.
      now rewrite (json_field_faithful da "metadata" _ Hj).
  - split.
    + intros k Hk. cbn [field].
      cbn [attachment_fields In] in Hk.
      destruct Hk as [<- | [<- | [<- | [<- | [<- | [<- | [<- | []]]]]]]].
      * rewrite !dict_get_set_optional_other by discriminate. now rewrite Hid.
      * rewrite !dict_get_set_optional_other by discriminate. now rewrite Hfn.
      * rewrite !dict_get_set_optional_other by discriminate. now rewrite Hct.
      * rewrite !dict_get_set_optional_other by discriminate. now rewrite Hz.
      * rewrite !dict_get_set_optional_other by discriminate. now rewrite Hb.
      * rewrite dict_get_set_optional_other by discriminate.
        rewrite dict_get_set_optional_same.
        now destruct (dict_get "created_at" da).
      * rewrite dict_get_set_optional_same.
        destruct (dict_get "metadata" da); [reflexivity |].
        now rewrite !dict_get_set_optional_other by discriminate.
    + intros k Hk. cbn [field] in Hk.
      destruct (in_dec string_dec k attachment_fields) as [Hin | Hnin]; [exact Hin |].
      exfalso. apply Hk. cbn [attachment_fields In] in Hnin.
      rewrite !dict_get_set_optional_other by (intros ->; tauto).
      subst attachment0. cbn [dict_get].
      repeat match goal with
             | |- context [String.eqb k ?x] =>
                 replace (String.eqb k x) with false
                   by (symmetry; apply String.eqb_neq; intros ->; tauto)
             end.
      reflexivity.
Qed.

End ReadStore.

Lemma for_each_map {A B C : Type} (f : B -> result C) (g : A -> B) (xs : list A) :
  for_each f (map g xs) = for_each (fun x => f (g x)) xs.
Proof.
  induction xs as [| x xs IH]; cbn [map for_each]; [reflexivity |].
  now rewrite IH.
Qed.

Section ParseStored.
Context {caps : Capabilities}.

Lemma storable_is_complete (m : pyval) : storable_message m -> message_complete m.
Proof.
  intros (dm & -> & Hreq & _). exists dm. split; [reflexivity |].
  intros f Hf. apply dict_in_get. destruct (Hreq f Hf) as [s Hs]. eauto.
Qed.

Lemma project_message_rows (ms : list pyval) :
  map (fun r => map (fun i => cell i r) [0; 1; 2; 3; 4; 5; 6]) (map row_of_message ms)
  = map row_of_message ms.
Proof. rewrite map_map. apply map_ext. intros m. reflexivity. Qed.

Lemma project_attachment_rows (xs : list pyval) :
  map (fun r => map (fun i => cell i r) [0; 1; 2; 3; 4; 5; 6]) (map row_of_attachment xs)
  = map row_of_attachment xs.
Proof. rewrite map_map. apply map_ext. intros a. reflexivity. Qed.

(** The store that the writer builds is read through the write schema. *)
Lemma stored_is_write_schema (msgs atts : list pyval) :
  Forall storable_message msgs ->
  strictly_increasing (map (text_field "timestamp") msgs) ->
  write_schema_rows (stored msgs atts) (map row_of_message msgs).
Proof.
  intros Hms Hts. split.
  - eexists. reflexivity.
  - unfold select_messages_plain, select_from, stored, store_of, find_table.
    cbn [find tables fst snd String.eqb Ascii.eqb Bool.eqb rbind tbl_columns tbl_rows].
    replace (for_each (resolve_column (mkTable messages_columns (map row_of_message msgs)))
               ["id"; "role"; "content"; "timestamp"; "parent_id"; "attachments";
                "metadata"])
      with (Ok [0; 1; 2; 3; 4; 5; 6]) by reflexivity.
    cbn [rbind]. rewrite project_message_rows. f_equal.
    apply (order_by_sorted _ (fun r => match cell 3 r with SText s => s | _ => "" end%string)).
    + intros r Hr. apply in_map_iff in Hr as (m & <- & Hm).
      rewrite Forall_forall in Hms.
      destruct (storable_message_row m (Hms m Hm)) as (? & ? & ? & ? & ? & E & _).
      rewrite E. reflexivity.
    + rewrite map_map.
      replace (map (fun m => match cell 3 (row_of_message m) with
                             | SText s => s
                             | _ => ""%string
                             end) msgs)
        with (map (text_field "timestamp") msgs); [exact Hts |].
      apply map_ext_in. intros m Hm. rewrite Forall_forall in Hms.
      destruct (storable_message_row m (Hms m Hm)) as (? & ? & ? & ? & ? & E & _).
      rewrite E. reflexivity.
Qed.

(** The messages of the store come back in list order with their fields. *)
Lemma parse_messages_stored (msgs atts : list pyval) :
  Forall storable_message msgs ->
  strictly_increasing (map (text_field "timestamp") msgs) ->
  exists msgs',
    _parse_messages (stored msgs atts) = Ok msgs'
    /\ Forall2 (same_fields message_fields) msgs msgs'.
Proof.
  intros Hms Hts.
  destruct (stored_is_write_schema msgs atts Hms Hts) as [[e Hj] Hp].
  destruct (for_each_ok (fun m => message_of_plain_row (row_of_message m))
              (same_fields message_fields) msgs) as (msgs' & E & H2).
  { rewrite Forall_forall in Hms |- *. intros m Hm.
    exact (plain_row_of_message m (Hms m Hm)). }
  exists msgs'. split; [| exact H2].
  unfold _parse_messages. rewrite Hj, Hp. cbn [rbind try_except is_OperationalError].
  now rewrite for_each_map, E.
Qed.

(** The attachments of the store come back in list order with their
    fields. *)
Lemma parse_attachments_stored (msgs atts : list pyval) :
  Forall storable_attachment atts ->
  exists atts',
    _parse_attachments (stored msgs atts) = Ok atts'
    /\ Forall2 (same_fields attachment_fields) atts atts'.
Proof.
  intros Hxs.
  destruct (for_each_ok (fun a => attachment_of_plain_row (row_of_attachment a))
              (same_fields attachment_fields) atts) as (atts' & E & H2).
  { rewrite Forall_forall in Hxs |- *. intros a Ha.
    exact (plain_row_of_attachment a (Hxs a Ha)). }
  exists atts'. split; [| exact H2].
  unfold _parse_attachments, select_from, stored, store_of, find_table.
  cbn [find tables fst snd String.eqb Ascii.eqb Bool.eqb rbind tbl_columns tbl_rows].
  replace (for_each
             (resolve_column (mkTable attachments_columns (map row_of_attachment atts)))
             ["id"; "filename"; "content_type"; "size"; "data"; "checksum"; "metadata"])
    with (Raise (OperationalError "no such column: checksum") : result (list nat))
    by reflexivity.
  cbn [rbind try_except is_OperationalError].
  replace (for_each
             (resolve_column (mkTable attachments_columns (map row_of_attachment atts)))
             ["id"; "filename"; "content_type"; "size"; "data"; "created_at"; "metadata"])
    with (Ok [0; 1; 2; 3; 4; 5; 6]) by reflexivity.
  cbn [rbind try_except]. rewrite project_attachment_rows.
  now rewrite for_each_map, E.
Qed.

(** The store section that [_generate_sqlite] returns for storable
    messages and attachments. *)
Lemma generate_sqlite_stored (d : dict) (msgs atts : list pyval) :
  dict_get "messages" d = Some (PList msgs) ->
  match dict_get "attachments" d with
  | Some v => v = PList atts
  | None => atts = []
  end ->
  Forall storable_message msgs ->
  NoDup (map (text_field "id") msgs) ->
  Forall storable_attachment atts ->
  NoDup (map (text_field "id") atts) ->
  _generate_sqlite (PDict d) = Ok (db_file (stored msgs atts)).
Proof.
  intros Hm Ha Hms Hnd Hxs Hndx. unfold _generate_sqlite.
  replace (_create_schema (mkDatabase SQLITE_APPLICATION_ID (tables empty_database)))
    with (Ok (store_of (mkTable messages_columns []) (mkTable attachments_columns [])))
    by reflexivity.
  cbn [rbind py_getitem py_in]. rewrite Hm. cbn [rbind _insert_messages py_iter].
  unfold _insert_messages. cbn [py_iter rbind].
  rewrite (insert_all_messages _ msgs [] (Forall_nil _) Hms Hnd).
  cbn [rbind app]. unfold dict_in.
  destruct (dict_get "attachments" d) as [v |].
  - subst v. cbn [rbind]. unfold _insert_attachments. cbn [py_iter rbind].
    rewrite (insert_all_attachments _ atts [] (Forall_nil _) Hxs Hndx).
    reflexivity.
  - subst atts. reflexivity.
Qed.

End ParseStored.

(** ** The container layout *)

Lemma layout_yaml_slice (yb image : bytes) :
  firstn (length yb) (skipn 32 (layout yb image)) = yb.
Proof.
  unfold layout.
  rewrite <- (length_header_bytes (Z.of_nat (length yb)) (32 + Z.of_nat (length yb))) at 1.
  rewrite firstn_skipn_app_mid by lia. apply firstn_all.
Qed.

Lemma layout_store_slice (yb image : bytes) :
  skipn (Z.to_nat (32 + Z.of_nat (length yb))) (layout yb image) = image.
Proof.
  unfold layout. rewrite app_assoc.
  replace (Z.to_nat (32 + Z.of_nat (length yb)))
    with (length (header_bytes (Z.of_nat (length yb)) (32 + Z.of_nat (length yb)) ++ yb))
    by (rewrite length_app, length_header_bytes; lia).
  rewrite skipn_app, skipn_all, Nat.sub_diag. reflexivity.
Qed.

Lemma layout_header (yb image : bytes) :
  (Z.of_nat (length yb) < 2 ^ 32)%Z ->
  header_outcome (layout yb image)
  = Ok (mkHeader 1 1 (Z.of_nat (length yb)) (32 + Z.of_nat (length yb))).
Proof.
  intros H. unfold layout. apply header_outcome_written; lia.
Qed.

Section Pipeline.
Context {caps : Capabilities}.

Lemma layout_yaml_section (text : string) (image : bytes) :
  utf8_valid (list_byte_of_string text) = true ->
  yaml_section_outcome (layout (list_byte_of_string text) image)
    (Z.of_nat (length (list_byte_of_string text)))
  = Ok (strip_yaml_text text).
Proof.
  intros Hv. unfold yaml_section_outcome. rewrite Nat2Z.id, layout_yaml_slice.
  rewrite Z.eqb_refl. cbn [negb]. unfold utf8_decode. rewrite Hv.
  now rewrite string_of_list_byte_of_string.
Qed.

(** Metadata that is already canonical is returned as loaded. *)
Lemma normalize_metadata_canonical (md : dict) :
  has_all required_metadata_fields md ->
  participants_plain md ->
  normalize_metadata (PDict md) = Ok (PDict md).
Proof.
  intros Hall Hp. rewrite LLMC_normalize_unfold.
  assert (Hc : dict_in "created_at" md = true) by (apply Hall; simpl; tauto).
  apply dict_in_get in Hc as [v Hc].
  rewrite (rename_legacy_keeps_canonical "created" _ _ _ Hc).
  assert (Hpart : dict_in "participants" md = true) by (apply Hall; simpl; tauto).
  assert (En : normalize_participants md = Ok md).
  { unfold normalize_participants, participants_plain in *.
    apply dict_in_get in Hpart as [p Hpart]. rewrite Hpart in *.
    destruct p as [| | | | | l |]; try reflexivity.
    destruct l as [| x rest]; try reflexivity.
    destruct x; try reflexivity. contradiction. }
  rewrite En. cbn [rbind]. fold required_metadata_fields.
  now rewrite (require_fields_ok _ _ Hall).
Qed.

Lemma parse_metadata_faithful (md : dict) (text : string) :
  yaml_faithful md text ->
  has_all required_metadata_fields md ->
  participants_plain md ->
  _parse_metadata (strip_yaml_text text) = Ok (PDict md).
Proof.
  intros (_ & _ & _ & Hload) Hall Hp. unfold _parse_metadata.
  rewrite Hload. cbn [rbind]. now rewrite normalize_metadata_canonical.
Qed.

(** [write_stream] on a stream that appends: when the check passes, the
    services deliver and the YAML bytes fit the length field, the stream
    gains the layout of the YAML bytes and the store image. *)
Lemma write_stream_layout (d : dict) (metadata : pyval) (text : string)
    (image : bytes) (s : BinaryIO) :
  _validate_conversation (PDict d) = Ok tt ->
  dict_get "metadata" d = Some metadata ->
  yaml_dump metadata = Ok text ->
  _generate_sqlite (PDict d) = Ok image ->
  (Z.of_nat (length (list_byte_of_string text)) < 2 ^ 32)%Z ->
  at_end s ->
  write_stream (PDict d) s =
    (Ok tt,
     mkStream (content s ++ layout (list_byte_of_string text) image)
              (length (content s ++ layout (list_byte_of_string text) image))).
Proof.
  intros Hv Hmd Hy Hg Hlen Hs.
  unfold write_stream, io_try, bind, lift. rewrite Hv.
  cbn [py_getitem]. rewrite Hmd. unfold _generate_yaml. rewrite Hy.
  cbn [try_except]. rewrite Hg.
  rewrite write_header_run by (assumption || lia).
  rewrite stream_write_at_end by reflexivity. cbn [content position].
  rewrite stream_write_at_end by reflexivity. cbn [content position].
  unfold layout. now rewrite <- !app_assoc.
Qed.

(** Writing a conversation that the container holds as it is, and parsing
    the container. *)
Lemma roundtrip_core (c : pyval) (md : dict) (msgs atts : list pyval)
    (text : string) :
  roundtrip_ready c md msgs atts text ->
  write_stream c (mkStream [] 0) =
    (Ok tt, mkStream (container text (stored msgs atts))
                     (length (container text (stored msgs atts))))
  /\ header_outcome (container text (stored msgs atts))
     = Ok (mkHeader 1 1 (Z.of_nat (length (list_byte_of_string text)))
                    (32 + Z.of_nat (length (list_byte_of_string text))))
  /\ exists msgs' atts',
       parse_outcome (container text (stored msgs atts))
       = Ok (assemble (PDict md) (msgs', atts'))
       /\ Forall2 (same_fields message_fields) msgs msgs'
       /\ Forall2 (same_fields attachment_fields) atts atts'.
Proof.
  intros [(d & -> & Hmd & Hms & Hatts) Hall Hplain Hyaml Hstor Hnd Hts Hxs Hndx Hdb].
  pose proof Hyaml as (Hdump & Hvalid & Hlen & Hload).
  assert (Hgen : _generate_sqlite (PDict d) = Ok (db_file (stored msgs atts)))
    by (now apply generate_sqlite_stored).
  assert (Hhead := layout_header (list_byte_of_string text)
                     (db_file (stored msgs atts)) Hlen).
  split; [| split; [exact Hhead |]].
  - rewrite (write_stream_layout d (PDict md) text (db_file (stored msgs atts)));
      try assumption; try reflexivity.
    apply validate_accepts_valid. exists d, md, msgs.
    repeat (split; [assumption || reflexivity |]).
    rewrite Forall_forall in Hstor |- *. intros m Hm.
    apply storable_is_complete. now apply Hstor.
  - destruct (parse_messages_stored msgs atts Hstor Hts) as (msgs' & Em & Hm2).
    destruct (parse_attachments_stored msgs atts Hxs) as (atts' & Ea & Ha2).
    exists msgs', atts'. split; [| split; assumption].
    unfold parse_outcome, container in *. rewrite Hhead. cbn [rbind yaml_length sqlite_offset].
    rewrite (layout_yaml_section text _ Hvalid). cbn [rbind].
    rewrite (parse_metadata_faithful md text Hyaml Hall Hplain). cbn [rbind].
    rewrite layout_store_slice. unfold _parse_sqlite_data.
    rewrite Hdb. cbn [rbind]. unfold stored at 1, store_of at 1. cbn [application_id].
    rewrite Z.eqb_refl. cbn [negb]. rewrite Em. cbn [rbind]. rewrite Ea.
    reflexivity.
Qed.

End Pipeline.

(** ** Round trip *)

Section RoundTrip.
Context {caps : Capabilities}.

Lemma assemble_fields (md : pyval) (msgs atts : list pyval) :
  field (assemble md (msgs, atts)) "metadata" = Some md
  /\ field (assemble md (msgs, atts)) "messages" = Some (PList msgs)
  /\ attachments_of (assemble md (msgs, atts)) = atts
  /\ messages_of (assemble md (msgs, atts)) = msgs.
Proof.
  unfold attachments_of, messages_of, assemble. cbn [fst snd].
  destruct atts; repeat split; reflexivity.
Qed.

(** Writing a conversation that the container holds as it is and parsing
    what was written gives the conversation [c'] of the statement. *)
Lemma roundtrip_parsed (c : pyval) (md : dict) (msgs atts : list pyval)
    (text : string) :
  roundtrip_ready c md msgs atts text ->
  exists s' c',
    write_stream c (mkStream [] 0) = (Ok tt, s')
    /\ fst (parse_stream (mkStream (content s') 0)) = Ok c'
    /\ field c' "metadata" = Some (PDict md)
    /\ Forall2 (same_fields message_fields) msgs (messages_of c')
    /\ Forall2 (same_fields attachment_fields) atts (attachments_of c').
Proof.
  intros H. destruct (roundtrip_core c md msgs atts text H)
    as (Hw & _ & msgs' & atts' & Hp & Hm & Ha).
  eexists. exists (assemble (PDict md) (msgs', atts')).
  split; [exact Hw |]. cbn [content].
  rewrite parse_stream_outcome, Hp.
  destruct (assemble_fields (PDict md) msgs' atts') as (E1 & _ & E3 & E4).
  rewrite E3, E4. repeat split; assumption.
Qed.

(** C1, as amended. For a conversation that passes the pre-write check, is
    typed as in the data model with unique ids, has message timestamps that
    strictly increase in list order and optional fields that are not empty
    when they are there, and on whose parts the services are faithful:
    [write_stream] succeeds, [parse_stream] on the written bytes succeeds,
    and the parsed conversation has the same metadata, the same number of
    messages in the same order with the same fields, and the same
    attachments in the same order with the same fields (the [data] bytes
    among them). *)
Theorem roundtrip_preserves_conversation (c : pyval) (md : dict)
    (msgs atts : list pyval) (text : string) :
  roundtrip_ready c md msgs atts text ->
  _validate_conversation c = Ok tt
  /\ exists s' c',
       write_stream c (mkStream [] 0) = (Ok tt, s')
       /\ fst (parse_stream (mkStream (content s') 0)) = Ok c'
       /\ field c' "metadata" = Some (PDict md)
       /\ length (messages_of c') = length msgs
       /\ Forall2 (same_fields message_fields) msgs (messages_of c')
       /\ Forall2 (same_fields attachment_fields) atts (attachments_of c')
       /\ Forall2 (fun a a' => field a' "data" = field a "data")
                  atts (attachments_of c').
Proof.
  intros H. split.
  - destruct H as [(d & -> & Hmd & Hms & _) Hall _ _ Hstor _ _ _ _ _].
    apply validate_accepts_valid. exists d, md, msgs.
    repeat (split; [assumption || reflexivity |]).
    rewrite Forall_forall in Hstor |- *. intros m Hm.
    apply storable_is_complete. now apply Hstor.
  - destruct (roundtrip_parsed c md msgs atts text H)
      as (s' & c' & Hw & Hp & Hmeta & Hm & Ha).
    exists s', c'. repeat (split; [assumption |]).
    split; [symmetry; exact (Forall2_length Hm) |].
    split; [exact Hm |]. split; [exact Ha |].
    eapply Forall2_impl; [| exact Ha].
    intros a a' [Hsame _]. apply Hsame. simpl. tauto.
Qed.

End RoundTrip.

(** *** Concrete runs under the reference services *)

(** Proves that a closed record is storable by looking its fields up. *)
Ltac storable_by_lookup :=
  eexists; split; [reflexivity |];
  repeat match goal with
         | |- _ /\ _ => split
         | |- forall k, In k _ -> _ =>
             let k := fresh "k" in
             let Hk := fresh "Hk" in
             intros k Hk; cbn [In required_message_fields] in Hk;
             repeat (destruct Hk as [<- | Hk]; [eexists; reflexivity |]);
             contradiction
         | |- optional _ _ _ =>
             first [ exact I
                   | eexists; reflexivity
                   | eexists; split; [reflexivity | discriminate]
                   | split; [reflexivity |];
                     eexists; split; [vm_compute; reflexivity |];
                     split; [discriminate | vm_compute; reflexivity] ]
         | |- exists z, _ = Some (PInt z) /\ _ =>
             eexists; split; [reflexivity | vm_compute; split; discriminate]
         | |- exists b, _ = Some (PBytes b) => eexists; reflexivity
         end.

Lemma attached_conversation_ready (size : Z) (data : bytes) :
  (- 2 ^ 63 <= size < 2 ^ 63)%Z ->
  @db_open Reference.services
     (@db_file Reference.services
        (@stored Reference.services attached_messages [sample_attachment size data]))
  = Ok (@stored Reference.services attached_messages [sample_attachment size data]) ->
  @roundtrip_ready Reference.services (attached_conversation size data)
    sample_metadata attached_messages [sample_attachment size data]
    (Reference.encode_value (PDict sample_metadata)).
Proof.
  intros Hsize Hdb. constructor.
  - eexists. repeat split; reflexivity.
  - intros f [<- | [<- | [<- | []]]]; reflexivity.
  - exact I.
  - repeat split; vm_compute; reflexivity.
  - repeat constructor; storable_by_lookup.
  - repeat constructor; simpl; intuition discriminate.
  - simpl. repeat split; vm_compute; reflexivity.
  - constructor; [| constructor].
    eexists. split; [reflexivity |].
    split; [| split; [| split; [| split]]].
    + intros k Hk. cbn [In] in Hk.
      repeat (destruct Hk as [<- | Hk]; [eexists; reflexivity |]). contradiction.
    + exists size. split; [reflexivity | exact Hsize].
    + eexists. reflexivity.
    + eexists. split; [reflexivity | discriminate].
    + exact I.
  - repeat constructor; simpl; intuition.
  - exact Hdb.
Qed.

Lemma roundtrip_preserves_conversation_witness :
  _validate_conversation (attached_conversation 3 [x41; x42; x43]) = Ok tt
  /\ exists s' c',
       @write_stream Reference.services
          (attached_conversation 3 [x41; x42; x43]) (mkStream [] 0) = (Ok tt, s')
       /\ fst (@parse_stream Reference.services (mkStream (content s') 0)) = Ok c'
       /\ field c' "metadata" = Some (PDict sample_metadata)
       /\ length (messages_of c') = length attached_messages
       /\ Forall2 (same_fields message_fields) attached_messages (messages_of c')
       /\ Forall2 (same_fields attachment_fields)
                  [sample_attachment 3 [x41; x42; x43]] (attachments_of c')
       /\ Forall2 (fun a a' => field a' "data" = field a "data")
                  [sample_attachment 3 [x41; x42; x43]] (attachments_of c').
Proof.
  apply (@roundtrip_preserves_conversation Reference.services
           (attached_conversation 3 [x41; x42; x43]) sample_metadata
           attached_messages [sample_attachment 3 [x41; x42; x43]]
           (Reference.encode_value (PDict sample_metadata))).
  apply attached_conversation_ready.
  - lia.
  - vm_compute. reflexivity.
Defined.

(** C1, as stated, fails: [unordered_conversation] passes the check and is
    written, but the parsed conversation has its two messages in the other
    order (the order of their timestamps), and the empty attachment list of
    [msg_1] is gone. *)
Lemma roundtrip_reorders_messages :
  _validate_conversation unordered_conversation = Ok tt
  /\ fst (@write_stream Reference.services unordered_conversation (mkStream [] 0))
     = Ok tt
  /\ map (text_field "id") (messages_of unordered_conversation) = ["msg_1"; "msg_2"]
  /\ reparsed unordered_conversation =
       Ok (PDict [ ("metadata", PDict sample_metadata);
                   ("messages",
                    PList [ sample_message "msg_2" "assistant" "Hi"
                              "2024-01-15T10:30:00Z";
                            sample_message "msg_1" "user" "Hello"
                              "2024-01-15T10:30:05Z" ]) ])
  /\ ~ (exists c',
          reparsed unordered_conversation = Ok c'
          /\ Forall2 (same_fields message_fields)
                     (messages_of unordered_conversation) (messages_of c')).
Proof.
  assert (E : reparsed unordered_conversation =
       Ok (PDict [ ("metadata", PDict sample_metadata);
                   ("messages",
                    PList [ sample_message "msg_2" "assistant" "Hi"
                              "2024-01-15T10:30:00Z";
                            sample_message "msg_1" "user" "Hello"
                              "2024-01-15T10:30:05Z" ]) ]))
    by (vm_compute; reflexivity).
  split; [reflexivity |].
  split; [vm_compute; reflexivity |].
  split; [reflexivity |].
  split; [exact E |].
  intros (c' & Hc' & H2). rewrite E in Hc'. injection Hc' as <-.
  cbn in H2. inversion H2 as [| ? ? ? ? [Hsame _] _]; subst.
  specialize (Hsame "id"). cbn in Hsame.
  assert (Hin : In "id"%string message_fields) by (simpl; tauto).
  specialize (Hsame Hin). discriminate.
Qed.


(** ** Header bookkeeping and the two-message scenario *)

Section HeaderBookkeeping.
Context {caps : Capabilities}.

Lemma scenario_ready (t1 t2 text : string) :
  String.ltb t1 t2 = true ->
  yaml_faithful sample_metadata text ->
  db_open (db_file (stored (scenario_messages t1 t2) []))
  = Ok (stored (scenario_messages t1 t2) []) ->
  roundtrip_ready (scenario t1 t2) sample_metadata (scenario_messages t1 t2) [] text.
Proof.
  intros Hlt Hyaml Hdb. constructor.
  - eexists. repeat split; reflexivity.
  - intros f [<- | [<- | [<- | []]]]; reflexivity.
  - exact I.
  - exact Hyaml.
  - repeat constructor; storable_by_lookup.
  - repeat constructor; simpl; intuition discriminate.
  - simpl. repeat split. exact Hlt.
  - constructor.
  - constructor.
  - exact Hdb.
Qed.

(** C7. When [write_stream] writes a valid conversation, the header it
    writes has the length of the encoded metadata block in its
    [yaml_length] field and 32 plus that length in its [sqlite_offset]
    field, and [_read_header] reads these two numbers back. In the
    two-message scenario ([msg_1] of the user before [msg_2] of the
    assistant), parsing what was written returns the two messages in that
    order with their roles and contents. *)
Theorem written_header_and_scenario :
  (forall (d : dict) (metadata : pyval) (text : string) (image : bytes)
          (s : BinaryIO),
      _validate_conversation (PDict d) = Ok tt ->
      dict_get "metadata" d = Some metadata ->
      yaml_dump metadata = Ok text ->
      _generate_sqlite (PDict d) = Ok image ->
      (Z.of_nat (length (list_byte_of_string text)) < 2 ^ 32)%Z ->
      at_end s ->
      exists s' container,
        write_stream (PDict d) s = (Ok tt, s')
        /\ content s' = content s ++ container
        /\ container = layout (list_byte_of_string text) image
        /\ fst (_read_header (mkStream container 0))
           = Ok (mkHeader 1 1 (Z.of_nat (length (list_byte_of_string text)))
                          (32 + Z.of_nat (length (list_byte_of_string text)))))
  /\ (forall (t1 t2 text : string),
        String.ltb t1 t2 = true ->
        yaml_faithful sample_metadata text ->
        db_open (db_file (stored (scenario_messages t1 t2) []))
        = Ok (stored (scenario_messages t1 t2) []) ->
        exists s' c' m1 m2,
          write_stream (scenario t1 t2) (mkStream [] 0) = (Ok tt, s')
          /\ fst (parse_stream (mkStream (content s') 0)) = Ok c'
          /\ messages_of c' = [m1; m2]
          /\ field m1 "id" = Some (PStr "msg_1")
          /\ field m1 "role" = Some (PStr "user")
          /\ field m1 "content" = Some (PStr "Hello")
          /\ field m2 "id" = Some (PStr "msg_2")
          /\ field m2 "role" = Some (PStr "assistant")
          /\ field m2 "content" = Some (PStr "Hi")).
Proof.
  split.
  - intros d metadata text image s Hv Hmd Hy Hg Hlen Hs.
    eexists. exists (layout (list_byte_of_string text) image).
    split; [exact (write_stream_layout d metadata text image s Hv Hmd Hy Hg Hlen Hs) |].
    split; [reflexivity |]. split; [reflexivity |].
    rewrite read_header_outcome. now apply layout_header.
  - intros t1 t2 text Hlt Hyaml Hdb.
    destruct (roundtrip_parsed _ _ _ _ _ (scenario_ready t1 t2 text Hlt Hyaml Hdb))
      as (s' & c' & Hw & Hp & _ & Hm & _).
    unfold scenario_messages in Hm.
    inversion Hm as [| x1 m1 l1 l1' [H1 _] Hm' E1 E2]; subst.
    inversion Hm' as [| x2 m2 l2 l2' [H2 _] Hm'' E3 E4]; subst.
    inversion Hm''; subst.
    exists s', c', m1, m2.
    split; [exact Hw |]. split; [exact Hp |]. split; [congruence |].
    repeat split.
    + rewrite (H1 "id") by (simpl; tauto). reflexivity.
    + rewrite (H1 "role") by (simpl; tauto). reflexivity.
    + rewrite (H1 "content") by (simpl; tauto). reflexivity.
    + rewrite (H2 "id") by (simpl; tauto). reflexivity.
    + rewrite (H2 "role") by (simpl; tauto). reflexivity.
    + rewrite (H2 "content") by (simpl; tauto). reflexivity.
Qed.

End HeaderBookkeeping.

Lemma written_header_and_scenario_witness :
  (exists s' container,
     @write_stream Reference.services
        (scenario "2024-01-15T10:30:00Z" "2024-01-15T10:30:05Z") (mkStream [] 0)
     = (Ok tt, s')
     /\ content s' = [] ++ container
     /\ container =
          layout (list_byte_of_string (Reference.encode_value (PDict sample_metadata)))
            (@db_file Reference.services
               (@stored Reference.services
                  (scenario_messages "2024-01-15T10:30:00Z" "2024-01-15T10:30:05Z") []))
     /\ fst (_read_header (mkStream container 0)) = Ok (mkHeader 1 1 108 (32 + 108)))
  /\ (exists s' c' m1 m2,
        @write_stream Reference.services
           (scenario "2024-01-15T10:30:00Z" "2024-01-15T10:30:05Z") (mkStream [] 0)
        = (Ok tt, s')
        /\ fst (@parse_stream Reference.services (mkStream (content s') 0)) = Ok c'
        /\ messages_of c' = [m1; m2]
        /\ field m1 "id" = Some (PStr "msg_1")
        /\ field m1 "role" = Some (PStr "user")
        /\ field m1 "content" = Some (PStr "Hello")
        /\ field m2 "id" = Some (PStr "msg_2")
        /\ field m2 "role" = Some (PStr "assistant")
        /\ field m2 "content" = Some (PStr "Hi")).
Proof.
  destruct (@written_header_and_scenario Reference.services) as [Hheader Hscenario].
  split.
  - apply (Hheader
             [ ("metadata", PDict sample_metadata);
               ("messages",
                PList (scenario_messages "2024-01-15T10:30:00Z" "2024-01-15T10:30:05Z")) ]
             (PDict sample_metadata)
             (Reference.encode_value (PDict sample_metadata))).
    + reflexivity.
    + reflexivity.
    + reflexivity.
    + vm_compute. reflexivity.
    + vm_compute. reflexivity.
    + reflexivity.
  - apply (Hscenario "2024-01-15T10:30:00Z" "2024-01-15T10:30:05Z"
             (Reference.encode_value (PDict sample_metadata)))%string.
    + vm_compute. reflexivity.
    + repeat split; vm_compute; reflexivity.
    + vm_compute. reflexivity.
Defined.


(** ** What a successful parse returns *)

Lemma require_fields_has_all (fields : list string) (d : dict) :
  require_fields fields d = Ok tt -> has_all fields d.
Proof.
  induction fields as [| f fs IH]; cbn [require_fields]; intros H g Hg.
  - destruct Hg.
  - destruct (dict_in f d) eqn:E; [| discriminate].
    destruct Hg as [<- | Hg]; [exact E | now apply IH].
Qed.

Lemma normalize_metadata_has_required (v r : pyval) :
  normalize_metadata v = Ok r ->
  exists d, r = PDict d /\ has_all required_metadata_fields d.
Proof.
  destruct v as [| | | | | | d]; try discriminate.
  rewrite LLMC_normalize_unfold.
  destruct (normalize_participants _) as [d' |]; cbn [rbind]; [| discriminate].
  destruct (require_fields _ d') as [[] |] eqn:E; cbn [rbind]; [| discriminate].
  intros H. injection H as <-. exists d'. split; [reflexivity |].
  now apply require_fields_has_all.
Qed.

Lemma dict_in_set_keeps (k k' : string) (v : pyval) (d : dict) :
  dict_in k d = true -> dict_in k (dict_set k' v d) = true.
Proof.
  intros H. apply dict_in_get. apply dict_in_get in H as [x H].
  destruct (string_dec k k') as [-> | Hne].
  - rewrite dict_get_set_same. eauto.
  - rewrite dict_get_set_other by exact Hne. eauto.
Qed.

Lemma has_all_set (fields : list string) (k : string) (v : pyval) (d : dict) :
  has_all fields d -> has_all fields (dict_set k v d).
Proof. intros H f Hf. apply dict_in_set_keeps. now apply H. Qed.

Section ParsedShape.
Context {caps : Capabilities}.

Lemma parse_metadata_has_required (text : string) (md : pyval) :
  _parse_metadata text = Ok md ->
  exists d, md = PDict d /\ has_all required_metadata_fields d.
Proof.
  unfold _parse_metadata.
  destruct (yaml_safe_load text) as [v | e]; cbn [rbind try_except].
  - destruct (normalize_metadata v) as [r | e] eqn:E; cbn [try_except].
    + intros H. injection H as <-. exact (normalize_metadata_has_required _ _ E).
    + destruct (is_YAMLError e); discriminate.
  - destruct (is_YAMLError e); discriminate.
Qed.

Lemma json_field_has_all (fields : list string) (name : string) (v : sqlval)
    (record r : dict) :
  json_field name v record = Ok r -> has_all fields record -> has_all fields r.
Proof.
  unfold json_field. destruct (py_truthy _).
  - destruct (json_loads_value v); cbn [rbind]; [| discriminate].
    intros H. injection H as <-. apply has_all_set.
  - intros H. now injection H as <-.
Qed.

Lemma lenient_metadata_has_all (fields : list string) (v : sqlval)
    (record r : dict) :
  lenient_metadata v record = Ok r -> has_all fields record -> has_all fields r.
Proof.
  unfold lenient_metadata. destruct (py_truthy _).
  - destruct (json_loads_value v) as [x | e]; cbn [rbind try_except].
    + intros H. injection H as <-. apply has_all_set.
    + destruct (is_JSONDecodeError e); [| discriminate].
      intros H. now injection H as <-.
  - intros H. now injection H as <-.
Qed.

Lemma joined_attachment_ids_has_all (fields : list string) (v : sqlval)
    (message r : dict) :
  joined_attachment_ids v message = Ok r -> has_all fields message -> has_all fields r.
Proof.
  unfold joined_attachment_ids. destruct (py_truthy _).
  - destruct (split_value v) as [parts |]; cbn [rbind]; [| discriminate].
    intros H. injection H as <-.
    destruct (map _ _); [auto | apply has_all_set].
  - intros H. now injection H as <-.
Qed.

Lemma base_message_complete (a b c d : pyval) :
  has_all required_message_fields
    [("id", a); ("role", b); ("content", c); ("timestamp", d)].
Proof. intros f [<- | [<- | [<- | [<- | []]]]]; reflexivity. Qed.

(** Every message that the two row conversions build has the four required
    fields. *)
Lemma plain_row_complete (row : sqlrow) (m : pyval) :
  message_of_plain_row row = Ok m -> message_complete m.
Proof.
  unfold message_of_plain_row.
  match goal with
  | |- context [json_field "attachments" _ ?x] => set (m0 := x)
  end.
  assert (H0 : has_all required_message_fields m0).
  { subst m0. destruct (cell 4 row);
      [apply base_message_complete | apply has_all_set, base_message_complete ..]. }
  destruct (json_field "attachments" _ m0) as [m1 |] eqn:E1; cbn [rbind]; [| discriminate].
  destruct (json_field "metadata" _ m1) as [m2 |] eqn:E2; cbn [rbind]; [| discriminate].
  intros H. injection H as <-. exists m2. split; [reflexivity |].
  eapply json_field_has_all; [exact E2 |].
  eapply json_field_has_all; [exact E1 | exact H0].
Qed.

Lemma joined_row_complete (row : sqlrow) (m : pyval) :
  message_of_joined_row row = Ok m -> message_complete m.
Proof.
  unfold message_of_joined_row.
  match goal with
  | |- context [joined_attachment_ids _ ?x] => set (m0 := x)
  end.
  assert (H0 : has_all required_message_fields m0).
  { subst m0. destruct (cell 4 row);
      [apply base_message_complete | apply has_all_set, base_message_complete ..]. }
  destruct (joined_attachment_ids _ m0) as [m1 |] eqn:E1; cbn [rbind]; [| discriminate].
  destruct (lenient_metadata _ m1) as [m2 |] eqn:E2; cbn [rbind]; [| discriminate].
  intros H. injection H as <-. exists m2. split; [reflexivity |].
  eapply lenient_metadata_has_all; [exact E2 |].
  eapply joined_attachment_ids_has_all; [exact E1 | exact H0].
Qed.

Lemma for_each_Forall {A B : Type} (f : A -> result B) (P : B -> Prop)
    (xs : list A) (ys : list B) :
  (forall x y, f x = Ok y -> P y) ->
  for_each f xs = Ok ys -> Forall P ys.
Proof.
  intros Hf. revert ys. induction xs as [| x xs IH]; cbn [for_each]; intros ys H.
  - injection H as <-. constructor.
  - destruct (f x) as [y |] eqn:Ex; [| discriminate].
    destruct (for_each f xs) as [ys' |]; [| discriminate].
    injection H as <-. constructor; [exact (Hf _ _ Ex) | now apply IH].
Qed.

Lemma parse_messages_complete (db : database) (msgs : list pyval) :
  _parse_messages db = Ok msgs -> Forall message_complete msgs.
Proof.
  unfold _parse_messages.
  destruct (select_messages_joined db) as [rows | e]; cbn [rbind try_except].
  - destruct (for_each message_of_joined_row rows) as [ms | e] eqn:E; cbn [try_except].
    + intros H. injection H as <-.
      exact (for_each_Forall _ _ _ _ joined_row_complete E).
    + destruct (is_OperationalError e); [| discriminate].
      destruct (select_messages_plain db) as [rows' | e']; cbn [rbind try_except].
      * destruct (for_each message_of_plain_row rows') as [ms | e2] eqn:E2;
          cbn [try_except].
        -- intros H. injection H as <-.
           exact (for_each_Forall _ _ _ _ plain_row_complete E2).
        -- destruct (is_OperationalError e2); discriminate.
      * destruct (is_OperationalError e'); discriminate.
  - destruct (is_OperationalError e); [| discriminate].
    destruct (select_messages_plain db) as [rows' | e']; cbn [rbind try_except].
    + destruct (for_each message_of_plain_row rows') as [ms | e2] eqn:E2;
        cbn [try_except].
      * intros H. injection H as <-.
        exact (for_each_Forall _ _ _ _ plain_row_complete E2).
      * destruct (is_OperationalError e2); discriminate.
    + destruct (is_OperationalError e'); discriminate.
Qed.

Lemma parse_sqlite_data_complete (data : bytes) (parsed : list pyval * list pyval) :
  _parse_sqlite_data data = Ok parsed -> Forall message_complete (fst parsed).
Proof.
  unfold _parse_sqlite_data.
  destruct (db_open data) as [conn | e]; cbn [rbind try_except].
  2: { destruct (is_sqlite3_Error e); discriminate. }
  destruct (negb _); cbn [try_except]; [discriminate |].
  destruct (_parse_messages conn) as [msgs | e] eqn:Em; cbn [rbind try_except].
  2: { destruct (is_sqlite3_Error e); discriminate. }
  destruct (_parse_attachments conn) as [atts | e]; cbn [rbind try_except].
  2: { destruct (is_sqlite3_Error e); discriminate. }
  intros H. injection H as <-. exact (parse_messages_complete _ _ Em).
Qed.

(** What a successful [parse_stream] went through, at any stream position:
    some text was accepted as metadata, some bytes as the store, and the
    result is assembled from the two. *)
Lemma parse_stream_success (s : BinaryIO) (c : pyval) :
  fst (parse_stream s) = Ok c ->
  exists text data md parsed,
    _parse_metadata text = Ok md
    /\ _parse_sqlite_data data = Ok parsed
    /\ c = assemble md parsed.
Proof.
  unfold parse_stream, io_try, bind, lift.
  destruct (_read_header s) as [[h | e] s1].
  2: { destruct (is_Exception e); [destruct (is_parse_or_format_error e) |]; discriminate. }
  destruct (_read_yaml_section (yaml_length h) s1) as [[text | e] s2].
  2: { destruct (is_Exception e); [destruct (is_parse_or_format_error e) |]; discriminate. }
  destruct (_parse_metadata text) as [md | e] eqn:Em.
  2: { destruct (is_Exception e); [destruct (is_parse_or_format_error e) |]; discriminate. }
  destruct (stream_seek _ s2) as [[[] | e] s3] eqn:Es.
  2: { unfold stream_seek in Es. discriminate. }
  destruct (stream_read_all s3) as [[data | e] s4] eqn:Er.
  2: { unfold stream_read_all in Er. discriminate. }
  destruct (_parse_sqlite_data data) as [parsed | e] eqn:Ep.
  2: { destruct (is_Exception e); [destruct (is_parse_or_format_error e) |]; discriminate. }
  cbn [ret fst]. intros H. injection H as <-.
  exists text, data, md, parsed. repeat split; assumption.
Qed.

(** X1. Whatever [parse_stream] returns passes the writer's pre-write check:
    the metadata holds the three required fields and every message is a
    mapping with [id], [role], [content] and [timestamp]. *)
Theorem parsed_conversation_passes_validation (s : BinaryIO) (c : pyval) :
  fst (parse_stream s) = Ok c -> _validate_conversation c = Ok tt.
Proof.
  intros H.
  destruct (parse_stream_success s c H) as (text & data & md & [msgs atts] & Hm & Hp & ->).
  destruct (parse_metadata_has_required _ _ Hm) as (d & -> & Hall).
  apply parse_sqlite_data_complete in Hp. cbn [fst] in Hp.
  apply validate_accepts_valid.
  unfold assemble. cbn [fst snd].
  eexists _, d, msgs. split; [reflexivity |].
  destruct atts as [| a atts].
  - repeat split; [exact Hall | exact Hp].
  - rewrite !dict_get_set_other by discriminate.
    repeat split; [exact Hall | exact Hp].
Qed.

(** X2. The keys of a parsed conversation: [metadata] and [messages] are
    always there, [attachments] is there exactly when the store returned at
    least one attachment (an empty list is never returned), and there is no
    other key. *)
Theorem parsed_conversation_keys (s : BinaryIO) (c : pyval) :
  fst (parse_stream s) = Ok c ->
  (exists md msgs,
     field c "metadata" = Some (PDict md)
     /\ field c "messages" = Some (PList msgs))
  /\ (field c "attachments" = None
      \/ exists a atts, field c "attachments" = Some (PList (a :: atts)))
  /\ (forall k, field c k <> None -> In k ["metadata"; "messages"; "attachments"]).
Proof.
  intros H.
  destruct (parse_stream_success s c H) as (text & data & md & [msgs atts] & Hm & Hp & ->).
  destruct (parse_metadata_has_required _ _ Hm) as (d & -> & _).
  unfold assemble. cbn [fst snd field].
  destruct atts as [| a atts].
  - split; [exists d, msgs; split; reflexivity |].
    split; [left; reflexivity |].
    intros k Hk. cbn [dict_get] in Hk.
    destruct (String.eqb k "metadata") eqn:E1;
      [apply String.eqb_eq in E1; subst; simpl; tauto |].
    destruct (String.eqb k "messages") eqn:E2;
      [apply String.eqb_eq in E2; subst; simpl; tauto |].
    now destruct Hk.
  - split; [exists d, msgs; split; reflexivity |].
    split; [right; exists a, atts; reflexivity |].
    intros k Hk. cbn [dict_set dict_get String.eqb Ascii.eqb Bool.eqb] in Hk.
    cbn [dict_get] in Hk.
    destruct (String.eqb k "metadata") eqn:E1;
      [apply String.eqb_eq in E1; subst; simpl; tauto |].
    destruct (String.eqb k "messages") eqn:E2;
      [apply String.eqb_eq in E2; subst; simpl; tauto |].
    destruct (String.eqb k "attachments") eqn:E3;
      [apply String.eqb_eq in E3; subst; simpl; tauto |].
    now destruct Hk.
Qed.

End ParsedShape.

(** ** Sections of the container *)

Lemma slice_of_firstn {A : Type} (a : list A) (k n m : nat) :
  k + n <= m -> firstn n (skipn k (firstn m a)) = firstn n (skipn k a).
Proof.
  intros H. apply nth_error_ext. intros j.
  rewrite !nth_error_firstn, !nth_error_skipn, nth_error_firstn.
  destruct (j <? n) eqn:E; [| reflexivity].
  apply Nat.ltb_lt in E.
  replace (k + j <? m) with true by (symmetry; apply Nat.ltb_lt; lia).
  reflexivity.
Qed.

(** The header is decoded from the first 32 bytes alone. *)
Lemma header_outcome_prefix (a b : bytes) :
  firstn 32 a = firstn 32 b -> header_outcome a = header_outcome b.
Proof.
  intros H. unfold header_outcome.
  assert (E : forall k n, k + n <= 32 ->
                firstn n (skipn k a) = firstn n (skipn k b)).
  { intros k n Hk. rewrite <- (slice_of_firstn a k n 32 Hk), H.
    now apply slice_of_firstn. }
  pose proof (E 0 4) as E0. cbn [skipn] in E0.
  rewrite E0, (E 4 1), (E 8 4), (E 12 4), (E 16 8) by lia.
  reflexivity.
Qed.

Lemma Z_of_byte_nonneg (b : byte) : (0 <= Z_of_byte b)%Z.
Proof. unfold Z_of_byte. lia. Qed.

Lemma le_decode_nonneg (bs : bytes) : (0 <= le_decode bs)%Z.
Proof.
  induction bs as [| b bs IH]; cbn [le_decode]; [lia |].
  pose proof (Z_of_byte_nonneg b). lia.
Qed.

Lemma struct_unpack_nonneg (f : struct_fmt) (b : bytes) (v : Z) :
  struct_unpack f b = Ok v -> (0 <= v)%Z.
Proof.
  unfold struct_unpack. destruct (Nat.eqb _ _); [| discriminate].
  intros H. injection H as <-. apply le_decode_nonneg.
Qed.

(** The lengths of a decoded header are not negative. *)
Lemma header_outcome_nonneg (a : bytes) (h : header) :
  header_outcome a = Ok h -> (0 <= yaml_length h)%Z /\ (0 <= sqlite_offset h)%Z.
Proof.
  unfold header_outcome. destruct (negb _); [discriminate |].
  destruct (struct_unpack fmt_B _) as [v |]; cbn [rbind]; [| discriminate].
  destruct (negb _); [discriminate |].
  destruct (struct_unpack fmt_I (firstn 4 (skipn 8 a))) as [fv |]; cbn [rbind];
    [| discriminate].
  destruct (negb _); [discriminate |].
  destruct (struct_unpack fmt_I (firstn 4 (skipn 12 a))) as [yl |] eqn:Ey;
    cbn [rbind]; [| discriminate].
  destruct (struct_unpack fmt_Q _) as [so |] eqn:Es; cbn [rbind]; [| discriminate].
  intros H. injection H as <-. cbn [yaml_length sqlite_offset].
  split; eapply struct_unpack_nonneg; eassumption.
Qed.

Lemma lstrip_nul_repeat (k : nat) (b : bytes) :
  lstrip_nul (repeat x00 k ++ b) = lstrip_nul b.
Proof. induction k as [| k IH]; [reflexivity | exact IH]. Qed.

Lemma utf8_valid_repeat_nul (k : nat) (b : bytes) :
  utf8_valid (repeat x00 k ++ b) = utf8_valid b.
Proof. induction k as [| k IH]; [reflexivity | exact IH]. Qed.

Lemma find_table_missing (name : string) (db : database) :
  ~ In name (map fst (tables db)) ->
  find_table name db = Raise (OperationalError ("no such table: " ++ name)%string).
Proof.
  intros H. unfold find_table.
  destruct (find _ (tables db)) as [nt |] eqn:E; [| reflexivity].
  exfalso. apply find_some in E as [Hin Heq]. apply String.eqb_eq in Heq.
  apply H. rewrite Heq. now apply in_map.
Qed.

(** A query that names a column the table does not have fails. *)
Lemma for_each_resolve_missing (t : table) (cols : list string) (c : string) :
  In c cols ->
  column_index c (tbl_columns t) = None ->
  exists m, for_each (resolve_column t) cols = Raise (OperationalError m).
Proof.
  intros Hin Hc. induction cols as [| x cols IH]; [destruct Hin |].
  cbn [for_each]. unfold resolve_column at 1.
  destruct (column_index x (tbl_columns t)) as [i |] eqn:Ex.
  - destruct Hin as [-> | Hin]; [congruence |].
    destruct (IH Hin) as [m Hm]. rewrite Hm. eauto.
  - eauto.
Qed.

Lemma select_from_missing_column (name : string) (cols : list string)
    (db : database) (t : table) (c : string) :
  find_table name db = Ok t ->
  In c cols ->
  column_index c (tbl_columns t) = None ->
  exists m, select_from name cols db = Raise (OperationalError m).
Proof.
  intros Ht Hin Hc. unfold select_from. rewrite Ht. cbn [rbind].
  destruct (for_each_resolve_missing t cols c Hin Hc) as [m Hm].
  rewrite Hm. cbn [rbind]. eauto.
Qed.

Section ContainerSections.
Context {caps : Capabilities}.

(** X3. [parse_stream] reads the YAML block at offset 32 and the store from
    [sqlite_offset] to the end, and nothing else: two inputs that agree on
    the first 32 bytes, on the YAML block and from [sqlite_offset] on have
    the same outcome, whatever lies between the YAML block and the store. *)
Theorem bytes_between_sections_ignored (a b : bytes) :
  firstn 32 a = firstn 32 b ->
  (forall h, fst (_read_header (mkStream a 0)) = Ok h ->
     firstn (Z.to_nat (yaml_length h)) (skipn 32 a)
       = firstn (Z.to_nat (yaml_length h)) (skipn 32 b)
     /\ skipn (Z.to_nat (sqlite_offset h)) a = skipn (Z.to_nat (sqlite_offset h)) b) ->
  fst (parse_stream (mkStream a 0)) = fst (parse_stream (mkStream b 0)).
Proof.
  intros Hh Hrest. rewrite !parse_stream_outcome. f_equal.
  unfold parse_outcome. rewrite <- (header_outcome_prefix a b Hh).
  destruct (header_outcome a) as [h | e] eqn:E; [| reflexivity].
  cbn [rbind].
  destruct (Hrest h) as [Hy Hs]; [now rewrite read_header_outcome |].
  unfold yaml_section_outcome. rewrite Hy, Hs. reflexivity.
Qed.

(** X4. A header that announces more YAML bytes than follow it makes the
    parse fail with the [LLMCFormatError] of an incomplete YAML section. *)
Theorem incomplete_yaml_section_rejected (a : bytes) (h : header) :
  fst (_read_header (mkStream a 0)) = Ok h ->
  (Z.of_nat (length a - 32) < yaml_length h)%Z ->
  fst (parse_stream (mkStream a 0))
  = Raise (LLMCFormatError "Incomplete YAML section").
Proof.
  intros Hh Hlen. rewrite read_header_outcome in Hh.
  rewrite parse_stream_outcome. unfold parse_outcome. rewrite Hh. cbn [rbind].
  unfold yaml_section_outcome.
  replace (Z.of_nat (length (firstn (Z.to_nat (yaml_length h)) (skipn 32 a)))
           =? yaml_length h)%Z with false; [reflexivity |].
  symmetry. apply Z.eqb_neq.
  rewrite length_firstn, length_skipn. lia.
Qed.

(** X5. A YAML block that is complete but is not well-formed UTF-8 makes the
    parse fail with a [LLMCFormatError]. *)
Theorem invalid_utf8_yaml_rejected (a : bytes) (h : header) :
  fst (_read_header (mkStream a 0)) = Ok h ->
  (32 + yaml_length h <= Z.of_nat (length a))%Z ->
  utf8_valid (firstn (Z.to_nat (yaml_length h)) (skipn 32 a)) = false ->
  exists msg,
    fst (parse_stream (mkStream a 0))
    = Raise (LLMCFormatError ("Invalid UTF-8 in YAML section: " ++ msg)%string).
Proof.
  intros Hh Hlen Hv. rewrite read_header_outcome in Hh.
  destruct (header_outcome_nonneg a h Hh) as [Hy _].
  rewrite parse_stream_outcome. unfold parse_outcome. rewrite Hh. cbn [rbind].
  unfold yaml_section_outcome.
  replace (Z.of_nat (length (firstn (Z.to_nat (yaml_length h)) (skipn 32 a)))
           =? yaml_length h)%Z with true.
  2: { symmetry. apply Z.eqb_eq. rewrite length_firstn, length_skipn. lia. }
  cbn [negb]. unfold utf8_decode. rewrite Hv. cbn [rbind wrap_parse_error].
  eexists. reflexivity.
Qed.

End ContainerSections.

(** X6. Zero bytes in front of the YAML text are dropped: a block of [k]
    zero bytes followed by the well-formed UTF-8 text [yb] is read as the
    stripped text of [yb] alone. *)
Theorem yaml_leading_nuls_dropped (k : nat) (yb rest : bytes) :
  utf8_valid yb = true ->
  fst (_read_yaml_section (Z.of_nat (k + length yb))
         (mkStream (repeat x00 k ++ yb ++ rest) 0))
  = Ok (strip_yaml_text (string_of_list_byte yb)).
Proof.
  intros Hv. unfold _read_yaml_section, bind, stream_read.
  cbn [content position skipn]. rewrite Nat2Z.id.
  assert (E : firstn (k + length yb) (repeat x00 k ++ yb ++ rest)
              = repeat x00 k ++ yb).
  { rewrite app_assoc.
    replace (k + length yb) with (length (repeat x00 k ++ yb) + 0)
      by (rewrite length_app, repeat_length; lia).
    rewrite firstn_app_2. cbn [firstn]. now rewrite app_nil_r. }
  rewrite E, length_app, repeat_length, Z.eqb_refl. cbn [negb].
  unfold utf8_decode. rewrite utf8_valid_repeat_nul, Hv.
  cbn [ret fst]. f_equal. unfold strip_yaml_text.
  rewrite !list_byte_of_string_of_list_byte. now rewrite lstrip_nul_repeat.
Qed.

Section MissingTables.
Context {caps : Capabilities}.

(** X7. A store that opens and carries the application id but has no
    [messages] table is refused with the [LLMCFormatError] of an unsupported
    schema: both message queries fail, and the failure of the second is
    reported. *)
Theorem missing_messages_table_rejected (data : bytes) (db : database) :
  db_open data = Ok db ->
  application_id db = SQLITE_APPLICATION_ID ->
  ~ In "messages" (map fst (tables db)) ->
  _parse_sqlite_data data
  = Raise (LLMCFormatError "Unsupported database schema: no such table: messages").
Proof.
  intros Ho Hid Hm. unfold _parse_sqlite_data. rewrite Ho. cbn [rbind].
  rewrite Hid, Z.eqb_refl. cbn [negb].
  unfold _parse_messages, select_messages_joined, select_messages_plain, select_from.
  rewrite (find_table_missing "messages" db Hm).
  cbn [rbind try_except is_OperationalError exn_str].
  reflexivity.
Qed.

(** X8. [_parse_attachments] returns no attachment, and no error, when the
    store has no [attachments] table, and also when that table has neither
    a [checksum] nor a [created_at] column: both attachment queries fail
    and the rows of the table are dropped. *)
Theorem unreadable_attachments_dropped (db : database) :
  (~ In "attachments" (map fst (tables db)) -> _parse_attachments db = Ok [])
  /\ (forall t,
        find_table "attachments" db = Ok t ->
        column_index "checksum" (tbl_columns t) = None ->
        column_index "created_at" (tbl_columns t) = None ->
        _parse_attachments db = Ok []).
Proof.
  split.
  - intros H. unfold _parse_attachments, select_from.
    rewrite (find_table_missing "attachments" db H). reflexivity.
  - intros t Ht Hc Hd. unfold _parse_attachments.
    destruct (select_from_missing_column "attachments"
                ["id"; "filename"; "content_type"; "size"; "data"; "checksum";
                 "metadata"] db t "checksum" Ht) as [m1 E1];
      [simpl; tauto | exact Hc |].
    destruct (select_from_missing_column "attachments"
                ["id"; "filename"; "content_type"; "size"; "data"; "created_at";
                 "metadata"] db t "created_at" Ht) as [m2 E2];
      [simpl; tauto | exact Hd |].
    rewrite E1. cbn [rbind try_except is_OperationalError].
    rewrite E2. reflexivity.
Qed.

End MissingTables.

(** ** Failures of the writer *)

Lemma struct_pack_fails (f : struct_fmt) (v : Z) :
  (v < 0 \/ 256 ^ Z.of_nat (fmt_size f) <= v)%Z ->
  struct_pack f v = Raise (struct_error "argument out of range").
Proof.
  intros H. unfold struct_pack.
  destruct (0 <=? v)%Z eqn:E1; [| reflexivity].
  destruct (v <? 256 ^ Z.of_nat (fmt_size f))%Z eqn:E2; [| reflexivity].
  apply Z.leb_le in E1. apply Z.ltb_lt in E2. lia.
Qed.

(** [_write_header] succeeds at any stream position when the two numbers
    fit their fields. *)
Lemma write_header_succeeds (yl so : Z) (s : BinaryIO) :
  (0 <= yl < 2 ^ 32)%Z -> (0 <= so < 2 ^ 64)%Z ->
  fst (_write_header yl so s) = Ok tt.
Proof.
  intros Hyl Hso. unfold _write_header, bind, lift.
  rewrite (struct_pack_ok fmt_I yl) by (cbn [fmt_size]; lia).
  rewrite (struct_pack_ok fmt_Q so) by (cbn [fmt_size]; lia).
  reflexivity.
Qed.

Lemma insert_all_app (ins : database -> pyval -> result database)
    (conn : database) (xs ys : list pyval) :
  insert_all ins conn (xs ++ ys)
  = (conn' <- insert_all ins conn xs ;; insert_all ins conn' ys)%result.
Proof.
  revert conn. induction xs as [| x xs IH]; intros conn; cbn [app insert_all rbind].
  - reflexivity.
  - destruct (ins conn x) as [c |]; cbn [rbind]; [apply IH | reflexivity].
Qed.

Lemma existsb_key_true (key : sqlval) (rows : list sqlrow) :
  In key (map (cell 0) rows) ->
  key <> SNull ->
  existsb (fun r => sql_equal (cell 0 r) key) rows = true.
Proof.
  intros Hin Hnn. apply existsb_exists.
  apply in_map_iff in Hin as (r & E & Hr). exists r. split; [exact Hr |].
  rewrite E. unfold sql_equal, sqlval_eqb.
  destruct key; try congruence;
    match goal with
    | |- (if ?d then _ else _) = true => destruct d; [reflexivity | congruence]
    end.
Qed.

(** A row whose key is already stored violates the primary key. *)
Lemma insert_row_messages_duplicate (rows : list sqlrow) (at_ : table)
    (id role content ts : string) (p a j : sqlval) :
  null_or_text p -> null_or_text a -> null_or_text j ->
  In (SText id) (map (cell 0) rows) ->
  insert_row "messages" [SText id; SText role; SText content; SText ts; p; a; j]
    (store_of (mkTable messages_columns rows) at_)
  = Raise (IntegrityError "UNIQUE constraint failed: messages.id").
Proof.
  intros Hp Ha Hj Hin.
  set (row := [SText id; SText role; SText content; SText ts; p; a; j]).
  unfold insert_row, store_of, find_table.
  cbn [find tables fst snd String.eqb Ascii.eqb Bool.eqb rbind tbl_columns tbl_rows].
  assert (Erow : map (fun cv => apply_affinity (col_affinity (fst cv)) (snd cv))
                     (combine messages_columns row) = row).
  { subst row. unfold messages_columns. cbn [combine map col_affinity fst snd].
    now rewrite !affinity_text_keeps by (assumption || right; eauto). }
  rewrite Erow.
  replace (notnull_violation messages_columns row) with (@None string)
    by (subst row; reflexivity).
  assert (Eu : unique_violation messages_columns 0 row rows = Some "id"%string).
  { unfold messages_columns. cbn [unique_violation col_pk andb].
    subst row. cbn [cell nth].
    now rewrite (existsb_key_true (SText id) rows Hin) by discriminate. }
  rewrite Eu. reflexivity.
Qed.

Section WriterFailures.
Context {caps : Capabilities}.

(** X9. The two entry points turn every [Exception] into an error of the
    package: an [Exception] that leaves [parse_stream] is a
    [LLMCParseError] or a [LLMCFormatError], one that leaves [write_stream]
    is a [LLMCValidationError] or a [LLMCFormatError], whatever the services
    raise inside. What is no [Exception] is not theirs to handle: raised by
    the YAML loader on the text of a container, it leaves [parse_stream] as
    it is. *)
Theorem entry_points_raise_package_errors (c : pyval) (s : BinaryIO) (e : exn) :
  (is_Exception e = true ->
   (fst (parse_stream s) = Raise e ->
    exists m, e = LLMCParseError m \/ e = LLMCFormatError m)
   /\ (fst (write_stream c s) = Raise e ->
       exists m, e = LLMCValidationError m \/ e = LLMCFormatError m))
  /\ (is_Exception e = false ->
      forall a h text,
        header_outcome a = Ok h ->
        yaml_section_outcome a (yaml_length h) = Ok text ->
        yaml_safe_load text = Raise e ->
        fst (parse_stream (mkStream a 0)) = Raise e).
Proof.
  split.
  - intros He. split.
    + unfold parse_stream, io_try.
      match goal with
      | |- context [match ?m s with _ => _ end] => destruct (m s) as [[x | e0] s1]
      end.
      * discriminate.
      * destruct (is_Exception e0) eqn:E0.
        -- destruct e0; cbn [is_parse_or_format_error throw fst];
             intros H; injection H as <-; eauto; discriminate.
        -- cbn [fst]. intros H. injection H as <-. congruence.
    + unfold write_stream, io_try.
      match goal with
      | |- context [match ?m s with _ => _ end] => destruct (m s) as [[x | e0] s1]
      end.
      * discriminate.
      * destruct (is_Exception e0) eqn:E0.
        -- destruct e0; cbn [is_validation_or_format_error throw fst];
             intros H; injection H as <-; eauto; discriminate.
        -- cbn [fst]. intros H. injection H as <-. congruence.
  - intros He a h text Hh Hy Hl.
    rewrite parse_stream_outcome. unfold parse_outcome.
    rewrite Hh. cbn [rbind]. rewrite Hy. cbn [rbind].
    unfold _parse_metadata. rewrite Hl. cbn [rbind try_except].
    replace (is_YAMLError e) with false by (destruct e; reflexivity || discriminate).
    cbn [rbind wrap_parse_error]. now rewrite He.
Qed.

(** A failure before the first write: the stream is as it was, and the
    handler of [write_stream] decides what is raised. *)
Lemma write_stream_generation_failure (c : pyval) (s : BinaryIO) (e : exn) :
  generated_sections c = Raise e ->
  write_stream c s = (Raise (wrap_write_error e), s).
Proof.
  unfold generated_sections, write_stream, wrap_write_error, io_try, bind, lift.
  intros H.
  destruct (_validate_conversation c) as [[] | e0]; cbn [rbind] in H.
  2: { injection H as ->.
       destruct (is_Exception e); [destruct (is_validation_or_format_error e) |];
         reflexivity. }
  destruct (py_getitem c "metadata") as [md | e0]; cbn [rbind] in H.
  2: { injection H as ->.
       destruct (is_Exception e); [destruct (is_validation_or_format_error e) |];
         reflexivity. }
  destruct (_generate_yaml md) as [text | e0]; cbn [rbind] in H.
  2: { injection H as ->.
       destruct (is_Exception e); [destruct (is_validation_or_format_error e) |];
         reflexivity. }
  destruct (_generate_sqlite c) as [image | e0]; cbn [rbind] in H.
  2: { injection H as ->.
       destruct (is_Exception e); [destruct (is_validation_or_format_error e) |];
         reflexivity. }
  discriminate.
Qed.

(** X10. Validation, the YAML text and the whole store are produced before
    the first byte is written: when one of these steps fails, [write_stream]
    raises what its handler makes of the failure and leaves the stream as it
    was, content and position; so a failed write that did change the stream
    failed in its output steps, with both sections generated. *)
Theorem failed_generation_leaves_stream (c : pyval) (s : BinaryIO) :
  (forall e, generated_sections c = Raise e ->
     write_stream c s = (Raise (wrap_write_error e), s))
  /\ (forall e s', write_stream c s = (Raise e, s') -> s' <> s ->
        exists yaml_bytes image, generated_sections c = Ok (yaml_bytes, image)).
Proof.
  split.
  - intros e. apply write_stream_generation_failure.
  - intros e s' H Hs.
    destruct (generated_sections c) as [[yaml_bytes image] | e0] eqn:E.
    + eauto.
    + rewrite (write_stream_generation_failure c s e0 E) in H.
      injection H as _ <-. contradiction.
Qed.

End WriterFailures.

(** ** The header writer at its bounds *)

(** X11. [_write_header] followed by [_read_header]: when the two numbers fit
    their fields, the 32 bytes written decode to these numbers, with version
    and format revision 1, whatever follows the header. *)
Theorem header_roundtrip (yl so : Z) (rest : bytes) :
  (0 <= yl < 2 ^ 32)%Z -> (0 <= so < 2 ^ 64)%Z ->
  exists s',
    _write_header yl so (mkStream [] 0) = (Ok tt, s')
    /\ length (content s') = 32
    /\ position s' = 32
    /\ fst (_read_header (mkStream (content s' ++ rest) 0))
       = Ok (mkHeader 1 1 yl so).
Proof.
  intros Hyl Hso. eexists. split.
  - apply write_header_run; [reflexivity | exact Hyl | exact Hso].
  - cbn [content position app]. rewrite length_header_bytes.
    split; [reflexivity |]. split; [reflexivity |].
    rewrite read_header_outcome. now apply header_outcome_written.
Qed.

(** X12. A number that does not fit its field stops [_write_header] half
    way: with a YAML length outside 32 bits the packing fails after the
    first 12 bytes have been written, with a store offset outside 64 bits
    after the first 16. *)
Theorem header_field_overflow (yl so : Z) (s : BinaryIO) :
  at_end s ->
  ((yl < 0 \/ 2 ^ 32 <= yl)%Z ->
   exists msg s',
     _write_header yl so s = (Raise (struct_error msg), s')
     /\ content s' = content s ++ LLMC_MAGIC ++ [x01; x00; x00; x00]
                               ++ [x01; x00; x00; x00])
  /\ ((0 <= yl < 2 ^ 32)%Z -> (so < 0 \/ 2 ^ 64 <= so)%Z ->
      exists msg s',
        _write_header yl so s = (Raise (struct_error msg), s')
        /\ content s' = content s ++ LLMC_MAGIC ++ [x01; x00; x00; x00]
                                  ++ [x01; x00; x00; x00] ++ le_encode 4 yl).
Proof.
  intros Hs. split.
  - intros Hyl. unfold _write_header, bind, lift.
    rewrite (struct_pack_fails fmt_I yl) by (cbn [fmt_size]; lia).
    replace (struct_pack fmt_B LLMC_VERSION) with (Ok [x01] : result bytes)
      by reflexivity.
    replace (struct_pack fmt_I LLMC_FORMAT_VERSION) with (Ok (le_encode 4 1))
      by reflexivity.
    repeat (rewrite stream_write_at_end by (first [exact Hs | reflexivity]);
            cbn [content position]).
    eexists _, _. split; [reflexivity |]. cbn [content].
    rewrite <- !app_assoc. reflexivity.
  - intros Hyl Hso. unfold _write_header, bind, lift.
    rewrite (struct_pack_ok fmt_I yl) by (cbn [fmt_size]; lia).
    rewrite (struct_pack_fails fmt_Q so) by (cbn [fmt_size]; lia).
    replace (struct_pack fmt_B LLMC_VERSION) with (Ok [x01] : result bytes)
      by reflexivity.
    replace (struct_pack fmt_I LLMC_FORMAT_VERSION) with (Ok (le_encode 4 1))
      by reflexivity.
    repeat (rewrite stream_write_at_end by (first [exact Hs | reflexivity]);
            cbn [content position]).
    eexists _, _. split; [reflexivity |]. cbn [content fmt_size].
    rewrite <- !app_assoc. reflexivity.
Qed.

(** ** Rows that the store refuses *)

Section RefusedRows.
Context {caps : Capabilities}.

Lemma write_stream_store_failure (d : dict) (md : pyval) (text : string)
    (e : exn) (s : BinaryIO) :
  _validate_conversation (PDict d) = Ok tt ->
  dict_get "metadata" d = Some md ->
  yaml_dump md = Ok text ->
  _generate_sqlite (PDict d) = Raise e ->
  write_stream (PDict d) s =
    (Raise (if negb (is_Exception e) || is_validation_or_format_error e then e
            else LLMCFormatError ("Unexpected error during writing: " ++ exn_str e)%string),
     s).
Proof.
  intros Hv Hmd Hy Hg. unfold write_stream, io_try, bind, lift.
  rewrite Hv. cbn [py_getitem]. rewrite Hmd. unfold _generate_yaml. rewrite Hy.
  cbn [try_except]. rewrite Hg.
  destruct (is_Exception e); [destruct (is_validation_or_format_error e) |];
    reflexivity.
Qed.

(** The store generation up to the message loop. *)
Lemma generate_sqlite_messages_failure (d : dict) (msgs : list pyval) (e : exn) :
  dict_get "messages" d = Some (PList msgs) ->
  insert_all insert_message
    (store_of (mkTable messages_columns []) (mkTable attachments_columns [])) msgs
  = Raise e ->
  is_sqlite3_Error e = true ->
  _generate_sqlite (PDict d)
  = Raise (LLMCFormatError ("SQLite generation error: " ++ exn_str e)%string).
Proof.
  intros Hm Hi He. unfold _generate_sqlite.
  replace (_create_schema (mkDatabase SQLITE_APPLICATION_ID (tables empty_database)))
    with (Ok (store_of (mkTable messages_columns []) (mkTable attachments_columns [])))
    by reflexivity.
  cbn [rbind py_getitem]. rewrite Hm. cbn [rbind].
  unfold _insert_messages. cbn [py_iter rbind]. rewrite Hi.
  cbn [rbind try_except]. now rewrite He.
Qed.

(** X13. The text ids of messages have to be unique: among messages typed
    as in the data model, the first message whose [id] repeats the id of an
    earlier message is refused by the primary key of the store, and
    [write_stream] fails with a [LLMCFormatError] without writing a byte,
    although the conversation passes the pre-write check. *)
Theorem duplicate_message_id_rejected (d : dict) (md : pyval) (text : string)
    (before after : list pyval) (m : pyval) (s : BinaryIO) :
  _validate_conversation (PDict d) = Ok tt ->
  dict_get "metadata" d = Some md ->
  yaml_dump md = Ok text ->
  dict_get "messages" d = Some (PList (before ++ m :: after)) ->
  Forall storable_message before ->
  NoDup (map (text_field "id") before) ->
  storable_message m ->
  In (text_field "id" m) (map (text_field "id") before) ->
  write_stream (PDict d) s =
    (Raise (LLMCFormatError
              "SQLite generation error: UNIQUE constraint failed: messages.id"),
     s).
Proof.
  intros Hv Hmd Hy Hms Hb Hnd Hm Hin.
  rewrite (write_stream_store_failure d md text
             (LLMCFormatError
                "SQLite generation error: UNIQUE constraint failed: messages.id") s
             Hv Hmd Hy); [reflexivity |].
  apply (generate_sqlite_messages_failure d (before ++ m :: after)
           (IntegrityError "UNIQUE constraint failed: messages.id") Hms);
    [| reflexivity].
  rewrite insert_all_app.
  pose proof (insert_all_messages (mkTable attachments_columns []) before []
                (Forall_nil _) Hb Hnd) as Hi.
  cbn [map app] in Hi. rewrite Hi.
  cbn [rbind app insert_all].
  rewrite (insert_message_row _ m Hm).
  destruct (storable_message_row m Hm) as (role & content & p & a & j & E & Hp & Ha & Hj).
  rewrite E. rewrite insert_row_messages_duplicate; try assumption; [reflexivity |].
  rewrite (stored_keys_messages before Hb).
  apply in_map_iff in Hin as (x & Ex & Hx).
  apply in_map_iff. exists x. split; [now rewrite Ex | exact Hx].
Qed.

(** X14. An empty attachment list or empty metadata is stored as if the key
    were not there: the insertion of a message whose [attachments] or
    [metadata] is falsy is the insertion of the message without that key. *)
Theorem empty_optional_field_stored_as_absent (conn : database) (dm : dict)
    (k : string) (v : pyval) :
  In k ["attachments"; "metadata"] ->
  dict_get k dm = Some v ->
  py_truthy v = false ->
  insert_message conn (PDict dm) = insert_message conn (PDict (dict_pop k dm)).
Proof.
  intros Hk Hv Ht.
  assert (Hsame : optional_json (PDict (dict_pop k dm)) k = optional_json (PDict dm) k).
  { unfold optional_json. cbn [py_in py_getitem rbind]. unfold dict_in.
    rewrite Hv, dict_get_pop_same. cbn [rbind]. now rewrite Ht. }
  assert (Hjson : forall k', k' <> k ->
            optional_json (PDict (dict_pop k dm)) k' = optional_json (PDict dm) k').
  { intros k' Hne. unfold optional_json. cbn [py_in py_getitem rbind]. unfold dict_in.
    now rewrite dict_get_pop_other by exact Hne. }
  assert (Hitem : forall k', k' <> k ->
            py_getitem (PDict (dict_pop k dm)) k' = py_getitem (PDict dm) k').
  { intros k' Hne. cbn [py_getitem]. now rewrite dict_get_pop_other by exact Hne. }
  assert (Hget : forall k', k' <> k ->
            py_get (PDict (dict_pop k dm)) k' = py_get (PDict dm) k').
  { intros k' Hne. cbn [py_get]. now rewrite dict_get_pop_other by exact Hne. }
  unfold insert_message.
  destruct Hk as [<- | [<- | []]].
  - rewrite Hsame, Hjson, !Hitem, Hget by discriminate. reflexivity.
  - rewrite Hsame, Hjson, !Hitem, Hget by discriminate. reflexivity.
Qed.

End RefusedRows.

Lemma insert_row_messages_notnull (rows : list sqlrow) (at_ : table)
    (id : string) (r c t p a j : sqlval) (k : string) :
  null_or_text r -> null_or_text c -> null_or_text t ->
  null_or_text p -> null_or_text a -> null_or_text j ->
  notnull_violation messages_columns [SText id; r; c; t; p; a; j] = Some k ->
  insert_row "messages" [SText id; r; c; t; p; a; j]
    (store_of (mkTable messages_columns rows) at_)
  = Raise (IntegrityError ("NOT NULL constraint failed: messages." ++ k)%string).
Proof.
  intros Hr Hc Ht Hp Ha Hj Hk.
  set (row := [SText id; r; c; t; p; a; j]) in *.
  unfold insert_row, store_of, find_table.
  cbn [find tables fst snd String.eqb Ascii.eqb Bool.eqb rbind tbl_columns tbl_rows].
  assert (Erow : map (fun cv => apply_affinity (col_affinity (fst cv)) (snd cv))
                     (combine messages_columns row) = row).
  { subst row. unfold messages_columns. cbn [combine map col_affinity fst snd].
    now rewrite !affinity_text_keeps by (assumption || right; eauto). }
  rewrite Erow, Hk. reflexivity.
Qed.

Section NullFields.
Context {caps : Capabilities}.

(** X15. The pre-write check looks at the presence of the required message
    fields, not at their values: a message whose [role], [content] or
    [timestamp] is [None] passes it, is refused by the NOT NULL constraint
    of the store, and [write_stream] fails with a [LLMCFormatError] that
    names the column, without writing a byte. *)
Theorem null_required_field_rejected (d : dict) (md : pyval) (text : string)
    (before after : list pyval) (dm : dict) (k : string) (s : BinaryIO) :
  _validate_conversation (PDict d) = Ok tt ->
  dict_get "metadata" d = Some md ->
  yaml_dump md = Ok text ->
  dict_get "messages" d = Some (PList (before ++ PDict dm :: after)) ->
  Forall storable_message before ->
  NoDup (map (text_field "id") before) ->
  In k ["role"; "content"; "timestamp"] ->
  dict_get k dm = Some PNone ->
  (forall k', In k' required_message_fields -> k' <> k ->
              exists x, dict_get k' dm = Some (PStr x)) ->
  optional is_text dm "parent_id" ->
  optional json_faithful dm "attachments" ->
  optional json_faithful dm "metadata" ->
  write_stream (PDict d) s =
    (Raise (LLMCFormatError
              ("SQLite generation error: NOT NULL constraint failed: messages." ++ k)),
     s).
Proof.
  intros Hv Hmd Hy Hms Hb Hnd Hk Hnone Hreq Hp Ha Hj.
  rewrite (write_stream_store_failure d md text
             (LLMCFormatError
                ("SQLite generation error: NOT NULL constraint failed: messages." ++ k)) s
             Hv Hmd Hy); [reflexivity |].
  apply (generate_sqlite_messages_failure d (before ++ PDict dm :: after)
           (IntegrityError ("NOT NULL constraint failed: messages." ++ k)) Hms);
    [| reflexivity].
  rewrite insert_all_app.
  pose proof (insert_all_messages (mkTable attachments_columns []) before []
                (Forall_nil _) Hb Hnd) as Hi.
  cbn [map app] in Hi. rewrite Hi. clear Hi.
  cbn [rbind app insert_all].
  destruct (json_cell_faithful dm "attachments" Ha) as [Ea Hna].
  destruct (json_cell_faithful dm "metadata" Hj) as [Ej Hnj].
  assert (Hparent : exists p, py_get (PDict dm) "parent_id" = Ok (py_of_sql p)
                              /\ null_or_text p).
  { cbn [py_get]. unfold optional in Hp.
    destruct (dict_get "parent_id" dm) as [v |].
    - destruct Hp as [x ->]. exists (SText x). split; [reflexivity | right; eauto].
    - exists SNull. split; [reflexivity | now left]. }
  destruct Hparent as (p & Ep & Hnp).
  destruct (Hreq "id") as [id Hid]; [simpl; tauto | |].
  { intros E. subst k. cbn [In] in Hk. destruct Hk as [Hk | [Hk | [Hk | []]]]; discriminate. }
  unfold insert_message. rewrite Ea, Ej, Ep. cbn [rbind py_getitem].
  rewrite Hid. cbn [rbind].
  assert (Hfail : forall r c t,
            null_or_text r -> null_or_text c -> null_or_text t ->
            notnull_violation messages_columns
              [SText id; r; c; t; p; json_cell (PDict dm) "attachments";
               json_cell (PDict dm) "metadata"] = Some k ->
            (conn <- (values <- for_each bind_param
                        [PStr id; py_of_sql r; py_of_sql c; py_of_sql t; py_of_sql p;
                         py_of_sql (json_cell (PDict dm) "attachments");
                         py_of_sql (json_cell (PDict dm) "metadata")] ;;
                      insert_row "messages" values
                        (store_of (mkTable messages_columns (map row_of_message before))
                                  (mkTable attachments_columns []))) ;;
             insert_all insert_message conn after)%result
            = Raise (IntegrityError ("NOT NULL constraint failed: messages." ++ k))).
  { intros r c t Hr Hc Ht Hviol. cbn [for_each bind_param].
    rewrite !bind_null_or_text by assumption. cbn [rbind].
    now rewrite (insert_row_messages_notnull _ _ id r c t p _ _ k). }
  cbn [In] in Hk. destruct Hk as [<- | [<- | [<- | []]]].
  - destruct (Hreq "content") as [content Hc]; [simpl; tauto | discriminate |].
    destruct (Hreq "timestamp") as [ts Ht]; [simpl; tauto | discriminate |].
    rewrite Hnone, Hc, Ht. cbn [rbind].
    apply (Hfail SNull (SText content) (SText ts));
      [now left | right; eauto | right; eauto | reflexivity].
  - destruct (Hreq "role") as [role Hr]; [simpl; tauto | discriminate |].
    destruct (Hreq "timestamp") as [ts Ht]; [simpl; tauto | discriminate |].
    rewrite Hnone, Hr, Ht. cbn [rbind].
    apply (Hfail (SText role) SNull (SText ts));
      [right; eauto | now left | right; eauto | reflexivity].
  - destruct (Hreq "role") as [role Hr]; [simpl; tauto | discriminate |].
    destruct (Hreq "content") as [content Hc]; [simpl; tauto | discriminate |].
    rewrite Hnone, Hr, Hc. cbn [rbind].
    apply (Hfail (SText role) (SText content) SNull);
      [right; eauto | right; eauto | now left | reflexivity].
Qed.

End NullFields.

(** ** The order of the messages read back *)

Lemma insert_sorted_Permutation {A : Type} (leb : A -> A -> bool) (x : A)
    (l : list A) :
  Permutation (x :: l) (insert_sorted leb x l).
Proof.
  induction l as [| y l IH]; cbn [insert_sorted]; [reflexivity |].
  destruct (leb x y); [reflexivity |].
  rewrite perm_swap. now apply perm_skip.
Qed.

Lemma order_by_Permutation {A : Type} (key : A -> list sqlval) (l : list A) :
  Permutation l (order_by key l).
Proof.
  unfold order_by. induction l as [| x l IH]; cbn [fold_right]; [constructor |].
  rewrite <- insert_sorted_Permutation. now apply perm_skip.
Qed.

Lemma insert_sorted_map {A B : Type} (leb : B -> B -> bool) (f : A -> B) (x : A)
    (l : list A) :
  insert_sorted leb (f x) (map f l)
  = map f (insert_sorted (fun a b => leb (f a) (f b)) x l).
Proof.
  induction l as [| y l IH]; cbn [map insert_sorted]; [reflexivity |].
  destruct (leb (f x) (f y)); cbn [map]; [reflexivity | now rewrite IH].
Qed.

Lemma order_by_map {A B : Type} (key : B -> list sqlval) (f : A -> B) (l : list A) :
  order_by key (map f l) = map f (order_by (fun x => key (f x)) l).
Proof.
  unfold order_by. induction l as [| x l IH]; cbn [map fold_right]; [reflexivity |].
  rewrite IH. exact (insert_sorted_map (fun a b => keys_leb (key a) (key b)) f x _).
Qed.

Lemma keys_leb_texts (a b : string) :
  keys_leb [SText a] [SText b] = String.leb a b.
Proof.
  unfold keys_leb, String.leb. cbn [keys_compare sql_compare].
  destruct (String.compare a b); reflexivity.
Qed.

Lemma string_leb_total (a b : string) :
  String.leb a b = false -> String.leb b a = true.
Proof.
  unfold String.leb. rewrite (String.compare_antisym a b).
  destruct (String.compare b a); cbn [CompOpp]; congruence.
Qed.

Lemma insert_sorted_nondecreasing {A : Type} (key : A -> list sqlval)
    (text : A -> string) (x : A) (l : list A) :
  (forall y, In y (x :: l) -> key y = [SText (text y)]) ->
  nondecreasing (map text l) ->
  nondecreasing
    (map text (insert_sorted (fun a b => keys_leb (key a) (key b)) x l)).
Proof.
  intros Hkey. induction l as [| y l IH]; intros Hl.
  - cbn. auto.
  - cbn [insert_sorted].
    rewrite (Hkey x), (Hkey y), keys_leb_texts by (simpl; tauto).
    destruct (String.leb (text x) (text y)) eqn:E.
    + cbn [map nondecreasing] in *. auto.
    + cbn [map nondecreasing] in Hl. destruct Hl as [Hy Hl].
      assert (IH' := IH (fun z Hz => Hkey z ltac:(simpl in *; tauto)) Hl).
      cbn [map nondecreasing]. split; [| exact IH'].
      destruct l as [| z l'].
      * cbn [insert_sorted map]. now apply string_leb_total.
      * cbn [insert_sorted].
        destruct (keys_leb (key x) (key z)); cbn [map].
        -- now apply string_leb_total.
        -- exact Hy.
Qed.

(** The rows that [ORDER BY] returns under a text key are in
    non-decreasing order of that key. *)
Lemma order_by_nondecreasing {A : Type} (key : A -> list sqlval)
    (text : A -> string) (l : list A) :
  (forall x, In x l -> key x = [SText (text x)]) ->
  nondecreasing (map text (order_by key l)).
Proof.
  intros Hkey. induction l as [| x l IH]; [exact I |].
  change (order_by key (x :: l))
    with (insert_sorted (fun a b => keys_leb (key a) (key b)) x (order_by key l)).
  apply insert_sorted_nondecreasing.
  - intros y [<- | Hy]; [apply Hkey; now left |].
    apply Hkey. right. now apply order_by_In in Hy.
  - apply IH. intros y Hy. apply Hkey. now right.
Qed.

Section SortedRoundTrip.
Context {caps : Capabilities}.

(** The write-schema query and loop, which are all of
    [LLMD._parse_messages], on a store that the writer built: the messages
    come back ordered by timestamp, as the conversions of a reordering of
    the messages stored. *)
Lemma plain_messages_stored_sorted (msgs atts : list pyval) :
  Forall storable_message msgs ->
  exists sorted msgs',
    LLMD._parse_messages (stored msgs atts) = Ok msgs'
    /\ Permutation msgs sorted
    /\ nondecreasing (map (text_field "timestamp") sorted)
    /\ Forall2 (same_fields message_fields) sorted msgs'.
Proof.
  intros Hms.
  set (key := fun m => [cell 3 (row_of_message m)]).
  assert (Hkey : forall m, In m msgs -> key m = [SText (text_field "timestamp" m)]).
  { intros m Hm. rewrite Forall_forall in Hms.
    destruct (storable_message_row m (Hms m Hm)) as (? & ? & ? & ? & ? & E & _).
    unfold key. now rewrite E. }
  pose proof (order_by_Permutation key msgs) as Hperm.
  assert (Hsorted : Forall storable_message (order_by key msgs)).
  { rewrite Forall_forall in Hms |- *. intros m Hm. apply Hms.
    now apply order_by_In in Hm. }
  destruct (for_each_ok (fun m => message_of_plain_row (row_of_message m))
              (same_fields message_fields) (order_by key msgs)) as (msgs' & E & H2).
  { rewrite Forall_forall in Hsorted |- *. intros m Hm.
    exact (plain_row_of_message m (Hsorted m Hm)). }
  exists (order_by key msgs), msgs'.
  split; [| split; [exact Hperm | split; [| exact H2]]].
  - unfold LLMD._parse_messages.
    unfold select_messages_plain, select_from, stored, store_of, find_table.
    cbn [find tables fst snd String.eqb Ascii.eqb Bool.eqb rbind tbl_columns tbl_rows].
    replace (for_each (resolve_column (mkTable messages_columns (map row_of_message msgs)))
               ["id"; "role"; "content"; "timestamp"; "parent_id"; "attachments";
                "metadata"])
      with (Ok [0; 1; 2; 3; 4; 5; 6]) by reflexivity.
    cbn [rbind]. rewrite project_message_rows, order_by_map. fold key.
    now rewrite for_each_map, E.
  - now apply order_by_nondecreasing.
Qed.

(** On a store that the alternate-dialect query refuses, the LLMC parser
    returns the messages that the write-schema query and loop return. *)
Lemma parse_messages_write_schema (db : database) (msgs : list pyval) :
  (exists m, select_messages_joined db = Raise (OperationalError m)) ->
  LLMD._parse_messages db = Ok msgs ->
  _parse_messages db = Ok msgs.
Proof.
  intros [m Hj] Hp. unfold _parse_messages. rewrite Hj.
  cbn [rbind try_except is_OperationalError].
  unfold LLMD._parse_messages in Hp. now rewrite Hp.
Qed.

Lemma parse_messages_stored_sorted (msgs atts : list pyval) :
  Forall storable_message msgs ->
  exists sorted msgs',
    _parse_messages (stored msgs atts) = Ok msgs'
    /\ Permutation msgs sorted
    /\ nondecreasing (map (text_field "timestamp") sorted)
    /\ Forall2 (same_fields message_fields) sorted msgs'.
Proof.
  intros Hms.
  destruct (plain_messages_stored_sorted msgs atts Hms)
    as (sorted & msgs' & E & H1 & H2 & H3).
  exists sorted, msgs'. split; [| auto].
  apply parse_messages_write_schema; [| exact E].
  eexists. reflexivity.
Qed.

(** Writing a conversation that the writer stores field by field, and
    parsing the container: the messages that come back are the conversions
    of the messages written, sorted by timestamp. *)
Lemma roundtrip_sorted_core (c : pyval) (md : dict)
    (msgs atts : list pyval) (text : string) :
  write_ready c md msgs atts text ->
  db_open (db_file (stored msgs atts)) = Ok (stored msgs atts) ->
  write_stream c (mkStream [] 0) =
    (Ok tt, mkStream (container text (stored msgs atts))
                     (length (container text (stored msgs atts))))
  /\ exists sorted msgs' atts',
       parse_outcome (container text (stored msgs atts))
       = Ok (assemble (PDict md) (msgs', atts'))
       /\ Permutation msgs sorted
       /\ nondecreasing (map (text_field "timestamp") sorted)
       /\ Forall2 (same_fields message_fields) sorted msgs'
       /\ Forall2 (same_fields attachment_fields) atts atts'.
Proof.
  intros [(d & -> & Hmd & Hms & Hatts) Hall Hplain Hyaml Hstor Hnd Hxs Hndx] Hdb.
  pose proof Hyaml as (Hdump & Hvalid & Hlen & Hload).
  assert (Hgen : _generate_sqlite (PDict d) = Ok (db_file (stored msgs atts)))
    by (now apply generate_sqlite_stored).
  assert (Hhead := layout_header (list_byte_of_string text)
                     (db_file (stored msgs atts)) Hlen).
  split.
  { rewrite (write_stream_layout d (PDict md) text (db_file (stored msgs atts)));
      try assumption; try reflexivity.
    apply validate_accepts_valid. exists d, md, msgs.
    repeat (split; [assumption || reflexivity |]).
    rewrite Forall_forall in Hstor |- *. intros m Hm.
    apply storable_is_complete. now apply Hstor. }
  destruct (parse_messages_stored_sorted msgs atts Hstor)
    as (sorted & msgs' & Em & Hperm & Hsorted & Hm2).
  destruct (parse_attachments_stored msgs atts Hxs) as (atts' & Ea & Ha2).
  exists sorted, msgs', atts'.
  split; [| repeat split; assumption].
  unfold parse_outcome, container in *.
  rewrite Hhead. cbn [rbind yaml_length sqlite_offset].
  rewrite (layout_yaml_section text _ Hvalid). cbn [rbind].
  rewrite (parse_metadata_faithful md text Hyaml Hall Hplain). cbn [rbind].
  rewrite layout_store_slice. unfold _parse_sqlite_data.
  rewrite Hdb. cbn [rbind]. unfold stored at 1, store_of at 1. cbn [application_id].
  rewrite Z.eqb_refl. cbn [negb]. rewrite Em. cbn [rbind]. rewrite Ea.
  reflexivity.
Qed.

(** Records with the same fields have the same timestamps. *)
Lemma same_fields_timestamps (ms ms' : list pyval) :
  Forall2 (same_fields message_fields) ms ms' ->
  map (text_field "timestamp") ms' = map (text_field "timestamp") ms.
Proof.
  induction 1 as [| m m' ms ms' [Hsame _] _ IH]; [reflexivity |].
  cbn [map]. rewrite IH. f_equal. unfold text_field.
  rewrite (Hsame "timestamp") by (simpl; tauto). reflexivity.
Qed.

(** X16. Round trip without a condition on the order: for a conversation
    typed as in the data model with unique ids, whose optional fields are
    not empty, writing and parsing returns the same metadata and
    attachments and the same messages with the same fields, reordered so
    that their timestamps do not decrease. *)
Theorem roundtrip_returns_messages_by_timestamp (c : pyval) (md : dict)
    (msgs atts : list pyval) (text : string) :
  write_ready c md msgs atts text ->
  db_open (db_file (stored msgs atts)) = Ok (stored msgs atts) ->
  exists s' c' sorted,
    write_stream c (mkStream [] 0) = (Ok tt, s')
    /\ fst (parse_stream (mkStream (content s') 0)) = Ok c'
    /\ field c' "metadata" = Some (PDict md)
    /\ Permutation msgs sorted
    /\ Forall2 (same_fields message_fields) sorted (messages_of c')
    /\ nondecreasing (map (text_field "timestamp") (messages_of c'))
    /\ Forall2 (same_fields attachment_fields) atts (attachments_of c').
Proof.
  intros Hready Hdb.
  destruct (roundtrip_sorted_core c md msgs atts text Hready Hdb)
    as (Hw & sorted & msgs' & atts' & Hp & Hperm & Hsorted & Hm & Ha).
  eexists. exists (assemble (PDict md) (msgs', atts')), sorted.
  split; [exact Hw |]. cbn [content].
  rewrite parse_stream_outcome, Hp.
  destruct (assemble_fields (PDict md) msgs' atts') as (E1 & _ & E3 & E4).
  rewrite E3, E4.
  split; [reflexivity |]. split; [exact E1 |]. split; [exact Hperm |].
  split; [exact Hm |]. split; [| exact Ha].
  now rewrite (same_fields_timestamps sorted msgs' Hm).
Qed.

End SortedRoundTrip.


(** ** The LLMD package *)

Lemma LLMD_read_header_run (a : bytes) (s : BinaryIO) :
  at_offset a 0 s ->
  exists s', LLMD._read_header s = (LLMD_header_outcome a, s')
             /\ (forall h, LLMD_header_outcome a = Ok h -> at_offset a 24 s').
Proof.
  intros H0. unfold LLMD._read_header, LLMD_header_outcome, bind, lift, throw, ret.
  destruct (stream_read_at _ _ 4 _ H0) as (s1 & E1 & H1). rewrite E1. clear E1.
  change (skipn 0 a) with a.
  destruct (negb (bytes_eqb (firstn 4 a) LLMD.LLMD_MAGIC)).
  { eexists; split; [reflexivity | discriminate]. }
  destruct (stream_read_at _ _ 1 _ H1) as (s2 & E2 & H2). rewrite E2. clear E2.
  cbn [Nat.add] in *.
  destruct (struct_unpack fmt_B (firstn 1 (skipn 4 a))) as [v |] ; cbn [rbind].
  2: { eexists; split; [reflexivity | discriminate]. }
  destruct (negb (v =? LLMD.LLMD_VERSION)%Z).
  { eexists; split; [reflexivity | discriminate]. }
  destruct (stream_read_at _ _ 3 _ H2) as (s3 & E3 & H3). rewrite E3. clear E3.
  destruct (stream_read_at _ _ 4 _ H3) as (s4 & E4 & H4). rewrite E4. clear E4.
  cbn [Nat.add] in *.
  destruct (struct_unpack fmt_I (firstn 4 (skipn 8 a))) as [fv |]; cbn [rbind].
  2: { eexists; split; [reflexivity | discriminate]. }
  destruct (negb (fv =? 1)%Z).
  { eexists; split; [reflexivity | discriminate]. }
  destruct (stream_read_at _ _ 4 _ H4) as (s5 & E5 & H5). rewrite E5. clear E5.
  cbn [Nat.add] in *.
  destruct (struct_unpack fmt_I (firstn 4 (skipn 12 a))) as [yl |]; cbn [rbind].
  2: { eexists; split; [reflexivity | discriminate]. }
  destruct (stream_read_at _ _ 8 _ H5) as (s6 & E6 & H6). rewrite E6. clear E6.
  cbn [Nat.add] in *.
  destruct (struct_unpack fmt_Q (firstn 8 (skipn 16 a))) as [so |]; cbn [rbind].
  2: { eexists; split; [reflexivity | discriminate]. }
  eexists; split; [reflexivity | intros; exact H6].
Qed.

Lemma read_yaml_section_at (a : bytes) (n : Z) (k : nat) (s : BinaryIO) :
  at_offset a k s ->
  exists s', _read_yaml_section n s = (yaml_section_at k a n, s')
             /\ content s' = a.
Proof.
  intros H. unfold _read_yaml_section, yaml_section_at, bind, throw, ret.
  destruct (stream_read_at _ _ (Z.to_nat n) _ H) as (s1 & E1 & [Hc _]).
  rewrite E1. clear E1.
  destruct (negb _).
  - eexists; split; [reflexivity | exact Hc].
  - destruct (utf8_decode _); eexists; (split; [reflexivity | exact Hc]).
Qed.

Lemma length_LLMD_header_bytes (yl so : Z) : length (LLMD_header_bytes yl so) = 24.
Proof.
  unfold LLMD_header_bytes. rewrite !length_app, !length_le_encode. reflexivity.
Qed.

(** [LLMD._write_header] appends the 24 header bytes when the two numbers
    fit their fields. *)
Lemma LLMD_write_header_run (yl so : Z) (s : BinaryIO) :
  at_end s ->
  (0 <= yl < 2 ^ 32)%Z -> (0 <= so < 2 ^ 64)%Z ->
  LLMD._write_header yl so s =
    (Ok tt, mkStream (content s ++ LLMD_header_bytes yl so)
                     (length (content s ++ LLMD_header_bytes yl so))).
Proof.
  intros Hs Hyl Hso. unfold LLMD._write_header, bind, lift.
  rewrite (struct_pack_ok fmt_I yl) by (cbn [fmt_size]; lia).
  rewrite (struct_pack_ok fmt_Q so) by (cbn [fmt_size]; lia).
  replace (struct_pack fmt_B LLMD.LLMD_VERSION) with (Ok [x01] : result bytes)
    by reflexivity.
  replace (struct_pack fmt_I LLMD.LLMD_FORMAT_VERSION) with (Ok (le_encode 4 1))
    by reflexivity.
  repeat (rewrite stream_write_at_end by (first [exact Hs | reflexivity]);
          cbn [content position]).
  unfold LLMD_header_bytes. cbn [fmt_size]. rewrite <- !app_assoc. reflexivity.
Qed.

(** The LLMD header of a container decodes to the numbers it was written
    with. *)
Lemma LLMD_header_outcome_written (yl so : Z) (rest : bytes) :
  (0 <= yl < 2 ^ 32)%Z -> (0 <= so < 2 ^ 64)%Z ->
  LLMD_header_outcome (LLMD_header_bytes yl so ++ rest) = Ok (mkHeader 1 1 yl so).
Proof.
  intros Hyl Hso.
  assert (Hl4 : forall v, length (le_encode 4 v) = 4) by (intros; apply length_le_encode).
  assert (Hl8 : forall v, length (le_encode 8 v) = 8) by (intros; apply length_le_encode).
  set (pre := [x4c; x4c; x4d; x44; x01; x00; x00; x00] ++ le_encode 4 1).
  assert (E : LLMD_header_bytes yl so ++ rest
              = pre ++ le_encode 4 yl ++ (le_encode 8 so ++ rest)).
  { unfold LLMD_header_bytes, pre. cbn [LLMD.LLMD_MAGIC app].
    rewrite <- !app_assoc. reflexivity. }
  assert (Ey : firstn 4 (skipn 12 (LLMD_header_bytes yl so ++ rest)) = le_encode 4 yl).
  { rewrite E. replace 12 with (length pre) by (subst pre; rewrite length_app, Hl4; reflexivity).
    rewrite (firstn_skipn_app_mid pre (le_encode 4 yl)) by (rewrite Hl4; lia).
    rewrite <- (Hl4 yl) at 1. apply firstn_all. }
  assert (Es : firstn 8 (skipn 16 (LLMD_header_bytes yl so ++ rest)) = le_encode 8 so).
  { rewrite E, app_assoc.
    replace 16 with (length (pre ++ le_encode 4 yl))
      by (subst pre; rewrite !length_app, !Hl4; reflexivity).
    rewrite (firstn_skipn_app_mid (pre ++ le_encode 4 yl) (le_encode 8 so))
      by (rewrite Hl8; lia).
    rewrite <- (Hl8 so) at 1. apply firstn_all. }
  unfold LLMD_header_outcome. rewrite Ey, Es.
  unfold struct_unpack at 3 4. rewrite Hl4, Hl8. cbn [fmt_size Nat.eqb].
  rewrite !le_decode_encode by (cbn; lia).
  reflexivity.
Qed.

Lemma LLMD_layout_yaml_slice (yb image : bytes) :
  firstn (length yb) (skipn 24 (LLMD_layout yb image)) = yb.
Proof.
  unfold LLMD_layout.
  rewrite <- (length_LLMD_header_bytes (Z.of_nat (length yb))
                (24 + Z.of_nat (length yb))) at 1.
  rewrite firstn_skipn_app_mid by lia. apply firstn_all.
Qed.

Lemma LLMD_layout_store_slice (yb image : bytes) :
  skipn (Z.to_nat (24 + Z.of_nat (length yb))) (LLMD_layout yb image) = image.
Proof.
  unfold LLMD_layout. rewrite app_assoc.
  replace (Z.to_nat (24 + Z.of_nat (length yb)))
    with (length (LLMD_header_bytes (Z.of_nat (length yb))
                    (24 + Z.of_nat (length yb)) ++ yb))
    by (rewrite length_app, length_LLMD_header_bytes; lia).
  rewrite skipn_app, skipn_all, Nat.sub_diag. reflexivity.
Qed.

(** The operations on a connection do not look at the application id. *)
Lemma insert_row_with_id (id : Z) (name : string) (values : sqlrow) (db : database) :
  insert_row name values (with_application_id id db)
  = (db' <- insert_row name values db ;; Ok (with_application_id id db'))%result.
Proof.
  unfold insert_row, find_table, with_application_id. cbn [tables].
  destruct (find _ (tables db)) as [nt |]; cbn [rbind]; [| reflexivity].
  destruct (notnull_violation _ _); [reflexivity |].
  destruct (unique_violation _ _ _ _); reflexivity.
Qed.

Section LLMDStore.
Context {caps : Capabilities}.

Lemma insert_message_with_id (id : Z) (conn : database) (m : pyval) :
  insert_message (with_application_id id conn) m
  = (db' <- insert_message conn m ;; Ok (with_application_id id db'))%result.
Proof.
  unfold insert_message.
  repeat match goal with
         | |- (_ <- ?r ;; _)%result = _ => destruct r; cbn [rbind]; [| reflexivity]
         end.
  apply insert_row_with_id.
Qed.

Lemma insert_attachment_with_id (id : Z) (conn : database) (a : pyval) :
  insert_attachment (with_application_id id conn) a
  = (db' <- insert_attachment conn a ;; Ok (with_application_id id db'))%result.
Proof.
  unfold insert_attachment.
  repeat match goal with
         | |- (_ <- ?r ;; _)%result = _ => destruct r; cbn [rbind]; [| reflexivity]
         end.
  apply insert_row_with_id.
Qed.

Lemma insert_all_with_id (ins : database -> pyval -> result database) (id : Z) :
  (forall conn x,
     ins (with_application_id id conn) x
     = (db' <- ins conn x ;; Ok (with_application_id id db'))%result) ->
  forall xs conn,
    insert_all ins (with_application_id id conn) xs
    = (db' <- insert_all ins conn xs ;; Ok (with_application_id id db'))%result.
Proof.
  intros Hins. induction xs as [| x xs IH]; intros conn; cbn [insert_all rbind].
  - reflexivity.
  - rewrite Hins. destruct (ins conn x) as [c |]; cbn [rbind]; [apply IH | reflexivity].
Qed.

(** The store section that [LLMD._generate_sqlite] returns for storable
    messages and attachments. *)
Lemma LLMD_generate_sqlite_stored (d : dict) (msgs atts : list pyval) :
  dict_get "messages" d = Some (PList msgs) ->
  match dict_get "attachments" d with
  | Some v => v = PList atts
  | None => atts = []
  end ->
  Forall storable_message msgs ->
  NoDup (map (text_field "id") msgs) ->
  Forall storable_attachment atts ->
  NoDup (map (text_field "id") atts) ->
  LLMD._generate_sqlite (PDict d) = Ok (db_file (LLMD_stored msgs atts)).
Proof.
  intros Hm Ha Hms Hnd Hxs Hndx. unfold LLMD._generate_sqlite.
  replace (_create_schema (mkDatabase LLMD.SQLITE_APPLICATION_ID (tables empty_database)))
    with (Ok (with_application_id LLMD.SQLITE_APPLICATION_ID
                (store_of (mkTable messages_columns []) (mkTable attachments_columns []))))
    by reflexivity.
  cbn [rbind py_getitem py_in]. rewrite Hm. cbn [rbind].
  unfold _insert_messages. cbn [py_iter rbind].
  rewrite (insert_all_with_id insert_message _ (insert_message_with_id _)).
  pose proof (insert_all_messages (mkTable attachments_columns []) msgs []
                (Forall_nil _) Hms Hnd) as Hi.
  cbn [map app] in Hi. rewrite Hi. clear Hi.
  cbn [rbind]. unfold dict_in.
  destruct (dict_get "attachments" d) as [v |].
  - subst v. cbn [rbind]. unfold _insert_attachments. cbn [py_iter rbind].
    rewrite (insert_all_with_id insert_attachment _ (insert_attachment_with_id _)).
    pose proof (insert_all_attachments (mkTable messages_columns (map row_of_message msgs))
                  atts [] (Forall_nil _) Hxs Hndx) as Hi.
    cbn [map app] in Hi. rewrite Hi. reflexivity.
  - subst atts. reflexivity.
Qed.

End LLMDStore.

Section LLMDPipeline.
Context {caps : Capabilities}.

(** [LLMD.parse_stream] on a stream that holds [a] from its start. *)
Lemma LLMD_parse_stream_outcome (a : bytes) :
  fst (LLMD.parse_stream (mkStream a 0)) = wrap_parse_error (LLMD_parse_outcome a).
Proof.
  unfold LLMD.parse_stream, LLMD_parse_outcome, io_try, bind.
  destruct (LLMD_read_header_run _ _ (at_offset_start a)) as (s1 & E1 & H1).
  rewrite E1. clear E1.
  destruct (LLMD_header_outcome a) as [h | e]; cbn [rbind wrap_parse_error].
  2: { destruct (is_Exception e); [destruct (is_parse_or_format_error e) |]; reflexivity. }
  destruct (read_yaml_section_at a (yaml_length h) 24 s1 (H1 h eq_refl))
    as (s2 & E2 & Hc2).
  rewrite E2. clear E2.
  destruct (yaml_section_at 24 a (yaml_length h)) as [text | e];
    cbn [rbind wrap_parse_error].
  2: { destruct (is_Exception e); [destruct (is_parse_or_format_error e) |]; reflexivity. }
  unfold lift.
  destruct (LLMD._parse_metadata text) as [md | e]; cbn [rbind wrap_parse_error].
  2: { destruct (is_Exception e); [destruct (is_parse_or_format_error e) |]; reflexivity. }
  unfold stream_seek, stream_read_all. cbn [content position]. rewrite Hc2.
  destruct (LLMD._parse_sqlite_data _) as [parsed | e]; cbn [rbind wrap_parse_error].
  2: { destruct (is_Exception e); [destruct (is_parse_or_format_error e) |]; reflexivity. }
  unfold ret, assemble. cbn [fst]. reflexivity.
Qed.

Lemma LLMD_write_stream_layout (d : dict) (metadata : pyval) (text : string)
    (image : bytes) (s : BinaryIO) :
  _validate_conversation (PDict d) = Ok tt ->
  dict_get "metadata" d = Some metadata ->
  yaml_dump metadata = Ok text ->
  LLMD._generate_sqlite (PDict d) = Ok image ->
  (Z.of_nat (length (list_byte_of_string text)) < 2 ^ 32)%Z ->
  at_end s ->
  LLMD.write_stream (PDict d) s =
    (Ok tt,
     mkStream (content s ++ LLMD_layout (list_byte_of_string text) image)
              (length (content s ++ LLMD_layout (list_byte_of_string text) image))).
Proof.
  intros Hv Hmd Hy Hg Hlen Hs.
  unfold LLMD.write_stream, io_try, bind, lift. rewrite Hv.
  cbn [py_getitem]. rewrite Hmd. unfold _generate_yaml. rewrite Hy.
  cbn [try_except]. rewrite Hg.
  rewrite LLMD_write_header_run by (assumption || lia).
  rewrite stream_write_at_end by reflexivity. cbn [content position].
  rewrite stream_write_at_end by reflexivity. cbn [content position].
  unfold LLMD_layout. now rewrite <- !app_assoc.
Qed.

Lemma LLMD_parse_metadata_faithful (md : dict) (text : string) :
  yaml_faithful md text ->
  has_all required_metadata_fields md ->
  participants_plain md ->
  LLMD._parse_metadata (strip_yaml_text text) = Ok (PDict md).
Proof.
  intros (_ & _ & _ & Hload) Hall Hp. unfold LLMD._parse_metadata.
  rewrite Hload. cbn [rbind]. rewrite LLMD_normalize_unfold.
  assert (Hv : dict_in "version" md = true) by (apply Hall; simpl; tauto).
  apply dict_in_get in Hv as [v Hv].
  rewrite (rename_legacy_keeps_canonical "llmd_version" _ _ _ Hv).
  now rewrite normalize_metadata_canonical.
Qed.

Lemma LLMD_parse_attachments_stored (msgs atts : list pyval) :
  Forall storable_attachment atts ->
  exists atts',
    LLMD._parse_attachments (stored msgs atts) = Ok atts'
    /\ Forall2 (same_fields attachment_fields) atts atts'.
Proof.
  intros Hxs.
  destruct (for_each_ok (fun a => attachment_of_plain_row (row_of_attachment a))
              (same_fields attachment_fields) atts) as (atts' & E & H2).
  { rewrite Forall_forall in Hxs |- *. intros a Ha.
    exact (plain_row_of_attachment a (Hxs a Ha)). }
  exists atts'. split; [| exact H2].
  unfold LLMD._parse_attachments, select_from, stored, store_of, find_table.
  cbn [find tables fst snd String.eqb Ascii.eqb Bool.eqb rbind tbl_columns tbl_rows].
  replace (for_each
             (resolve_column (mkTable attachments_columns (map row_of_attachment atts)))
             ["id"; "filename"; "content_type"; "size"; "data"; "created_at"; "metadata"])
    with (Ok [0; 1; 2; 3; 4; 5; 6]) by reflexivity.
  cbn [rbind]. rewrite project_attachment_rows.
  now rewrite for_each_map, E.
Qed.

(** X17. Round trip through the LLMD package, whose header has 24 bytes:
    for a conversation typed as in the data model with unique ids, whose
    optional fields are not empty, [LLMD.write_stream] succeeds and
    [LLMD.parse_stream] on the written bytes returns the same metadata and
    attachments and the same messages with the same fields, in
    non-decreasing order of their timestamps. *)
Theorem LLMD_roundtrip (c : pyval) (md : dict) (msgs atts : list pyval)
    (text : string) :
  write_ready c md msgs atts text ->
  db_open (db_file (LLMD_stored msgs atts)) = Ok (LLMD_stored msgs atts) ->
  exists s' c' sorted,
    LLMD.write_stream c (mkStream [] 0) = (Ok tt, s')
    /\ length (content s')
       = 24 + length (list_byte_of_string text) + length (db_file (LLMD_stored msgs atts))
    /\ fst (LLMD.parse_stream (mkStream (content s') 0)) = Ok c'
    /\ field c' "metadata" = Some (PDict md)
    /\ Permutation msgs sorted
    /\ Forall2 (same_fields message_fields) sorted (messages_of c')
    /\ nondecreasing (map (text_field "timestamp") (messages_of c'))
    /\ Forall2 (same_fields attachment_fields) atts (attachments_of c').
Proof.
  intros [(d & -> & Hmd & Hms & Hatts) Hall Hplain Hyaml Hstor Hnd Hxs Hndx] Hdb.
  pose proof Hyaml as (Hdump & Hvalid & Hlen & Hload).
  assert (Hgen : LLMD._generate_sqlite (PDict d) = Ok (db_file (LLMD_stored msgs atts)))
    by (now apply LLMD_generate_sqlite_stored).
  destruct (plain_messages_stored_sorted msgs atts Hstor)
    as (sorted & msgs' & Em & Hperm & Hsorted & Hm2).
  destruct (LLMD_parse_attachments_stored msgs atts Hxs) as (atts' & Ea & Ha2).
  eexists. exists (assemble (PDict md) (msgs', atts')), sorted.
  split.
  { rewrite (LLMD_write_stream_layout d (PDict md) text (db_file (LLMD_stored msgs atts)));
      try assumption; try reflexivity.
    apply validate_accepts_valid. exists d, md, msgs.
    repeat (split; [assumption || reflexivity |]).
    rewrite Forall_forall in Hstor |- *. intros m Hm.
    apply storable_is_complete. now apply Hstor. }
  cbn [content app].
  split.
  { unfold LLMD_layout.
    rewrite !length_app, length_LLMD_header_bytes. lia. }
  destruct (assemble_fields (PDict md) msgs' atts') as (E1 & _ & E3 & E4).
  rewrite E3, E4.
  split.
  { rewrite LLMD_parse_stream_outcome. unfold LLMD_parse_outcome.
    unfold LLMD_layout at 1.
    rewrite LLMD_header_outcome_written by lia.
    fold (LLMD_layout (list_byte_of_string text) (db_file (LLMD_stored msgs atts))).
    cbn [rbind yaml_length sqlite_offset].
    unfold yaml_section_at. rewrite Nat2Z.id, LLMD_layout_yaml_slice.
    rewrite Z.eqb_refl. cbn [negb]. unfold utf8_decode. rewrite Hvalid.
    rewrite string_of_list_byte_of_string. cbn [rbind].
    rewrite (LLMD_parse_metadata_faithful md text Hyaml Hall Hplain). cbn [rbind].
    rewrite LLMD_layout_store_slice. unfold LLMD._parse_sqlite_data.
    rewrite Hdb. cbn [rbind].
    unfold LLMD_stored at 1, with_application_id at 1. cbn [application_id].
    rewrite Z.eqb_refl. cbn [negb].
    change (LLMD._parse_messages (LLMD_stored msgs atts))
      with (LLMD._parse_messages (stored msgs atts)).
    change (LLMD._parse_attachments (LLMD_stored msgs atts))
      with (LLMD._parse_attachments (stored msgs atts)).
    rewrite Em. cbn [rbind]. rewrite Ea.
    reflexivity. }
  split; [exact E1 |]. split; [exact Hperm |]. split; [exact Hm2 |].
  split; [| exact Ha2].
  now rewrite (same_fields_timestamps sorted msgs' Hm2).
Qed.

End LLMDPipeline.

Section CrossFormat.
Context {caps : Capabilities}.

(** What a successful [write_stream] on an empty stream has written starts
    with the magic of its package. *)
Lemma write_stream_magic (c : pyval) (s' : BinaryIO) :
  write_stream c (mkStream [] 0) = (Ok tt, s') ->
  firstn 4 (content s') = LLMC_MAGIC.
Proof.
  unfold write_stream, io_try, bind, lift.
  destruct (_validate_conversation c) as [[] | e0].
  2: { destruct (is_Exception e0); [destruct (is_validation_or_format_error e0) |]; discriminate. }
  destruct (py_getitem c "metadata") as [md | e0].
  2: { destruct (is_Exception e0); [destruct (is_validation_or_format_error e0) |]; discriminate. }
  destruct (_generate_yaml md) as [text | e0].
  2: { destruct (is_Exception e0); [destruct (is_validation_or_format_error e0) |]; discriminate. }
  destruct (_generate_sqlite c) as [image | e0].
  2: { destruct (is_Exception e0); [destruct (is_validation_or_format_error e0) |]; discriminate. }
  set (yl := Z.of_nat (length (list_byte_of_string text))).
  destruct (Z_lt_dec yl (2 ^ 32)) as [Hlt | Hge].
  - rewrite write_header_run by (reflexivity || lia).
    rewrite stream_write_at_end by reflexivity. cbn [content position].
    rewrite stream_write_at_end by reflexivity. cbn [content position].
    intros H. injection H as <-. reflexivity.
  - unfold _write_header, bind, lift.
    rewrite (struct_pack_fails fmt_I yl) by (cbn [fmt_size]; lia).
    replace (struct_pack fmt_B LLMC_VERSION) with (Ok [x01] : result bytes)
      by reflexivity.
    replace (struct_pack fmt_I LLMC_FORMAT_VERSION) with (Ok (le_encode 4 1))
      by reflexivity.
    unfold stream_write. discriminate.
Qed.

Lemma LLMD_write_stream_magic (c : pyval) (s' : BinaryIO) :
  LLMD.write_stream c (mkStream [] 0) = (Ok tt, s') ->
  firstn 4 (content s') = LLMD.LLMD_MAGIC.
Proof.
  unfold LLMD.write_stream, io_try, bind, lift.
  destruct (_validate_conversation c) as [[] | e0].
  2: { destruct (is_Exception e0); [destruct (is_validation_or_format_error e0) |]; discriminate. }
  destruct (py_getitem c "metadata") as [md | e0].
  2: { destruct (is_Exception e0); [destruct (is_validation_or_format_error e0) |]; discriminate. }
  destruct (_generate_yaml md) as [text | e0].
  2: { destruct (is_Exception e0); [destruct (is_validation_or_format_error e0) |]; discriminate. }
  destruct (LLMD._generate_sqlite c) as [image | e0].
  2: { destruct (is_Exception e0); [destruct (is_validation_or_format_error e0) |]; discriminate. }
  set (yl := Z.of_nat (length (list_byte_of_string text))).
  destruct (Z_lt_dec yl (2 ^ 32)) as [Hlt | Hge].
  - rewrite LLMD_write_header_run by (reflexivity || lia).
    rewrite stream_write_at_end by reflexivity. cbn [content position].
    rewrite stream_write_at_end by reflexivity. cbn [content position].
    intros H. injection H as <-. reflexivity.
  - unfold LLMD._write_header, bind, lift.
    rewrite (struct_pack_fails fmt_I yl) by (cbn [fmt_size]; lia).
    replace (struct_pack fmt_B LLMD.LLMD_VERSION) with (Ok [x01] : result bytes)
      by reflexivity.
    replace (struct_pack fmt_I LLMD.LLMD_FORMAT_VERSION) with (Ok (le_encode 4 1))
      by reflexivity.
    unfold stream_write. discriminate.
Qed.

(** X18. The two packages do not read each other's files: whatever
    [LLMD.write_stream] writes is refused by the LLMC [parse_stream] for its
    magic bytes, and whatever the LLMC [write_stream] writes is refused by
    [LLMD.parse_stream] (with the format error of the LLMD package, which
    is written with the constructor of the LLMC one). *)
Theorem packages_refuse_each_other (c : pyval) (s' : BinaryIO) :
  (LLMD.write_stream c (mkStream [] 0) = (Ok tt, s') ->
   fst (parse_stream (mkStream (content s') 0))
   = Raise (LLMCFormatError "Invalid magic bytes: b'LLMD'"))
  /\ (write_stream c (mkStream [] 0) = (Ok tt, s') ->
      fst (LLMD.parse_stream (mkStream (content s') 0))
      = Raise (LLMCFormatError "Invalid magic bytes: b'LLMC'")).
Proof.
  split; intros H.
  - apply LLMD_write_stream_magic in H.
    rewrite (parse_stream_header_error (content s')
               (LLMCFormatError "Invalid magic bytes: b'LLMD'")); [reflexivity |].
    rewrite header_bad_magic by (rewrite H; discriminate).
    now rewrite H.
  - apply write_stream_magic in H.
    rewrite LLMD_parse_stream_outcome. unfold LLMD_parse_outcome, LLMD_header_outcome.
    rewrite H. reflexivity.
Qed.

(** X19. On a store that is not in the alternate dialect (both
    alternate-dialect queries are refused), the LLMC parser returns the
    messages and the attachments that the LLMD parser returns. *)
Theorem parsers_agree_on_write_schema (db : database) (msgs atts : list pyval) :
  (exists m, select_messages_joined db = Raise (OperationalError m)) ->
  (exists m, select_from "attachments"
               ["id"; "filename"; "content_type"; "size"; "data"; "checksum";
                "metadata"] db = Raise (OperationalError m)) ->
  LLMD._parse_messages db = Ok msgs ->
  LLMD._parse_attachments db = Ok atts ->
  _parse_messages db = Ok msgs /\ _parse_attachments db = Ok atts.
Proof.
  intros Hj [m Ha] Hm Hx. split.
  - now apply parse_messages_write_schema.
  - unfold _parse_attachments. rewrite Ha.
    cbn [rbind try_except is_OperationalError].
    unfold LLMD._parse_attachments in Hx.
    destruct (select_from "attachments"
                ["id"; "filename"; "content_type"; "size"; "data"; "created_at";
                 "metadata"] db) as [rows | e] eqn:E;
      cbn [rbind try_except].
    + now rewrite Hx.
    + destruct (is_OperationalError e); [exact Hx | discriminate].
Qed.

(** X20. The LLMD parser has no alternate-dialect path: a store whose
    [messages] table has no [attachments] column, as in the alternate
    dialect, is refused with a [LLMCFormatError] around the error of the
    query. *)
Theorem LLMD_refuses_alternate_dialect (data : bytes) (db : database) (t : table) :
  db_open data = Ok db ->
  application_id db = LLMD.SQLITE_APPLICATION_ID ->
  find_table "messages" db = Ok t ->
  column_index "attachments" (tbl_columns t) = None ->
  exists m,
    LLMD._parse_sqlite_data data
    = Raise (LLMCFormatError ("SQLite parsing error: " ++ m)%string).
Proof.
  intros Ho Hid Ht Hc. unfold LLMD._parse_sqlite_data. rewrite Ho. cbn [rbind].
  rewrite Hid, Z.eqb_refl. cbn [negb].
  unfold LLMD._parse_messages, select_messages_plain.
  destruct (select_from_missing_column "messages"
              ["id"; "role"; "content"; "timestamp"; "parent_id"; "attachments";
               "metadata"] db t "attachments" Ht) as [m E];
    [simpl; tauto | exact Hc |].
  rewrite E. cbn [rbind try_except is_sqlite3_Error exn_str]. eauto.
Qed.

End CrossFormat.

(** ** Structured participants and repeated normalisation *)

Lemma collect_roles_mappings (ps : list pyval) :
  Forall is_mapping ps -> collect_roles ps = Ok (roles_of ps).
Proof.
  induction 1 as [| p ps [d ->] _ IH]; [reflexivity |].
  cbn [collect_roles py_in rbind]. unfold dict_in.
  unfold roles_of. cbn [flat_map field]. fold (roles_of ps).
  destruct (dict_get "role" d) as [r |] eqn:E.
  - cbn [py_getitem]. rewrite E. cbn [rbind]. now rewrite IH.
  - exact IH.
Qed.

(** X21. Participants given as records are replaced by their roles: when
    [participants] is a list of mappings, the normalised metadata holds the
    [role] of each mapping that has one, in list order; when none has a
    role, the list is left as it is. The other keys are not touched. *)
Theorem structured_participants_become_roles (d : dict) (p : dict)
    (rest : list pyval) :
  dict_get "participants" d = Some (PList (PDict p :: rest)) ->
  Forall is_mapping rest ->
  dict_in "version" d = true ->
  dict_in "created_at" d = true ->
  exists r,
    normalize_metadata (PDict d) = Ok (PDict r)
    /\ dict_get "participants" r
       = Some (PList (match roles_of (PDict p :: rest) with
                      | [] => PDict p :: rest
                      | roles => roles
                      end))
    /\ (forall k, k <> "participants" -> dict_get k r = dict_get k d).
Proof.
  intros Hp Hrest Hv Hc.
  rewrite LLMC_normalize_unfold.
  apply dict_in_get in Hc as [c Hc].
  rewrite (rename_legacy_keeps_canonical "created" _ _ _ Hc).
  assert (Hall : Forall is_mapping (PDict p :: rest))
    by (constructor; [now exists p | exact Hrest]).
  unfold normalize_participants. rewrite Hp.
  rewrite (collect_roles_mappings _ Hall). cbn [rbind].
  destruct (roles_of (PDict p :: rest)) as [| role roles] eqn:E.
  - rewrite require_fields_ok.
    + cbn [rbind]. exists d. split; [reflexivity |]. split; [exact Hp | reflexivity].
    + intros f [<- | [<- | [<- | []]]]; [exact Hv | | ];
        apply dict_in_get; eauto.
  - rewrite require_fields_ok.
    + cbn [rbind]. eexists. split; [reflexivity |].
      split; [apply dict_get_set_same |].
      intros k Hk. now apply dict_get_set_other.
    + intros f [<- | [<- | [<- | []]]].
      * now apply dict_in_set_keeps.
      * apply dict_in_set_keeps. apply dict_in_get. eauto.
      * apply dict_in_get. rewrite dict_get_set_same. eauto.
Qed.

(** X22. Normalising metadata twice changes nothing: a normalised mapping
    whose participants are not records is returned as it is by both
    normalisations. *)
Theorem normalize_metadata_idempotent (v : pyval) (r : dict) :
  normalize_metadata v = Ok (PDict r) \/ LLMD.normalize_metadata v = Ok (PDict r) ->
  participants_plain r ->
  normalize_metadata (PDict r) = Ok (PDict r)
  /\ LLMD.normalize_metadata (PDict r) = Ok (PDict r).
Proof.
  intros H Hp.
  assert (Hall : has_all required_metadata_fields r).
  { destruct H as [H | H].
    - destruct (normalize_metadata_has_required _ _ H) as (d & E & Hd).
      now injection E as <-.
    - destruct v as [| | | | | | d]; try discriminate.
      rewrite LLMD_normalize_unfold in H.
      destruct (normalize_metadata_has_required _ _ H) as (d' & E & Hd).
      now injection E as <-. }
  assert (E : normalize_metadata (PDict r) = Ok (PDict r))
    by (now apply normalize_metadata_canonical).
  split; [exact E |].
  rewrite LLMD_normalize_unfold.
  assert (Hv : dict_in "version" r = true) by (apply Hall; simpl; tauto).
  apply dict_in_get in Hv as [x Hv].
  now rewrite (rename_legacy_keeps_canonical "llmd_version" _ _ _ Hv).
Qed.

Section NonMapping.
Context {caps : Capabilities}.

(** X23. A YAML block that loads as anything but a mapping (a scalar, a
    list, or nothing at all) makes the parse fail with the
    [LLMCFormatError] that asks for a dictionary: so it is for every
    container whose header announces the well-formed block [yb], whatever
    its store offset and whatever follows the block. *)
Theorem non_mapping_metadata_rejected (yb rest : bytes) (so : Z) (v : pyval) :
  (Z.of_nat (length yb) < 2 ^ 32)%Z ->
  (0 <= so < 2 ^ 64)%Z ->
  utf8_valid yb = true ->
  yaml_safe_load (strip_yaml_text (string_of_list_byte yb)) = Ok v ->
  (forall d, v <> PDict d) ->
  fst (parse_stream
         (mkStream (header_bytes (Z.of_nat (length yb)) so ++ yb ++ rest) 0))
  = Raise (LLMCFormatError "YAML metadata must be a dictionary").
Proof.
  intros Hlen Hso Hvalid Hl Hv.
  rewrite parse_stream_outcome. unfold parse_outcome.
  rewrite header_outcome_written by lia. cbn [rbind yaml_length].
  unfold yaml_section_outcome. rewrite Nat2Z.id.
  assert (E : firstn (length yb)
                (skipn 32 (header_bytes (Z.of_nat (length yb)) so ++ yb ++ rest)) = yb).
  { rewrite <- (length_header_bytes (Z.of_nat (length yb)) so) at 1.
    rewrite firstn_skipn_app_mid by lia. apply firstn_all. }
  rewrite E, Z.eqb_refl.
  cbn [negb]. unfold utf8_decode. rewrite Hvalid. cbn [rbind].
  unfold _parse_metadata. rewrite Hl. cbn [rbind].
  destruct v as [| | | | | | d]; try reflexivity.
  now destruct (Hv d).
Qed.

End NonMapping.


(** ** Files *)

Lemma file_content_store_same (path : string) (b : bytes) (fl : list (string * bytes)) :
  file_content path (store_file path b fl) = Some b.
Proof.
  induction fl as [| [p b'] fl IH]; cbn [store_file file_content].
  - now rewrite String.eqb_refl.
  - destruct (String.eqb path p) eqn:E; cbn [file_content].
    + now rewrite String.eqb_refl.
    + now rewrite E.
Qed.

Lemma file_content_store_other (path path' : string) (b : bytes)
    (fl : list (string * bytes)) :
  path' <> path ->
  file_content path' (store_file path b fl) = file_content path' fl.
Proof.
  intros Hne. induction fl as [| [p b'] fl IH]; cbn [store_file file_content].
  - apply String.eqb_neq in Hne. now rewrite Hne.
  - destruct (String.eqb path p) eqn:E; cbn [file_content].
    + apply String.eqb_eq in E. subst p.
      apply String.eqb_neq in Hne. now rewrite Hne.
    + destruct (String.eqb path' p); [reflexivity | exact IH].
Qed.

Section FileTheorems.
Context {caps : Capabilities}.

(** X24. [write_file] opens its target before it looks at the conversation:
    when the conversation is refused before any output (it does not pass
    the check, its YAML text cannot be generated, or the store refuses it),
    [write_file] raises what [write_stream] raises and the file at the path
    is left empty, whatever it held before; the other files are as they
    were. *)
Theorem failed_write_file_empties_target (c : pyval) (path : string)
    (fs : filesystem) (e : exn) :
  refused fs path = None ->
  generated_sections c = Raise e ->
  exists fs',
    write_file c path fs = (Raise (wrap_write_error e), fs')
    /\ file_content path (files fs') = Some []
    /\ (forall p, p <> path -> file_content p (files fs') = file_content p (files fs)).
Proof.
  intros Hopen Hg. unfold write_file, open_wb. rewrite Hopen.
  rewrite (write_stream_generation_failure c (mkStream [] 0) e Hg).
  cbn [content].
  eexists. split; [reflexivity |].
  unfold set_file. cbn [files]. split.
  - apply file_content_store_same.
  - intros p Hp. now rewrite !file_content_store_other by exact Hp.
Qed.

(** X25. Round trip through a file: for a conversation that the writer
    stores field by field, [write_file] succeeds on a path that can be
    opened, and [parse_file] on that path then returns the same metadata
    and attachments and the same messages with the same fields, in
    non-decreasing order of their timestamps. *)
Theorem file_roundtrip (c : pyval) (md : dict) (msgs atts : list pyval)
    (text path : string) (fs : filesystem) :
  write_ready c md msgs atts text ->
  db_open (db_file (stored msgs atts)) = Ok (stored msgs atts) ->
  refused fs path = None ->
  exists fs' c' sorted,
    write_file c path fs = (Ok tt, fs')
    /\ parse_file path fs' = Ok c'
    /\ field c' "metadata" = Some (PDict md)
    /\ Permutation msgs sorted
    /\ Forall2 (same_fields message_fields) sorted (messages_of c')
    /\ nondecreasing (map (text_field "timestamp") (messages_of c'))
    /\ Forall2 (same_fields attachment_fields) atts (attachments_of c').
Proof.
  intros Hready Hdb Hopen.
  destruct (roundtrip_sorted_core c md msgs atts text Hready Hdb)
    as (Hw & sorted & msgs' & atts' & Hp & Hperm & Hsorted & Hm & Ha).
  eexists. exists (assemble (PDict md) (msgs', atts')), sorted. split.
  - unfold write_file, open_wb. rewrite Hopen, Hw. reflexivity.
  - cbn [content].
    destruct (assemble_fields (PDict md) msgs' atts') as (E1 & _ & E3 & E4).
    rewrite E3, E4.
    split.
    + unfold parse_file, open_rb, set_file. cbn [refused files].
      rewrite Hopen, file_content_store_same.
      now rewrite parse_stream_outcome, Hp.
    + split; [exact E1 |]. split; [exact Hperm |].
      split; [exact Hm |]. split; [| exact Ha].
      now rewrite (same_fields_timestamps sorted msgs' Hm).
Qed.

End FileTheorems.


(** ** Runs of the properties under the reference services *)

Lemma parsed_conversation_passes_validation_witness :
  exists c,
    fst (@parse_stream Reference.services
           (mkStream (sample_container alt_sample_store) 0)) = Ok c
    /\ _validate_conversation c = Ok tt.
Proof.
  eexists. split; [vm_compute; reflexivity |].
  apply (@parsed_conversation_passes_validation Reference.services
           (mkStream (sample_container alt_sample_store) 0)).
  vm_compute. reflexivity.
Defined.

Lemma parsed_conversation_keys_witness :
  exists c,
    fst (@parse_stream Reference.services
           (mkStream (written (attached_conversation 3 [x41; x42; x43])) 0)) = Ok c
    /\ (exists md msgs,
          field c "metadata" = Some (PDict md)
          /\ field c "messages" = Some (PList msgs))
    /\ (field c "attachments" = None
        \/ exists a atts, field c "attachments" = Some (PList (a :: atts)))
    /\ (forall k, field c k <> None -> In k ["metadata"; "messages"; "attachments"]).
Proof.
  eexists. split; [vm_compute; reflexivity |].
  apply (@parsed_conversation_keys Reference.services
           (mkStream (written (attached_conversation 3 [x41; x42; x43])) 0)).
  vm_compute. reflexivity.
Defined.

Lemma bytes_between_sections_ignored_witness :
  fst (@parse_stream Reference.services (mkStream (gapped_sample [x00; x01; x02]) 0))
  = fst (@parse_stream Reference.services (mkStream (gapped_sample [xff; xfe; xfd]) 0)).
Proof.
  apply (@bytes_between_sections_ignored Reference.services).
  - vm_compute. reflexivity.
  - intros h Hh. vm_compute in Hh. injection Hh as <-.
    split; vm_compute; reflexivity.
Defined.

Lemma incomplete_yaml_section_rejected_witness :
  fst (@parse_stream Reference.services (mkStream (sample_header ++ [x61; x62]) 0))
  = Raise (LLMCFormatError "Incomplete YAML section").
Proof.
  apply (@incomplete_yaml_section_rejected Reference.services
           (sample_header ++ [x61; x62]) (mkHeader 1 1 5 37)).
  - vm_compute. reflexivity.
  - vm_compute. reflexivity.
Defined.

Lemma invalid_utf8_yaml_rejected_witness :
  exists msg,
    fst (@parse_stream Reference.services
           (mkStream (header_bytes 2 34 ++ [xff; xfe]) 0))
    = Raise (LLMCFormatError ("Invalid UTF-8 in YAML section: " ++ msg)%string).
Proof.
  apply (@invalid_utf8_yaml_rejected Reference.services
           (header_bytes 2 34 ++ [xff; xfe]) (mkHeader 1 1 2 34)).
  - vm_compute. reflexivity.
  - vm_compute. discriminate.
  - vm_compute. reflexivity.
Defined.

Lemma yaml_leading_nuls_dropped_witness :
  fst (_read_yaml_section (Z.of_nat (3 + 4))
         (mkStream (repeat x00 3 ++ [x61; x3a; x20; x31] ++ [x53]) 0))
  = Ok "a: 1"%string.
Proof.
  apply (yaml_leading_nuls_dropped 3 [x61; x3a; x20; x31] [x53]).
  reflexivity.
Defined.

Lemma missing_messages_table_rejected_witness :
  @_parse_sqlite_data Reference.services
     (@db_file Reference.services store_without_tables)
  = Raise (LLMCFormatError "Unsupported database schema: no such table: messages").
Proof.
  apply (@missing_messages_table_rejected Reference.services
           (@db_file Reference.services store_without_tables) store_without_tables).
  - vm_compute. reflexivity.
  - reflexivity.
  - simpl. tauto.
Defined.

Lemma unreadable_attachments_dropped_witness :
  @_parse_attachments Reference.services store_without_tables = Ok []
  /\ @_parse_attachments Reference.services
        (store_of alt_sample_messages attachments_without_checksum) = Ok [].
Proof.
  split.
  - apply (@unreadable_attachments_dropped Reference.services store_without_tables).
    simpl. tauto.
  - apply (proj2 (@unreadable_attachments_dropped Reference.services
                    (store_of alt_sample_messages attachments_without_checksum))
             attachments_without_checksum); reflexivity.
Defined.

Lemma entry_points_raise_package_errors_witness :
  ((exists e,
      fst (@parse_stream Reference.services (mkStream LLMC_MAGIC 0)) = Raise e
      /\ exists m, e = LLMCParseError m \/ e = LLMCFormatError m)
   /\ (exists e,
         fst (@write_stream Reference.services conversation_without_version
                (mkStream LLMC_MAGIC 0)) = Raise e
         /\ exists m, e = LLMCValidationError m \/ e = LLMCFormatError m))
  /\ fst (@parse_stream interrupted_services
            (mkStream (sample_container (plain_store SNull SNull)) 0))
     = Raise (KeyboardInterrupt "").
Proof.
  split; [split; eexists; (split; [vm_compute; reflexivity |]) |].
  - refine (proj1 (proj1 (@entry_points_raise_package_errors Reference.services
                            conversation_without_version (mkStream LLMC_MAGIC 0) _)
                     _) _);
      [reflexivity | vm_compute; reflexivity].
  - refine (proj2 (proj1 (@entry_points_raise_package_errors Reference.services
                            conversation_without_version (mkStream LLMC_MAGIC 0) _)
                     _) _);
      [reflexivity | vm_compute; reflexivity].
  - refine (proj2 (@entry_points_raise_package_errors interrupted_services
                     PNone (mkStream [] 0) (KeyboardInterrupt ""))
              _ (sample_container (plain_store SNull SNull)) _ _ _ _ _);
      [reflexivity | vm_compute; reflexivity | vm_compute; reflexivity | reflexivity].
Defined.

Lemma failed_generation_leaves_stream_witness :
  @generated_sections Reference.services conversation_with_duplicate_id
  = Raise (LLMCFormatError
             "SQLite generation error: UNIQUE constraint failed: messages.id")
  /\ @write_stream Reference.services conversation_with_duplicate_id
       (mkStream [x41; x42] 2)
     = (Raise (LLMCFormatError
                 "SQLite generation error: UNIQUE constraint failed: messages.id"),
        mkStream [x41; x42] 2).
Proof.
  assert (E : @generated_sections Reference.services conversation_with_duplicate_id
              = Raise (LLMCFormatError
                         "SQLite generation error: UNIQUE constraint failed: messages.id"))
    by (vm_compute; reflexivity).
  split; [exact E |].
  exact (proj1 (@failed_generation_leaves_stream Reference.services
                  conversation_with_duplicate_id (mkStream [x41; x42] 2)) _ E).
Defined.

Lemma header_roundtrip_witness :
  exists s',
    _write_header 108 140 (mkStream [] 0) = (Ok tt, s')
    /\ length (content s') = 32
    /\ position s' = 32
    /\ fst (_read_header (mkStream (content s' ++ [x64; x65]) 0))
       = Ok (mkHeader 1 1 108 140).
Proof.
  apply (header_roundtrip 108 140 [x64; x65]); lia.
Defined.

Lemma header_field_overflow_witness :
  (exists msg s',
     _write_header (2 ^ 32) 0 (mkStream [] 0) = (Raise (struct_error msg), s')
     /\ content s' = [] ++ LLMC_MAGIC ++ [x01; x00; x00; x00] ++ [x01; x00; x00; x00])
  /\ (exists msg s',
        _write_header 5 (2 ^ 64) (mkStream [] 0) = (Raise (struct_error msg), s')
        /\ content s' = [] ++ LLMC_MAGIC ++ [x01; x00; x00; x00]
                           ++ [x01; x00; x00; x00] ++ le_encode 4 5).
Proof.
  split.
  - apply (header_field_overflow (2 ^ 32) 0 (mkStream [] 0)); [reflexivity |].
    right. lia.
  - apply (proj2 (header_field_overflow 5 (2 ^ 64) (mkStream [] 0) eq_refl)); lia.
Defined.

Lemma duplicate_message_id_rejected_witness :
  @write_stream Reference.services conversation_with_duplicate_id (mkStream [] 0)
  = (Raise (LLMCFormatError
              "SQLite generation error: UNIQUE constraint failed: messages.id"),
     mkStream [] 0).
Proof.
  apply (@duplicate_message_id_rejected Reference.services
           [ ("metadata", PDict sample_metadata);
             ("messages",
              PList [ sample_message "msg_1" "user" "Hello" "2024-01-15T10:30:00Z";
                      sample_message "msg_1" "assistant" "Hi" "2024-01-15T10:30:05Z" ]) ]
           (PDict sample_metadata)
           (Reference.encode_value (PDict sample_metadata))
           [ sample_message "msg_1" "user" "Hello" "2024-01-15T10:30:00Z" ] []
           (sample_message "msg_1" "assistant" "Hi" "2024-01-15T10:30:05Z")).
  - reflexivity.
  - reflexivity.
  - reflexivity.
  - reflexivity.
  - repeat constructor; storable_by_lookup.
  - repeat constructor; simpl; intuition.
  - storable_by_lookup.
  - simpl. tauto.
Defined.

Lemma empty_optional_field_stored_as_absent_witness :
  @insert_message Reference.services
     (store_of (mkTable messages_columns []) (mkTable attachments_columns []))
     (PDict message_with_empty_list)
  = @insert_message Reference.services
       (store_of (mkTable messages_columns []) (mkTable attachments_columns []))
       (PDict (dict_pop "attachments" message_with_empty_list)).
Proof.
  apply (@empty_optional_field_stored_as_absent Reference.services _
           message_with_empty_list "attachments" (PList [])).
  - simpl. tauto.
  - reflexivity.
  - reflexivity.
Defined.

Lemma null_required_field_rejected_witness :
  @write_stream Reference.services conversation_with_null_content (mkStream [] 0)
  = (Raise (LLMCFormatError
              "SQLite generation error: NOT NULL constraint failed: messages.content"),
     mkStream [] 0).
Proof.
  apply (@null_required_field_rejected Reference.services
           [ ("metadata", PDict sample_metadata);
             ("messages", PList [PDict message_with_null_content]) ]
           (PDict sample_metadata)
           (Reference.encode_value (PDict sample_metadata))
           [] [] message_with_null_content "content").
  - reflexivity.
  - reflexivity.
  - reflexivity.
  - reflexivity.
  - constructor.
  - constructor.
  - simpl. tauto.
  - reflexivity.
  - intros k' Hk' Hne. cbn [In required_message_fields] in Hk'.
    destruct Hk' as [<- | [<- | [<- | [<- | []]]]];
      first [eexists; reflexivity | now destruct Hne].
  - exact I.
  - exact I.
  - exact I.
Defined.

(** The two-message scenario with the later message first. *)
Lemma reversed_scenario_ready :
  @write_ready Reference.services
     (scenario "2024-01-15T10:30:05Z" "2024-01-15T10:30:00Z") sample_metadata
     (scenario_messages "2024-01-15T10:30:05Z" "2024-01-15T10:30:00Z") []
     (Reference.encode_value (PDict sample_metadata)).
Proof.
  constructor.
  - eexists. repeat split; reflexivity.
  - intros f [<- | [<- | [<- | []]]]; reflexivity.
  - exact I.
  - repeat split; vm_compute; reflexivity.
  - repeat constructor; storable_by_lookup.
  - repeat constructor; simpl; intuition discriminate.
  - constructor.
  - constructor.
Qed.

Lemma roundtrip_returns_messages_by_timestamp_witness :
  exists s' c' sorted,
    @write_stream Reference.services
       (scenario "2024-01-15T10:30:05Z" "2024-01-15T10:30:00Z") (mkStream [] 0)
    = (Ok tt, s')
    /\ fst (@parse_stream Reference.services (mkStream (content s') 0)) = Ok c'
    /\ field c' "metadata" = Some (PDict sample_metadata)
    /\ Permutation (scenario_messages "2024-01-15T10:30:05Z" "2024-01-15T10:30:00Z")
                   sorted
    /\ Forall2 (same_fields message_fields) sorted (messages_of c')
    /\ nondecreasing (map (text_field "timestamp") (messages_of c'))
    /\ Forall2 (same_fields attachment_fields) [] (attachments_of c').
Proof.
  apply (@roundtrip_returns_messages_by_timestamp Reference.services
           (scenario "2024-01-15T10:30:05Z" "2024-01-15T10:30:00Z") sample_metadata
           (scenario_messages "2024-01-15T10:30:05Z" "2024-01-15T10:30:00Z") []
           (Reference.encode_value (PDict sample_metadata))).
  - exact reversed_scenario_ready.
  - vm_compute. reflexivity.
Defined.

Lemma LLMD_roundtrip_witness :
  exists s' c' sorted,
    @LLMD.write_stream Reference.services
       (scenario "2024-01-15T10:30:05Z" "2024-01-15T10:30:00Z") (mkStream [] 0)
    = (Ok tt, s')
    /\ length (content s')
       = 24 + length (list_byte_of_string
                        (Reference.encode_value (PDict sample_metadata)))
         + length (@db_file Reference.services
                     (@LLMD_stored Reference.services
                        (scenario_messages "2024-01-15T10:30:05Z"
                           "2024-01-15T10:30:00Z") []))
    /\ fst (@LLMD.parse_stream Reference.services (mkStream (content s') 0)) = Ok c'
    /\ field c' "metadata" = Some (PDict sample_metadata)
    /\ Permutation (scenario_messages "2024-01-15T10:30:05Z" "2024-01-15T10:30:00Z")
                   sorted
    /\ Forall2 (same_fields message_fields) sorted (messages_of c')
    /\ nondecreasing (map (text_field "timestamp") (messages_of c'))
    /\ Forall2 (same_fields attachment_fields) [] (attachments_of c').
Proof.
  apply (@LLMD_roundtrip Reference.services
           (scenario "2024-01-15T10:30:05Z" "2024-01-15T10:30:00Z") sample_metadata
           (scenario_messages "2024-01-15T10:30:05Z" "2024-01-15T10:30:00Z") []
           (Reference.encode_value (PDict sample_metadata))).
  - exact reversed_scenario_ready.
  - vm_compute. reflexivity.
Defined.

Lemma packages_refuse_each_other_witness :
  (exists s',
     @LLMD.write_stream Reference.services
        (scenario "2024-01-15T10:30:00Z" "2024-01-15T10:30:05Z") (mkStream [] 0)
     = (Ok tt, s')
     /\ fst (@parse_stream Reference.services (mkStream (content s') 0))
        = Raise (LLMCFormatError "Invalid magic bytes: b'LLMD'"))
  /\ (exists s',
        @write_stream Reference.services
           (scenario "2024-01-15T10:30:00Z" "2024-01-15T10:30:05Z") (mkStream [] 0)
        = (Ok tt, s')
        /\ fst (@LLMD.parse_stream Reference.services (mkStream (content s') 0))
           = Raise (LLMCFormatError "Invalid magic bytes: b'LLMC'")).
Proof.
  split; eexists; (split; [vm_compute; reflexivity |]).
  - apply (proj1 (@packages_refuse_each_other Reference.services
                    (scenario "2024-01-15T10:30:00Z" "2024-01-15T10:30:05Z") _)).
    vm_compute. reflexivity.
  - apply (proj2 (@packages_refuse_each_other Reference.services
                    (scenario "2024-01-15T10:30:00Z" "2024-01-15T10:30:05Z") _)).
    vm_compute. reflexivity.
Defined.

Lemma parsers_agree_on_write_schema_witness :
  exists msgs atts,
    @LLMD._parse_messages Reference.services
       (@stored Reference.services attached_messages
          [sample_attachment 3 [x41; x42; x43]]) = Ok msgs
    /\ @_parse_messages Reference.services
          (@stored Reference.services attached_messages
             [sample_attachment 3 [x41; x42; x43]]) = Ok msgs
    /\ @_parse_attachments Reference.services
          (@stored Reference.services attached_messages
             [sample_attachment 3 [x41; x42; x43]]) = Ok atts.
Proof.
  eexists. eexists. split; [vm_compute; reflexivity |].
  apply (@parsers_agree_on_write_schema Reference.services
           (@stored Reference.services attached_messages
              [sample_attachment 3 [x41; x42; x43]])).
  - eexists. vm_compute. reflexivity.
  - eexists. vm_compute. reflexivity.
  - vm_compute. reflexivity.
  - vm_compute. reflexivity.
Defined.

Lemma LLMD_refuses_alternate_dialect_witness :
  exists m,
    @LLMD._parse_sqlite_data Reference.services
       (@db_file Reference.services
          (with_application_id LLMD.SQLITE_APPLICATION_ID alt_sample_store))
    = Raise (LLMCFormatError ("SQLite parsing error: " ++ m)%string).
Proof.
  apply (@LLMD_refuses_alternate_dialect Reference.services
           (@db_file Reference.services
              (with_application_id LLMD.SQLITE_APPLICATION_ID alt_sample_store))
           (with_application_id LLMD.SQLITE_APPLICATION_ID alt_sample_store)
           alt_sample_messages).
  - vm_compute. reflexivity.
  - reflexivity.
  - reflexivity.
  - reflexivity.
Defined.

Lemma structured_participants_become_roles_witness :
  exists r,
    normalize_metadata (PDict structured_metadata) = Ok (PDict r)
    /\ dict_get "participants" r = Some (PList [PStr "user"; PStr "assistant"])
    /\ (forall k, k <> "participants" ->
                  dict_get k r = dict_get k structured_metadata).
Proof.
  apply (structured_participants_become_roles structured_metadata
           [("role", PStr "user"); ("name", PStr "Ann")]
           [ PDict [("name", PStr "Bot")]; PDict [("role", PStr "assistant")] ]).
  - reflexivity.
  - repeat constructor; eexists; reflexivity.
  - reflexivity.
  - reflexivity.
Defined.

Lemma normalize_metadata_idempotent_witness :
  normalize_metadata
    (PDict [ ("llmd_version", PStr "0.1"); ("version", PStr "0.1");
             ("title", PStr "Test"); ("created_at", PStr "2024-01-15T10:30:00Z");
             ("participants", default_participants) ])
  = Ok (PDict [ ("llmd_version", PStr "0.1"); ("version", PStr "0.1");
                ("title", PStr "Test"); ("created_at", PStr "2024-01-15T10:30:00Z");
                ("participants", default_participants) ])
  /\ LLMD.normalize_metadata
       (PDict [ ("llmd_version", PStr "0.1"); ("version", PStr "0.1");
                ("title", PStr "Test"); ("created_at", PStr "2024-01-15T10:30:00Z");
                ("participants", default_participants) ])
     = Ok (PDict [ ("llmd_version", PStr "0.1"); ("version", PStr "0.1");
                   ("title", PStr "Test"); ("created_at", PStr "2024-01-15T10:30:00Z");
                   ("participants", default_participants) ]).
Proof.
  apply (normalize_metadata_idempotent
           (PDict [ ("llmd_version", PStr "0.1"); ("version", PStr "0.1");
                    ("created", PStr "2024-01-15T10:30:00Z"); ("title", PStr "Test") ])).
  - left. reflexivity.
  - exact I.
Defined.

Lemma non_mapping_metadata_rejected_witness :
  fst (@parse_stream Reference.services
         (mkStream (header_bytes (Z.of_nat (length [x6e])) 33 ++ [x6e] ++ []) 0))
  = Raise (LLMCFormatError "YAML metadata must be a dictionary").
Proof.
  apply (@non_mapping_metadata_rejected Reference.services [x6e] [] 33 PNone).
  - vm_compute. reflexivity.
  - lia.
  - reflexivity.
  - reflexivity.
  - discriminate.
Defined.

Lemma failed_write_file_empties_target_witness :
  exists fs',
    @write_file Reference.services conversation_without_content "chat.llmc"
       sample_files
    = (Raise (LLMCValidationError "Message 1 missing required field: content"), fs')
    /\ file_content "chat.llmc" (files fs') = Some []
    /\ (forall p, p <> "chat.llmc"%string ->
                  file_content p (files fs') = file_content p (files sample_files)).
Proof.
  apply (@failed_write_file_empties_target Reference.services
           conversation_without_content "chat.llmc" sample_files
           (LLMCValidationError "Message 1 missing required field: content")).
  - reflexivity.
  - vm_compute. reflexivity.
Defined.

Lemma file_roundtrip_witness :
  exists fs' c' sorted,
    @write_file Reference.services
       (scenario "2024-01-15T10:30:05Z" "2024-01-15T10:30:00Z") "chat.llmc"
       sample_files = (Ok tt, fs')
    /\ @parse_file Reference.services "chat.llmc" fs' = Ok c'
    /\ field c' "metadata" = Some (PDict sample_metadata)
    /\ Permutation (scenario_messages "2024-01-15T10:30:05Z" "2024-01-15T10:30:00Z")
                   sorted
    /\ Forall2 (same_fields message_fields) sorted (messages_of c')
    /\ nondecreasing (map (text_field "timestamp") (messages_of c'))
    /\ Forall2 (same_fields attachment_fields) [] (attachments_of c').
Proof.
  apply (@file_roundtrip Reference.services
           (scenario "2024-01-15T10:30:05Z" "2024-01-15T10:30:00Z") sample_metadata
           (scenario_messages "2024-01-15T10:30:05Z" "2024-01-15T10:30:00Z") []
           (Reference.encode_value (PDict sample_metadata)) "chat.llmc" sample_files).
  - exact reversed_scenario_ready.
  - vm_compute. reflexivity.
  - reflexivity.
Defined.


(** ** Attachments that the writer or the parser cannot take *)

Section BrokenAttachments.
Context {caps : Capabilities}.

Lemma insert_attachment_missing_field (conn : database) (da : dict) (k : string) :
  first_missing da required_attachment_fields k ->
  optional json_faithful da "metadata" ->
  insert_attachment conn (PDict da) = Raise (KeyError ("'" ++ k ++ "'")%string).
Proof.
  intros Hk Hj.
  destruct (json_cell_faithful da "metadata" Hj) as [Ej _].
  unfold insert_attachment. rewrite Ej. cbn [rbind py_getitem].
  unfold required_attachment_fields in Hk.
  repeat match goal with
         | H : first_missing _ (_ :: _) _ |- _ =>
             let Hm := fresh "Hm" in
             let Hi := fresh "Hi" in
             let Hr := fresh "Hr" in
             inversion H as [? ? Hm | ? ? ? Hi Hr]; subst; clear H;
             [ apply dict_in_false in Hm; rewrite Hm; reflexivity
             | apply dict_in_get in Hi as [? Hi]; rewrite Hi; cbn [rbind] ]
         | H : first_missing _ [] _ |- _ => inversion H
         end.
Qed.

(** X26. The pre-write check does not look at the attachments: an attachment
    that lacks [id], [filename], [content_type], [size] or [data] passes it,
    and [write_stream] fails when it reaches that attachment, with a
    [LLMCFormatError] around the [KeyError] for the first missing key and
    with nothing written. *)
Theorem attachment_without_field_fails_late (d : dict) (md : pyval)
    (text : string) (msgs before after : list pyval) (da : dict) (k : string)
    (s : BinaryIO) :
  _validate_conversation (PDict d) = Ok tt ->
  dict_get "metadata" d = Some md ->
  yaml_dump md = Ok text ->
  dict_get "messages" d = Some (PList msgs) ->
  Forall storable_message msgs ->
  NoDup (map (text_field "id") msgs) ->
  dict_get "attachments" d = Some (PList (before ++ PDict da :: after)) ->
  Forall storable_attachment before ->
  NoDup (map (text_field "id") before) ->
  first_missing da required_attachment_fields k ->
  optional json_faithful da "metadata" ->
  write_stream (PDict d) s =
    (Raise (LLMCFormatError ("Unexpected error during writing: '" ++ k ++ "'")), s).
Proof.
  intros Hv Hmd Hy Hms Hstor Hnd Ha Hb Hndb Hk Hj.
  rewrite (write_stream_store_failure d md text
             (KeyError ("'" ++ k ++ "'")) s Hv Hmd Hy); [reflexivity |].
  unfold _generate_sqlite.
  replace (_create_schema (mkDatabase SQLITE_APPLICATION_ID (tables empty_database)))
    with (Ok (store_of (mkTable messages_columns []) (mkTable attachments_columns [])))
    by reflexivity.
  cbn [rbind py_getitem py_in]. rewrite Hms. cbn [rbind].
  unfold _insert_messages. cbn [py_iter rbind].
  pose proof (insert_all_messages (mkTable attachments_columns []) msgs []
                (Forall_nil _) Hstor Hnd) as Hi.
  cbn [map app] in Hi. rewrite Hi. clear Hi.
  cbn [rbind]. unfold dict_in. rewrite Ha. cbn [rbind].
  unfold _insert_attachments. cbn [py_iter rbind].
  rewrite insert_all_app.
  pose proof (insert_all_attachments (mkTable messages_columns (map row_of_message msgs))
                before [] (Forall_nil _) Hb Hndb) as Hi.
  cbn [map app] in Hi. rewrite Hi. clear Hi.
  cbn [rbind insert_all].
  rewrite (insert_attachment_missing_field _ da k Hk Hj).
  reflexivity.
Qed.


End BrokenAttachments.

Lemma attachment_without_field_fails_late_witness :
  @write_stream Reference.services conversation_with_broken_attachment
     (mkStream [] 0)
  = (Raise (LLMCFormatError "Unexpected error during writing: 'data'"),
     mkStream [] 0).
Proof.
  apply (@attachment_without_field_fails_late Reference.services
           [ ("metadata", PDict sample_metadata);
             ("messages",
              PList [sample_message "msg_1" "user" "Hello" "2024-01-15T10:30:00Z"]);
             ("attachments", PList [PDict attachment_without_data]) ]
           (PDict sample_metadata)
           (Reference.encode_value (PDict sample_metadata))
           [sample_message "msg_1" "user" "Hello" "2024-01-15T10:30:00Z"]
           [] [] attachment_without_data "data").
  - reflexivity.
  - reflexivity.
  - reflexivity.
  - reflexivity.
  - repeat constructor; storable_by_lookup.
  - repeat constructor; simpl; intuition.
  - reflexivity.
  - constructor.
  - constructor.
  - repeat (apply first_missing_later; [reflexivity |]).
    apply first_missing_here. reflexivity.
  - exact I.
Defined.



(** ** The stripped YAML text and a missing store *)

Lemma drop_prefix_length (p l l' : bytes) :
  drop_prefix p l = Some l' -> length l = length p + length l'.
Proof.
  revert l. induction p as [| x p IH]; intros l H; cbn [drop_prefix] in H.
  - injection H as <-. reflexivity.
  - destruct l as [| y l]; [discriminate |].
    destruct (Byte.eqb x y); [| discriminate].
    cbn [length]. now rewrite (IH l H).
Qed.

Lemma drop_prefix_app (p l l' : bytes) :
  drop_prefix p l = Some l' -> l = p ++ l'.
Proof.
  revert l. induction p as [| x p IH]; intros l H; cbn [drop_prefix] in H.
  - injection H as <-. reflexivity.
  - destruct l as [| y l]; [discriminate |].
    destruct (Byte.eqb x y) eqn:E; [| discriminate].
    apply Byte.byte_dec_bl in E. subst y. cbn [app]. f_equal. now apply IH.
Qed.

Lemma drop_prefix_extend (p l l' t : bytes) :
  drop_prefix p l = Some l' -> drop_prefix p (l ++ t) = Some (l' ++ t).
Proof.
  revert l. induction p as [| x p IH]; intros l H; cbn [drop_prefix] in H |- *.
  - injection H as <-. reflexivity.
  - destruct l as [| y l]; [discriminate |]. cbn [app].
    destruct (Byte.eqb x y); [now apply IH | discriminate].
Qed.

Lemma drop_any_shorter (ps : list bytes) (l l' : bytes) :
  Forall (fun p => p <> []) ps ->
  drop_any ps l = Some l' -> length l' < length l.
Proof.
  induction 1 as [| p ps Hp _ IH]; cbn [drop_any]; [discriminate |].
  destruct (drop_prefix p l) as [r |] eqn:E.
  - intros H. injection H as <-. apply drop_prefix_length in E.
    destruct p; [congruence | cbn [length] in E; lia].
  - exact IH.
Qed.

Lemma drop_any_suffix (ps : list bytes) (l l' : bytes) :
  drop_any ps l = Some l' -> exists p, l = p ++ l'.
Proof.
  induction ps as [| p ps IH]; cbn [drop_any]; [discriminate |].
  destruct (drop_prefix p l) as [r |] eqn:E.
  - intros H. injection H as <-. exists p. now apply drop_prefix_app.
  - exact IH.
Qed.

Lemma drop_any_extend (ps : list bytes) (l l' t : bytes) :
  drop_any ps l = Some l' -> exists r, drop_any ps (l ++ t) = Some r.
Proof.
  induction ps as [| p ps IH]; cbn [drop_any]; [discriminate |].
  destruct (drop_prefix p l) as [r |] eqn:E.
  - intros _. rewrite (drop_prefix_extend _ _ _ t E). eauto.
  - intros H. destruct (drop_prefix p (l ++ t)); [eauto | now apply IH].
Qed.

(** With enough fuel the stripping goes on until no sequence matches, and
    what it returns is the end of what it was given. *)
Lemma lstrip_seqs_done (ps : list bytes) :
  Forall (fun p => p <> []) ps ->
  forall fuel l,
    length l <= fuel ->
    drop_any ps (lstrip_seqs fuel ps l) = None
    /\ exists p, l = p ++ lstrip_seqs fuel ps l.
Proof.
  intros Hps. induction fuel as [| fuel IH]; intros l Hl.
  - destruct l; [| cbn in Hl; lia]. cbn [lstrip_seqs]. split.
    + clear - Hps. induction Hps as [| p ps Hp _ IH]; [reflexivity |].
      cbn [drop_any]. destruct p; [congruence |]. cbn [drop_prefix]. exact IH.
    + exists []. reflexivity.
  - cbn [lstrip_seqs]. destruct (drop_any ps l) as [l' |] eqn:E.
    + pose proof (drop_any_shorter ps l l' Hps E).
      destruct (IH l' ltac:(lia)) as [Hd [p Hp]]. split; [exact Hd |].
      destruct (drop_any_suffix ps l l' E) as [q Hq].
      exists (q ++ p). rewrite <- app_assoc, <- Hp. exact Hq.
    + split; [exact E |]. exists []. reflexivity.
Qed.

Lemma whitespace_nonempty : Forall (fun p : bytes => p <> []) py_whitespace.
Proof. unfold py_whitespace. repeat constructor; discriminate. Qed.

Lemma rev_whitespace_nonempty :
  Forall (fun p : bytes => p <> []) (map (@rev byte) py_whitespace).
Proof. unfold py_whitespace. cbn [map rev app]. repeat constructor; discriminate. Qed.

Lemma strip_yaml_text_stripped (s : string) :
  ~ starts_with_whitespace (strip_yaml_text s)
  /\ ~ ends_with_whitespace (strip_yaml_text s).
Proof.
  unfold starts_with_whitespace, ends_with_whitespace, strip_yaml_text.
  rewrite list_byte_of_string_of_list_byte.
  set (l0 := lstrip_nul (list_byte_of_string s)).
  unfold lstrip_ws, rstrip_ws.
  destruct (lstrip_seqs_done py_whitespace whitespace_nonempty (length l0) l0 (le_n _))
    as [Hl _].
  set (l1 := lstrip_seqs (length l0) py_whitespace l0) in *.
  destruct (lstrip_seqs_done (map (@rev byte) py_whitespace) rev_whitespace_nonempty
              (length l1) (rev l1)) as [Hr [p Hp]].
  { now rewrite length_rev. }
  set (l2 := lstrip_seqs (length l1) (map (@rev byte) py_whitespace) (rev l1)) in *.
  split.
  - intros [rest H].
    assert (E : l1 = rev l2 ++ rev p).
    { rewrite <- rev_app_distr, <- Hp. now rewrite rev_involutive. }
    destruct (drop_any_extend _ _ _ (rev p) H) as [r Hr'].
    rewrite <- E in Hr'. congruence.
  - intros [rest H]. rewrite rev_involutive in H. congruence.
Qed.

(** X28. The text that [_read_yaml_section] returns is stripped: it neither
    starts nor ends with a character that [str.strip()] removes, whatever
    the stream holds. *)
Theorem yaml_text_is_stripped (n : Z) (s : BinaryIO) (text : string) :
  fst (_read_yaml_section n s) = Ok text ->
  ~ starts_with_whitespace text /\ ~ ends_with_whitespace text.
Proof.
  unfold _read_yaml_section, bind, stream_read.
  destruct (negb _); cbn [throw fst]; [discriminate |].
  destruct (utf8_decode _) as [t | e]; cbn [ret throw fst]; [| discriminate].
  intros H. injection H as <-. apply strip_yaml_text_stripped.
Qed.

Lemma yaml_text_is_stripped_witness :
  fst (_read_yaml_section 9
         (mkStream [x00; x20; x0a; x61; x3a; x20; x31; x09; x0a] 0)) = Ok "a: 1"%string
  /\ ~ starts_with_whitespace "a: 1" /\ ~ ends_with_whitespace "a: 1".
Proof.
  split; [reflexivity |].
  apply (yaml_text_is_stripped 9
           (mkStream [x00; x20; x0a; x61; x3a; x20; x31; x09; x0a] 0)).
  reflexivity.
Defined.

Section MissingStore.
Context {caps : Capabilities}.

(** X29. A container that ends before its store: when [sqlite_offset] points
    at or behind the end of the input, and is an offset that [seek] accepts
    (one below 2^63), the store section is empty; the engine opens an empty
    file as a database without tables and with application id 0, and the
    parse fails with the [LLMCFormatError] of an invalid application id. *)
Theorem missing_store_section_rejected (yb : bytes) (so : Z) (md : pyval) :
  (Z.of_nat (length yb) < 2 ^ 32)%Z ->
  (32 + Z.of_nat (length yb) <= so < 2 ^ 63)%Z ->
  utf8_valid yb = true ->
  _parse_metadata (strip_yaml_text (string_of_list_byte yb)) = Ok md ->
  db_open [] = Ok empty_database ->
  fst (parse_stream (mkStream (header_bytes (Z.of_nat (length yb)) so ++ yb) 0))
  = Raise (LLMCFormatError "Invalid SQLite application ID: 0x0").
Proof.
  intros Hlen Hso Hvalid Hmd Hopen.
  rewrite <- (app_nil_r yb) at 2.
  rewrite parse_stream_outcome. unfold parse_outcome.
  rewrite header_outcome_written by lia. cbn [rbind yaml_length sqlite_offset].
  unfold yaml_section_outcome. rewrite Nat2Z.id.
  assert (E : firstn (length yb)
                (skipn 32 (header_bytes (Z.of_nat (length yb)) so ++ yb ++ [])) = yb).
  { rewrite <- (length_header_bytes (Z.of_nat (length yb)) so) at 1.
    rewrite firstn_skipn_app_mid by lia. apply firstn_all. }
  rewrite E, Z.eqb_refl.
  cbn [negb]. unfold utf8_decode. rewrite Hvalid. cbn [rbind].
  rewrite Hmd. cbn [rbind].
  rewrite skipn_all2.
  2: { rewrite !length_app, length_header_bytes. cbn [length]. lia. }
  unfold _parse_sqlite_data. rewrite Hopen. reflexivity.
Qed.

End MissingStore.

Lemma missing_store_section_rejected_witness :
  fst (@parse_stream Reference.services
         (mkStream
            (header_bytes
               (Z.of_nat (length (list_byte_of_string
                                    (Reference.encode_value (PDict sample_metadata)))))
               4096
             ++ list_byte_of_string (Reference.encode_value (PDict sample_metadata)))
            0))
  = Raise (LLMCFormatError "Invalid SQLite application ID: 0x0").
Proof.
  apply (@missing_store_section_rejected Reference.services
           (list_byte_of_string (Reference.encode_value (PDict sample_metadata)))
           4096 (PDict sample_metadata)).
  - vm_compute. reflexivity.
  - vm_compute. split; [discriminate | reflexivity].
  - vm_compute. reflexivity.
  - vm_compute. reflexivity.
  - reflexivity.
Defined.


(** ** What the store keeps of an attachment *)

Section StoredAttachments.
Context {caps : Capabilities}.
























End StoredAttachments.

